(** * Hand-Tetris: the gesture recognition engine of [hand-control.js]

    A shallow embedding of the [HandControl] class: calibration, the
    detection-health bookkeeping of [onResults], the head-shake, hand-raise
    and hand-stability classifiers, the fast-drop and continuous-move timers
    and the action arbitration of [detectHandGestures].

    Conventions of the embedding.
    - A JavaScript number holding a coordinate is an IEEE binary64 value:
      Rocq's primitive [float], with the same rounding as the engine.
    - [Date.now()] and the counters are integers: [Z].  One cycle reads one
      clock value [now]; the timestamps stored in the history windows are
      never compared by the engine.
    - The fields of [this] are grouped into sub-records along the comment
      sections of the constructor; every field keeps its source name.
    - The [TetrisGame] class is not part of the sources read here: the game
      is a type with the four operations the engine uses.
    - Canvas drawing and [console.log] are left out, except for the one log
      statement that raises (see [debugLogThrows]).  The calls on the canvas
      and on the game are taken not to raise, and the game's methods not to
      call back into the engine: [onPiecePlaced] and the [setTimeout]
      callback reach it between two frames (see [Event]). *)

From Stdlib Require Import ZArith List Bool Lia.
From Stdlib Require Import Floats.PrimFloat.
From Stdlib Require Uint63.
Import ListNotations.

Set Warnings "-inexact-float".

Local Open Scope Z_scope.

(** ** JavaScript numbers *)

Module JS.

(** [Number(n)] for an array length or a small count. *)
Definition numberOfZ (z : Z) : float := PrimFloat.of_uint63 (Uint63.of_Z z).

Definition numberOfLength {A : Type} (l : list A) : float :=
  numberOfZ (Z.of_nat (length l)).

(** [a > b], [a < b], [a <= b] on numbers (false on NaN). *)
Definition gt (a b : float) : bool := PrimFloat.ltb b a.
Definition lt (a b : float) : bool := PrimFloat.ltb a b.
Definition le (a b : float) : bool := PrimFloat.leb a b.

Definition min2 (a b : float) : float :=
  if PrimFloat.is_nan a then a
  else if PrimFloat.is_nan b then b
  else if PrimFloat.ltb a b then a
  else if PrimFloat.ltb b a then b
  else if PrimFloat.get_sign a then a else b.

Definition max2 (a b : float) : float :=
  if PrimFloat.is_nan a then a
  else if PrimFloat.is_nan b then b
  else if PrimFloat.ltb a b then b
  else if PrimFloat.ltb b a then a
  else if PrimFloat.get_sign a then b else a.

(** [Math.min(...xs)] and [Math.max(...xs)]. *)
Definition Math_min (xs : list float) : float :=
  fold_left min2 xs PrimFloat.infinity.
Definition Math_max (xs : list float) : float :=
  fold_left max2 xs PrimFloat.neg_infinity.

(** [xs.reduce((sum, val) => sum + val, 0)]. *)
Definition sum (xs : list float) : float :=
  fold_left PrimFloat.add xs PrimFloat.zero.

(** [Math.pow(v, 2)], taken as the correctly rounded square. *)
Definition pow2 (v : float) : float := PrimFloat.mul v v.

(** [arr.push(v); if (arr.length > size) arr.shift();] *)
Definition pushBounded {A : Type} (size : Z) (v : A) (arr : list A) : list A :=
  let arr' := arr ++ [v] in
  if size <? Z.of_nat (length arr') then tl arr' else arr'.

(** [arr.slice(-n)]. *)
Definition sliceLast {A : Type} (n : Z) (arr : list A) : list A :=
  skipn (length arr - Z.to_nat n) arr.

End JS.

(** ** Landmarks and samples *)

Record Landmark : Type := mkLandmark
  { x : float; y : float; z : float; visibility : float }.

(** [results.poseLandmarks]: an array whose entries may be missing. *)
Definition Landmarks : Type := list (option Landmark).

Definition landmarkAt (landmarks : Landmarks) (i : nat) : option Landmark :=
  match nth_error landmarks i with
  | Some (Some p) => Some p
  | _ => None
  end.

Record Results : Type := mkResults { poseLandmarks : option Landmarks }.

(** An entry of a history window: [{x, y, timestamp}]. *)
Record Position : Type := mkPosition
  { pos_x : float; pos_y : float; timestamp : Z }.

(** A baseline point: [{x, y, z}]. *)
Record Point3 : Type := mkPoint3 { px : float; py : float; pz : float }.

Inductive HandState : Type := up | down.

Definition HandState_eqb (a b : HandState) : bool :=
  match a, b with
  | up, up | down, down => true
  | _, _ => false
  end.

(** The values of [action] and [lastAction]: [''], ['left'], ['right'],
    ['rotate']. *)
Inductive Action : Type := NoAction | MoveLeft | MoveRight | Rotate.

Definition Action_eqb (a b : Action) : bool :=
  match a, b with
  | NoAction, NoAction | MoveLeft, MoveLeft
  | MoveRight, MoveRight | Rotate, Rotate => true
  | _, _ => false
  end.

Inductive Hand : Type := LeftHand | RightHand.

(** A piece identifier, [currentPiece.id]: a number. *)
Definition PieceId : Type := Z.

(** JavaScript truthiness of an identifier. *)
Definition truthyId (id : PieceId) : bool := negb (id =? 0).

Definition optId_eqb (a b : option PieceId) : bool :=
  match a, b with
  | Some i, Some j => i =? j
  | None, None => true
  | _, _ => false
  end.

(** What a cycle does to its collaborators, in call order. *)
Inductive Effect : Type :=
| CallMovePiece (dx dy : Z)
| CallRotatePiece
| NotifyCalibrationComplete
| NotifyGestureStatus (detected : bool).

Definition isRotate (e : Effect) : bool :=
  match e with CallRotatePiece => true | _ => false end.

Definition isDropStep (e : Effect) : bool :=
  match e with CallMovePiece 0 1 => true | _ => false end.

Definition isGameCall (e : Effect) : bool :=
  match e with
  | CallMovePiece _ _ | CallRotatePiece => true
  | _ => false
  end.

(** ** Control parameters (the constructor's constants) *)

Local Open Scope float_scope.

Definition handRaiseThreshold : float := 0.12.
Definition headShakeThreshold : float := 0.08.
Definition bothHandsVisibilityThreshold : float := 0.6.
Definition handStabilityThreshold : float := 0.01.
Definition headShakeDetectionThreshold : float := 0.001.

Local Close Scope float_scope.

Definition handStabilityFrames : Z := 5.
Definition actionCooldown : Z := 150.
Definition handHistorySize : Z := 10.
Definition maxCalibrationFrames : Z := 30.
Definition headHistorySize : Z := 20.
Definition requiredShakeFrames : Z := 12.
Definition fastDropTriggerDelay : Z := 500.
Definition fastDropInterval : Z := 80.
Definition continuousMoveThreshold : Z := 800.
Definition continuousMoveInterval : Z := 120.
Definition maxFailureCount : Z := 30.
Definition detectionHistorySize : Z := 10.

(** ** The engine's state: the fields of [this] *)

(** Debounce parameters. *)
Record Debounce : Type := mkDebounce
  { lastAction : Action; lastActionTime : Z }.

(** Hand state tracking.  [lastLeftHandState] and [lastRightHandState] are
    not set by the constructor: [None] is [undefined]. *)
Record HandStates : Type := mkHandStates
  { leftHandState : HandState;
    rightHandState : HandState;
    bothHandsVisible : bool;
    lastBothHandsVisible : bool;
    lastLeftHandState : option HandState;
    lastRightHandState : option HandState }.

(** Hand stability tracking for continuous movement. *)
Record HandHistory : Type := mkHandHistory
  { leftHandHistory : list Position; rightHandHistory : list Position }.

(** Baseline position for calibration, and the completion prompt. *)
Record Calibration : Type := mkCalibration
  { baselineLeftShoulder : option Point3;
    baselineRightShoulder : option Point3;
    baselineNose : option Point3;
    calibrationFrames : Z;
    calibrationCompleteTime : Z;
    showCalibrationComplete : bool;
    calibrationCompletedNotified : bool }.

(** Head shake detection for fast drop. *)
Record HeadShake : Type := mkHeadShake
  { headHistory : list Position;
    isHeadShaking : bool;
    consecutiveShakeFrames : Z }.

(** Fast drop detection. *)
Record FastDrop : Type := mkFastDrop
  { fastDropStartTime : Z;
    lastFastDropTime : Z;
    isFastDropTriggered : bool;
    currentPieceId : option PieceId;
    fastDropPieceId : option PieceId }.

(** Continuous movement detection. *)
Record ContinuousMove : Type := mkContinuousMove
  { continuousMoveStartTime : Z;
    lastContinuousMoveTime : Z;
    isInContinuousMode : bool }.

(** Pose detection stability tracking and quality assessment. *)
Record Detection : Type := mkDetection
  { isGestureDetected : bool;
    lastGestureDetectionStatus : bool;
    poseDetectionFailureCount : Z;
    lastSuccessfulDetection : Z;
    recentDetectionHistory : list bool;
    frameCounter : Z }.

Record HandControl : Type := mkHandControl
  { debounce : Debounce;
    hands : HandStates;
    handHistory : HandHistory;
    calibration : Calibration;
    headShake : HeadShake;
    fastDrop : FastDrop;
    continuous : ContinuousMove;
    detection : Detection }.

Definition with_debounce (v : Debounce) (s : HandControl) : HandControl :=
  mkHandControl v (hands s) (handHistory s) (calibration s) (headShake s)
                (fastDrop s) (continuous s) (detection s).
Definition with_hands (v : HandStates) (s : HandControl) : HandControl :=
  mkHandControl (debounce s) v (handHistory s) (calibration s) (headShake s)
                (fastDrop s) (continuous s) (detection s).
Definition with_handHistory (v : HandHistory) (s : HandControl) : HandControl :=
  mkHandControl (debounce s) (hands s) v (calibration s) (headShake s)
                (fastDrop s) (continuous s) (detection s).
Definition with_calibration (v : Calibration) (s : HandControl) : HandControl :=
  mkHandControl (debounce s) (hands s) (handHistory s) v (headShake s)
                (fastDrop s) (continuous s) (detection s).
Definition with_headShake (v : HeadShake) (s : HandControl) : HandControl :=
  mkHandControl (debounce s) (hands s) (handHistory s) (calibration s) v
                (fastDrop s) (continuous s) (detection s).
Definition with_fastDrop (v : FastDrop) (s : HandControl) : HandControl :=
  mkHandControl (debounce s) (hands s) (handHistory s) (calibration s)
                (headShake s) v (continuous s) (detection s).
Definition with_continuous (v : ContinuousMove) (s : HandControl) : HandControl :=
  mkHandControl (debounce s) (hands s) (handHistory s) (calibration s)
                (headShake s) (fastDrop s) v (detection s).
Definition with_detection (v : Detection) (s : HandControl) : HandControl :=
  mkHandControl (debounce s) (hands s) (handHistory s) (calibration s)
                (headShake s) (fastDrop s) (continuous s) v.

(** ** Classifiers *)

(** [calculateVariance(values)]. *)
Definition calculateVariance (values : list float) : float :=
  match values with
  | [] => PrimFloat.zero
  | _ =>
    let n := JS.numberOfLength values in
    let mean := PrimFloat.div (JS.sum values) n in
    let squaredDiffs := map (fun val => JS.pow2 (PrimFloat.sub val mean)) values in
    PrimFloat.div (JS.sum squaredDiffs) n
  end.

(** [isHandStable(hand)]. *)
Definition isHandStable (hh : HandHistory) (hand : Hand) : bool :=
  let history :=
    match hand with
    | LeftHand => leftHandHistory hh
    | RightHand => rightHandHistory hh
    end in
  if (Z.of_nat (length history) <? handStabilityFrames)%Z then false
  else
    let recentFrames := JS.sliceLast handStabilityFrames history in
    let xPositions := map pos_x recentFrames in
    let yPositions := map pos_y recentFrames in
    let xVariance := calculateVariance xPositions in
    let yVariance := calculateVariance yPositions in
    JS.lt xVariance handStabilityThreshold
    && JS.lt yVariance handStabilityThreshold.

(** [updateHeadHistory(nose)]. *)
Definition updateHeadHistory (nose : Landmark) (now : Z) (h : HeadShake)
  : HeadShake :=
  mkHeadShake
    (JS.pushBounded headHistorySize (mkPosition (x nose) (y nose) now)
                    (headHistory h))
    (isHeadShaking h) (consecutiveShakeFrames h).

(** [updateHandHistory(leftWrist, rightWrist)]. *)
Definition updateHandHistory (leftWrist rightWrist : Landmark) (now : Z)
           (hh : HandHistory) : HandHistory :=
  mkHandHistory
    (JS.pushBounded handHistorySize
       (mkPosition (x leftWrist) (y leftWrist) now) (leftHandHistory hh))
    (JS.pushBounded handHistorySize
       (mkPosition (x rightWrist) (y rightWrist) now) (rightHandHistory hh)).

Local Open Scope float_scope.
Definition rangeThreshold : float := 0.08.
Definition varianceThreshold : float := 0.001.
Local Close Scope float_scope.

(** The per-frame condition of [detectHeadShake] on a full window. *)
Definition isCurrentFrameShaking (history : list Position) : bool :=
  let xPositions := map pos_x history in
  let minX := JS.Math_min xPositions in
  let maxX := JS.Math_max xPositions in
  let xRange := PrimFloat.sub maxX minX in
  let xVariance := calculateVariance xPositions in
  JS.gt xRange rangeThreshold && JS.gt xVariance varianceThreshold.

(** [detectHeadShake()]. *)
Definition detectHeadShake (h : HeadShake) : HeadShake :=
  if (Z.of_nat (length (headHistory h)) <? headHistorySize)%Z then
    mkHeadShake (headHistory h) false 0
  else
    let consecutive :=
      if isCurrentFrameShaking (headHistory h)
      then consecutiveShakeFrames h + 1
      else 0 in
    mkHeadShake (headHistory h) (requiredShakeFrames <=? consecutive)%Z
                consecutive.

(** ** Calibration *)

Definition zeroPoint : Point3 :=
  mkPoint3 PrimFloat.zero PrimFloat.zero PrimFloat.zero.

(** [b.x += p.x; b.y += p.y; b.z += p.z]. *)
Definition accumulate (b : Point3) (p : Landmark) : Point3 :=
  mkPoint3 (PrimFloat.add (px b) (x p)) (PrimFloat.add (py b) (y p))
           (PrimFloat.add (pz b) (z p)).

(** [b.x /= n; b.y /= n; b.z /= n]. *)
Definition divideBy (n : Z) (b : Point3) : Point3 :=
  let d := JS.numberOfZ n in
  mkPoint3 (PrimFloat.div (px b) d) (PrimFloat.div (py b) d)
           (PrimFloat.div (pz b) d).

(** [calibrateBaseline(landmarks)].  The counter [calibrationFrames] is read
    here and advanced by the caller, [onResults]. *)
Definition calibrateBaseline (landmarks : Landmarks) (now : Z) (c : Calibration)
  : Calibration * list Effect :=
  match landmarkAt landmarks 11, landmarkAt landmarks 12, landmarkAt landmarks 0 with
  | Some leftShoulder, Some rightShoulder, Some nose =>
    let '(bl, br, bn) :=
      match baselineLeftShoulder c with
      | None => (Some zeroPoint, Some zeroPoint, Some zeroPoint)
      | Some _ =>
        (baselineLeftShoulder c, baselineRightShoulder c, baselineNose c)
      end in
    match bl, br, bn with
    | Some l, Some r, Some n =>
      let l := accumulate l leftShoulder in
      let r := accumulate r rightShoulder in
      let n := accumulate n nose in
      if calibrationFrames c =? maxCalibrationFrames - 1 then
        (mkCalibration (Some (divideBy maxCalibrationFrames l))
                       (Some (divideBy maxCalibrationFrames r))
                       (Some (divideBy maxCalibrationFrames n))
                       (calibrationFrames c) now true true,
         [NotifyCalibrationComplete])
      else
        (mkCalibration (Some l) (Some r) (Some n) (calibrationFrames c)
                       (calibrationCompleteTime c) (showCalibrationComplete c)
                       (calibrationCompletedNotified c),
         [])
    | Some l, Some r, None =>
      (* the baseline nose is null: its [+=] raises after both shoulders
         were accumulated, and the function's [catch] swallows it *)
      (mkCalibration (Some (accumulate l leftShoulder))
                     (Some (accumulate r rightShoulder)) None
                     (calibrationFrames c) (calibrationCompleteTime c)
                     (showCalibrationComplete c)
                     (calibrationCompletedNotified c),
       [])
    | Some l, None, _ =>
      (* the baseline right shoulder is null: its [+=] raises after the
         left shoulder was accumulated *)
      (mkCalibration (Some (accumulate l leftShoulder)) None bn
                     (calibrationFrames c) (calibrationCompleteTime c)
                     (showCalibrationComplete c)
                     (calibrationCompletedNotified c),
       [])
    | None, _, _ => (c, [])
    end
  | _, _, _ => (c, [])
  end.

(** The constructor, at clock value [now]. *)
Definition newHandControl (now : Z) : HandControl :=
  mkHandControl
    (mkDebounce NoAction 0)
    (mkHandStates down down false false None None)
    (mkHandHistory [] [])
    (mkCalibration None None None 0 0 false false)
    (mkHeadShake [] false 0)
    (mkFastDrop 0 0 false None None)
    (mkContinuousMove 0 0 false)
    (mkDetection false false 0 now [] 0).

(** [resetCalibration()]: it leaves [lastFastDropTime] and
    [lastContinuousMoveTime] as they are. *)
Definition resetCalibration (now : Z) (s : HandControl) : HandControl :=
  mkHandControl
    (mkDebounce NoAction 0)
    (mkHandStates down down false false (Some down) (Some down))
    (mkHandHistory [] [])
    (mkCalibration None None None 0 0 false false)
    (mkHeadShake [] false 0)
    (mkFastDrop 0 (lastFastDropTime (fastDrop s)) false None None)
    (mkContinuousMove 0 (lastContinuousMoveTime (continuous s)) false)
    (mkDetection false false 0 now [] 0).

(** [resetDropSpeed()]. *)
Definition resetDropSpeed (s : HandControl) : HandControl :=
  let f := fastDrop s in
  with_fastDrop
    (mkFastDrop 0 (lastFastDropTime f) false (currentPieceId f) None) s.

(** The callback scheduled by [setTimeout] after a non-continuous action:
    [this.lastAction = '']. *)
Definition clearLastAction (s : HandControl) : HandControl :=
  with_debounce (mkDebounce NoAction (lastActionTime (debounce s))) s.

(** ** Gesture classification of one sample *)

Local Open Scope float_scope.

Definition isHandVisible (wrist : Landmark) : bool :=
  JS.gt (visibility wrist) bothHandsVisibilityThreshold.

Definition isHandInFrame (wrist : Landmark) : bool :=
  JS.gt (x wrist) 0.05 && JS.lt (x wrist) 0.95
  && JS.gt (y wrist) 0.05 && JS.lt (y wrist) 0.95.

Definition areBothHandsVisible (leftWrist rightWrist : Landmark) : bool :=
  isHandVisible leftWrist && isHandVisible rightWrist
  && isHandInFrame leftWrist && isHandInFrame rightWrist.

(** [shoulder.y - wrist.y > this.handRaiseThreshold]. *)
Definition isHandUp (shoulder wrist : Landmark) : bool :=
  JS.gt (y shoulder - y wrist) handRaiseThreshold.

Definition areBothHandsUp (leftShoulder rightShoulder leftWrist rightWrist : Landmark)
  : bool :=
  isHandUp leftShoulder leftWrist && isHandUp rightShoulder rightWrist.

Definition shouldRotate (leftShoulder rightShoulder leftWrist rightWrist : Landmark)
  : bool :=
  areBothHandsVisible leftWrist rightWrist
  && areBothHandsUp leftShoulder rightShoulder leftWrist rightWrist.

Local Close Scope float_scope.

Definition handStateOf (isUp : bool) : HandState := if isUp then up else down.

Definition isUp (h : HandState) : bool := HandState_eqb h up.
Definition isDown (h : HandState) : bool := HandState_eqb h down.

(** [last === 'up'] on a field that may be [undefined]. *)
Definition wasUp (last : option HandState) : bool :=
  match last with Some up => true | _ => false end.

(** The debug block guarded by [this.frameCounter % 30 === 0] inside
    [detectHandGestures] interpolates [areBothHandsUp], [handHeightDifference],
    [shouldRotate] and [maxHeightDifference] above their [const] declarations:
    reading them raises a ReferenceError, which the function's [catch] logs.
    The cycle stops there, after the head window was updated. *)
Definition debugLogThrows (frameCounter : Z) : bool :=
  Z.rem frameCounter 30 =? 0.

(** ** The game collaborator *)

(** What the engine uses of [this.tetrisGame]: the [gameRunning] flag, the
    identifier of [currentPiece] ([None] when there is no piece), and the
    calls [movePiece(dx, dy)] and [rotatePiece()]. *)
Record TetrisGame (Game : Type) : Type := mkTetrisGame
  { gameRunning : Game -> bool;
    currentPiece : Game -> option PieceId;
    movePiece : Z -> Z -> Game -> bool * Game;
    rotatePiece : Game -> Game }.

Arguments mkTetrisGame {Game} _ _ _ _.
Arguments gameRunning {Game} _ _.
Arguments currentPiece {Game} _ _.
Arguments movePiece {Game} _ _ _ _.
Arguments rotatePiece {Game} _ _.

(** ** The gesture step *)

Section Engine.

Context {Game : Type} (T : TetrisGame Game).

(** Track current piece ID and reset fast drop for new pieces. *)
Definition trackCurrentPiece (piece : option PieceId) (f : FastDrop) : FastDrop :=
  match piece with
  | Some id =>
    if negb (optId_eqb (currentPieceId f) (Some id)) then
      let oldPieceId := currentPieceId f in
      if isFastDropTriggered f && optId_eqb (fastDropPieceId f) oldPieceId
      then mkFastDrop 0 (lastFastDropTime f) false (Some id) None
      else mkFastDrop (fastDropStartTime f) (lastFastDropTime f)
                      (isFastDropTriggered f) (Some id) (fastDropPieceId f)
    else f
  | None => f
  end.

(** Head shake -> fast drop: the qualification timer and the arming. *)
Definition fastDropTimer (shaking : bool) (now : Z) (piece : option PieceId)
           (f : FastDrop) : FastDrop :=
  if shaking then
    if negb (isFastDropTriggered f) then
      if fastDropStartTime f =? 0 then
        mkFastDrop now (lastFastDropTime f) (isFastDropTriggered f)
                   (currentPieceId f) (fastDropPieceId f)
      else
        let elapsed := now - fastDropStartTime f in
        if fastDropTriggerDelay <=? elapsed then
          match piece with
          | Some id =>
            if truthyId id && negb (optId_eqb (Some id) (fastDropPieceId f))
            then mkFastDrop (fastDropStartTime f) 0 true (currentPieceId f)
                            (Some id)
            else f
          | None => f
          end
        else f
    else f
  else
    let f' :=
      if (0 <? fastDropStartTime f) || isFastDropTriggered f
      then mkFastDrop (fastDropStartTime f) (lastFastDropTime f) false
                      (currentPieceId f) None
      else f in
    mkFastDrop 0 (lastFastDropTime f') (isFastDropTriggered f')
               (currentPieceId f') (fastDropPieceId f').

(** Execute the fast drop: one [movePiece(0, 1)] at most. *)
Definition executeFastDrop (now : Z) (g : Game) (f : FastDrop)
  : FastDrop * Game * list Effect :=
  if isFastDropTriggered f && gameRunning T g then
    let currentPieceId' := currentPiece T g in
    if optId_eqb currentPieceId' (fastDropPieceId f)
       && (fastDropInterval <=? now - lastFastDropTime f)
    then
      let (moved, g') := movePiece T 0 1 g in
      if moved then
        (mkFastDrop (fastDropStartTime f) now (isFastDropTriggered f)
                    (currentPieceId f) (fastDropPieceId f),
         g', [CallMovePiece 0 1])
      else
        (mkFastDrop (fastDropStartTime f) (lastFastDropTime f) false
                    (currentPieceId f) None,
         g', [CallMovePiece 0 1])
    else (f, g, [])
  else (f, g, []).

(** Rotation on the edge, else a single hand going up. *)
Definition detectSingleHand (bothHandsJustAppeared rotateNow : bool)
           (h : HandStates) (now : Z) (c : ContinuousMove)
  : Action * ContinuousMove :=
  let action := if bothHandsJustAppeared then Rotate else NoAction in
  if negb rotateNow then
    if isUp (leftHandState h) && negb (wasUp (lastLeftHandState h))
       && isDown (rightHandState h)
    then (MoveLeft, mkContinuousMove now (lastContinuousMoveTime c) false)
    else if isUp (rightHandState h) && negb (wasUp (lastRightHandState h))
            && isDown (leftHandState h)
    then (MoveRight, mkContinuousMove now (lastContinuousMoveTime c) false)
    else (action, c)
  else (action, c).

(** One arm of the continuous-move block, for the hand [hand] moving the
    piece by [move]. *)
Definition continuousArm (hand : Hand) (move : Action) (hh : HandHistory)
           (now : Z) (action : Action) (c : ContinuousMove)
  : Action * ContinuousMove :=
  let holdTime := now - continuousMoveStartTime c in
  let isStable := isHandStable hh hand in
  if (continuousMoveThreshold <=? holdTime) && negb (isInContinuousMode c)
     && isStable
  then (move, mkContinuousMove (continuousMoveStartTime c) now true)
  else if isInContinuousMode c
          && (continuousMoveInterval <=? now - lastContinuousMoveTime c)
          && isStable
  then (move, mkContinuousMove (continuousMoveStartTime c) now
                               (isInContinuousMode c))
  else if isInContinuousMode c && negb isStable
  then (action, mkContinuousMove 0 (lastContinuousMoveTime c) false)
  else (action, c).

(** A hand held up -> continuous movement. *)
Definition detectContinuousMove (rotateNow : bool) (h : HandStates)
           (hh : HandHistory) (now : Z) (action : Action) (c : ContinuousMove)
  : Action * ContinuousMove :=
  if negb rotateNow then
    if isUp (leftHandState h) && wasUp (lastLeftHandState h)
       && isDown (rightHandState h)
    then continuousArm LeftHand MoveLeft hh now action c
    else if isUp (rightHandState h) && wasUp (lastRightHandState h)
            && isDown (leftHandState h)
    then continuousArm RightHand MoveRight hh now action c
    else if isDown (leftHandState h) && isDown (rightHandState h)
    then (action, mkContinuousMove 0 (lastContinuousMoveTime c) false)
    else (action, c)
  else
    if isInContinuousMode c
    then (action, mkContinuousMove 0 (lastContinuousMoveTime c) false)
    else (action, c).

(** [executeAction(action)]. *)
Definition executeAction (action : Action) (g : Game) : Game * list Effect :=
  if negb (gameRunning T g) then (g, [])
  else
    match action with
    | MoveLeft => (snd (movePiece T (-1) 0 g), [CallMovePiece (-1) 0])
    | MoveRight => (snd (movePiece T 1 0 g), [CallMovePiece 1 0])
    | Rotate => (rotatePiece T g, [CallRotatePiece])
    | NoAction => (g, [])
    end.

(** The closing block of [detectHandGestures]: execute the action and start
    the cooldown of a non-continuous one. *)
Definition dispatchAction (action : Action) (isContinuousMove : bool) (now : Z)
           (g : Game) (d : Debounce) : Debounce * Game * list Effect :=
  match action with
  | NoAction => (d, g, [])
  | _ =>
    let shouldExecute :=
      Action_eqb action Rotate || negb (Action_eqb action (lastAction d))
      || isContinuousMove in
    if shouldExecute then
      let (g', effects) := executeAction action g in
      if negb isContinuousMove
      then (mkDebounce action now, g', effects)
      else (d, g', effects)
    else (d, g, [])
  end.

(** The body of [detectHandGestures] once the five landmarks are there and
    the debug log did not raise. *)
Definition arbitrate (s : HandControl) (leftShoulder rightShoulder leftWrist
           rightWrist : Landmark) (now : Z) (g : Game)
  : HandControl * Game * list Effect :=
  let isLeftHandUp := isHandUp leftShoulder leftWrist in
  let isRightHandUp := isHandUp rightShoulder rightWrist in
  let hh := updateHandHistory leftWrist rightWrist now (handHistory s) in
  let rotateNow := shouldRotate leftShoulder rightShoulder leftWrist rightWrist in
  let bothHandsJustAppeared := rotateNow && negb (bothHandsVisible (hands s)) in
  let h :=
    mkHandStates (handStateOf isLeftHandUp) (handStateOf isRightHandUp)
                 rotateNow (lastBothHandsVisible (hands s))
                 (lastLeftHandState (hands s)) (lastRightHandState (hands s)) in
  let f := trackCurrentPiece (currentPiece T g) (fastDrop s) in
  let f := fastDropTimer (isHeadShaking (headShake s)) now (currentPiece T g) f in
  let '(f, g, dropEffects) := executeFastDrop now g f in
  let (action, c) :=
    detectSingleHand bothHandsJustAppeared rotateNow h now (continuous s) in
  let (action, c) := detectContinuousMove rotateNow h hh now action c in
  let h :=
    mkHandStates (leftHandState h) (rightHandState h) (bothHandsVisible h)
                 (bothHandsVisible h) (Some (leftHandState h))
                 (Some (rightHandState h)) in
  let '(d, g, actionEffects) :=
    dispatchAction action (isInContinuousMode c) now g (debounce s) in
  (mkHandControl d h hh (calibration s) (headShake s) f c (detection s),
   g, dropEffects ++ actionEffects).

(** [detectHandGestures(landmarks)]. *)
Definition detectHandGestures (s : HandControl) (landmarks : Landmarks)
           (now : Z) (g : Game) : HandControl * Game * list Effect :=
  match baselineLeftShoulder (calibration s),
        baselineRightShoulder (calibration s),
        baselineNose (calibration s) with
  | Some _, Some _, Some _ =>
    if now - lastActionTime (debounce s) <? actionCooldown then (s, g, [])
    else
      match landmarkAt landmarks 15, landmarkAt landmarks 16,
            landmarkAt landmarks 11, landmarkAt landmarks 12,
            landmarkAt landmarks 0 with
      | Some leftWrist, Some rightWrist, Some leftShoulder,
        Some rightShoulder, Some nose =>
        let s :=
          with_headShake
            (detectHeadShake (updateHeadHistory nose now (headShake s))) s in
        if debugLogThrows (frameCounter (detection s)) then (s, g, [])
        else arbitrate s leftShoulder rightShoulder leftWrist rightWrist now g
      | _, _, _, _, _ => (s, g, [])
      end
  | _, _, _ => (s, g, [])
  end.

(** ** One frame: [onResults(results)] *)

(** [filter(x => x).length / length] over the outcome window. *)
Definition successRate (history : list bool) : float :=
  match history with
  | [] => PrimFloat.zero
  | _ =>
    PrimFloat.div (JS.numberOfLength (filter (fun b => b) history))
                  (JS.numberOfLength history)
  end.

(** The tail of [onResults]: notify a status change, count the frame. *)
Definition notifyStatus (d : Detection) : Detection * list Effect :=
  let d' :=
    mkDetection (isGestureDetected d)
                (if Bool.eqb (isGestureDetected d) (lastGestureDetectionStatus d)
                 then lastGestureDetectionStatus d else isGestureDetected d)
                (poseDetectionFailureCount d) (lastSuccessfulDetection d)
                (recentDetectionHistory d) (frameCounter d + 1) in
  (d',
   if Bool.eqb (isGestureDetected d) (lastGestureDetectionStatus d) then []
   else [NotifyGestureStatus (isGestureDetected d)]).

Definition hasPose (results : Results) : option Landmarks :=
  match poseLandmarks results with
  | Some (p :: rest) => Some (p :: rest)
  | _ => None
  end.

Definition onResults (s : HandControl) (results : Results) (now : Z) (g : Game)
  : HandControl * Game * list Effect :=
  let d := detection s in
  match hasPose results with
  | Some landmarks =>
    (* pose detected successfully *)
    let d :=
      mkDetection true (lastGestureDetectionStatus d) 0 now
                  (JS.pushBounded detectionHistorySize true
                                  (recentDetectionHistory d))
                  (frameCounter d) in
    let s := with_detection d s in
    let c := calibration s in
    if calibrationFrames c <? maxCalibrationFrames then
      let (c, effects) := calibrateBaseline landmarks now c in
      let c :=
        mkCalibration (baselineLeftShoulder c) (baselineRightShoulder c)
                      (baselineNose c) (calibrationFrames c + 1)
                      (calibrationCompleteTime c) (showCalibrationComplete c)
                      (calibrationCompletedNotified c) in
      (with_calibration c s, g, effects)
    else
      let c :=
        if showCalibrationComplete c
           && negb (now - calibrationCompleteTime c <? 5000)
        then mkCalibration (baselineLeftShoulder c) (baselineRightShoulder c)
                           (baselineNose c) (calibrationFrames c)
                           (calibrationCompleteTime c) false
                           (calibrationCompletedNotified c)
        else c in
      let s := with_calibration c s in
      let '(s, g, effects) := detectHandGestures s landmarks now g in
      let (d, notes) := notifyStatus (detection s) in
      (with_detection d s, g, effects ++ notes)
  | None =>
    (* no pose detected *)
    let failures := poseDetectionFailureCount d + 1 in
    let history :=
      JS.pushBounded detectionHistorySize false (recentDetectionHistory d) in
    let recentSuccessRate := successRate history in
    let lost :=
      (maxFailureCount <=? failures)
      && JS.lt recentSuccessRate 0.2%float in
    let d :=
      mkDetection (if lost then false else isGestureDetected d)
                  (lastGestureDetectionStatus d) failures
                  (lastSuccessfulDetection d) history (frameCounter d) in
    let (d, notes) := notifyStatus d in
    (with_detection d s, g, notes)
  end.

(** ** Runs *)

(** What reaches the engine between two turns of the event loop: a frame
    from the pose producer (with the clock and the game as they stand then),
    the [setTimeout] callback that clears [lastAction], or the game's
    [onPiecePlaced] callback. *)
Inductive Event : Type :=
| Frame (results : Results) (now : Z) (g : Game)
| CooldownTimer
| PiecePlaced.

Definition step (s : HandControl) (e : Event) : HandControl * list Effect :=
  match e with
  | Frame results now g =>
    let '(s', _, effects) := onResults s results now g in (s', effects)
  | CooldownTimer => (clearLastAction s, [])
  | PiecePlaced => (resetDropSpeed s, [])
  end.

(** The state after a run and the effects of each event, in order. *)
Fixpoint run (s : HandControl) (events : list Event)
  : HandControl * list (list Effect) :=
  match events with
  | [] => (s, [])
  | e :: rest =>
    let (s', effects) := step s e in
    let (s'', log) := run s' rest in
    (s'', effects :: log)
  end.

End Engine.

Arguments Frame {Game} _ _ _.
Arguments CooldownTimer {Game}.
Arguments PiecePlaced {Game}.

(** ** Reading runs *)

Definition rotateCount (effects : list Effect) : nat :=
  length (filter isRotate effects).

Definition dropStepCount (effects : list Effect) : nat :=
  length (filter isDropStep effects).

Definition gameCalls (effects : list Effect) : list Effect :=
  filter isGameCall effects.

(** Calibration is over and left a baseline. *)
Definition calibrated (s : HandControl) : bool :=
  (maxCalibrationFrames <=? calibrationFrames (calibration s))
  && match baselineLeftShoulder (calibration s),
           baselineRightShoulder (calibration s),
           baselineNose (calibration s) with
     | Some _, Some _, Some _ => true
     | _, _, _ => false
     end.

(** The five points the gesture step reads, when they are all there:
    left wrist, right wrist, left shoulder, right shoulder, nose. *)
Definition fivePoints (landmarks : Landmarks)
  : option (Landmark * Landmark * Landmark * Landmark * Landmark) :=
  match landmarkAt landmarks 15, landmarkAt landmarks 16,
        landmarkAt landmarks 11, landmarkAt landmarks 12,
        landmarkAt landmarks 0 with
  | Some leftWrist, Some rightWrist, Some leftShoulder, Some rightShoulder,
    Some nose =>
    Some (leftWrist, rightWrist, leftShoulder, rightShoulder, nose)
  | _, _, _, _, _ => None
  end.

(** The Both-Hands-Up condition on a sample: both wrists visible above 0.6,
    inside the [0.05, 0.95] margin, and raised above the 0.12 threshold. *)
Definition bothHandsUp (landmarks : Landmarks) : bool :=
  match fivePoints landmarks with
  | Some (leftWrist, rightWrist, leftShoulder, rightShoulder, _) =>
    shouldRotate leftShoulder rightShoulder leftWrist rightWrist
  | None => false
  end.

(** The gesture step runs to its end on this cycle: calibration left a
    baseline, the cooldown has elapsed and the debug log does not raise. *)
Definition stepRuns (s : HandControl) (now : Z) : bool :=
  calibrated s
  && negb (now - lastActionTime (debounce s) <? actionCooldown)
  && negb (debugLogThrows (frameCounter (detection s))).




(** The clocks of the frames of a run never go back, starting from [t]. *)
Fixpoint clocksFrom {Game : Type} (t : Z) (events : list (Event (Game := Game)))
  : Prop :=
  match events with
  | [] => True
  | Frame _ now _ :: rest => t <= now /\ clocksFrom now rest
  | _ :: rest => clocksFrom t rest
  end.

(** Every drop step of a run is issued by a frame whose clock is at least
    [t]. *)
Fixpoint dropStepsNotBefore {Game : Type} (t : Z)
         (events : list (Event (Game := Game))) (log : list (list Effect))
  : Prop :=
  match events, log with
  | Frame _ now _ :: rest, effects :: log' =>
    (dropStepCount effects <> 0%nat -> t <= now)
    /\ dropStepsNotBefore t rest log'
  | _ :: rest, effects :: log' =>
    dropStepCount effects = 0%nat /\ dropStepsNotBefore t rest log'
  | _, _ => True
  end.

(** The fast-drop controller is armed and bound to piece [p]. *)
Definition boundTo (p : PieceId) (f : FastDrop) : Prop :=
  isFastDropTriggered f = true
  /\ fastDropPieceId f = Some p
  /\ currentPieceId f = Some p.

(** The fast-drop controller is disarmed, unbound, and its qualification
    timer is cleared or was started at [t]. *)
Definition clearedAt (t : Z) (f : FastDrop) : Prop :=
  isFastDropTriggered f = false
  /\ fastDropPieceId f = None
  /\ (fastDropStartTime f = 0 \/ fastDropStartTime f = t).


(** ** Calibration samples *)

(** The sum the engine holds after accumulating [v] [k] times from zero. *)
Definition partialSum (v : float) (k : nat) : float := JS.sum (repeat v k).

(** Landmark [i] of the sample is present at [(xv, yv)]. *)
Definition pointAt (landmarks : Landmarks) (i : nat) (xv yv : float) : Prop :=
  exists p : Landmark, landmarkAt landmarks i = Some p /\ x p = xv /\ y p = yv.

(** A frame whose sample has the nose at (0.5, 0.3), the left shoulder at
    (0.4, 0.5) and the right shoulder at (0.6, 0.5). *)
Definition calibrationSampleFrame {Game : Type} (e : Event (Game := Game)) : Prop :=
  match e with
  | Frame results _ _ =>
    match hasPose results with
    | Some landmarks =>
      pointAt landmarks 0 0.5%float 0.3%float
      /\ pointAt landmarks 11 0.4%float 0.5%float
      /\ pointAt landmarks 12 0.6%float 0.5%float
    | None => False
    end
  | _ => False
  end.

(** The baseline holds the plain sums of [k] such samples, nothing divided
    and nothing notified. *)
Definition sumsOf (k : nat) (c : Calibration) : Prop :=
  calibrationFrames c = Z.of_nat k
  /\ showCalibrationComplete c = false
  /\ calibrationCompletedNotified c = false
  /\ match k with
     | O =>
       baselineLeftShoulder c = None /\ baselineRightShoulder c = None
       /\ baselineNose c = None
     | S _ =>
       (exists zl, baselineLeftShoulder c
                   = Some (mkPoint3 (partialSum 0.4 k) (partialSum 0.5 k) zl))
       /\ (exists zr, baselineRightShoulder c
                      = Some (mkPoint3 (partialSum 0.6 k) (partialSum 0.5 k) zr))
       /\ (exists zn, baselineNose c
                      = Some (mkPoint3 (partialSum 0.5 k) (partialSum 0.3 k) zn))
     end.

(** ** Feeding the head-shake detector *)

(** The head-shake part of a cycle:
    [this.updateHeadHistory(nose); this.detectHeadShake();]. *)
Definition headStep (h : HeadShake) (nose : Landmark) (now : Z) : HeadShake :=
  detectHeadShake (updateHeadHistory nose now h).

(** Frame [k + 1] of the oscillating sequence: 0.40, 0.50, 0.40, ... *)
Definition oscillating (k : nat) : float :=
  if Nat.even k then 0.40%float else 0.50%float.

Section HeadFeed.

(** The other coordinates of the nose and the clock of each frame. *)
Variables (ys zs vs : nat -> float) (clock : nat -> Z).

Definition noseOf (k : nat) : Landmark :=
  mkLandmark (oscillating k) (ys k) (zs k) (vs k).

(** The detector after [n] frames, from an empty head history. *)
Fixpoint headAfter (n : nat) : HeadShake :=
  match n with
  | O => mkHeadShake [] false 0
  | S k => headStep (headAfter k) (noseOf k) (clock k)
  end.

End HeadFeed.

(** The detector seen through the x-coordinates of its window. *)
Definition xsOf (h : HeadShake) : list float := map pos_x (headHistory h).

Definition shakeView (h : HeadShake) : list float * bool * Z :=
  (xsOf h, isHeadShaking h, consecutiveShakeFrames h).

(** [headStep] on that view. *)
Definition shakeStepX (v : list float * bool * Z) (xv : float)
  : list float * bool * Z :=
  let '(w, _, count) := v in
  let w' := JS.pushBounded headHistorySize xv w in
  if (Z.of_nat (length w') <? headHistorySize)%Z then (w', false, 0)
  else
    let xRange := PrimFloat.sub (JS.Math_max w') (JS.Math_min w') in
    let consecutive :=
      if JS.gt xRange rangeThreshold
         && JS.gt (calculateVariance w') varianceThreshold
      then count + 1 else 0 in
    (w', (requiredShakeFrames <=? consecutive)%Z, consecutive).

Fixpoint viewAfter (n : nat) : list float * bool * Z :=
  match n with
  | O => ([], false, 0)
  | S k => shakeStepX (viewAfter k) (oscillating k)
  end.

(** The two full windows of the oscillation. *)
Definition windowEven : list float := map oscillating (seq 0 20).
Definition windowOdd : list float := map oscillating (seq 1 20).

(** ** Reading the fast-drop controller *)

(** The controller is disarmed and its qualification timer, when it runs,
    was started at [t] or later. *)
Definition requalifyingSince (t : Z) (f : FastDrop) : Prop :=
  isFastDropTriggered f = false
  /\ (fastDropStartTime f = 0 \/ t <= fastDropStartTime f).

(** An armed controller is bound to the piece the engine tracks. *)
Definition bindingConsistent (f : FastDrop) : Prop :=
  isFastDropTriggered f = true ->
  exists p : PieceId, fastDropPieceId f = Some p /\ currentPieceId f = Some p.

(** No frame of the run shows piece [p] as the game's current piece. *)
Fixpoint pieceGone {Game : Type} (T : TetrisGame Game) (p : PieceId)
         (events : list (Event (Game := Game))) : Prop :=
  match events with
  | [] => True
  | Frame _ _ g :: rest => currentPiece T g <> Some p /\ pieceGone T p rest
  | _ :: rest => pieceGone T p rest
  end.

(** The three fast-drop blocks of [detectHandGestures], in sequence. *)
Definition dropPhase {Game : Type} (T : TetrisGame Game) (shaking : bool)
           (now : Z) (g : Game) (f : FastDrop) : FastDrop * Game * list Effect :=
  executeFastDrop T now g
    (fastDropTimer shaking now (currentPiece T g)
       (trackCurrentPiece (currentPiece T g) f)).

(** ** Reading single-hand gestures *)


(** On this sample that hand is up and the other one is down. *)
Definition onlyHandUp (hand : Hand) (leftShoulder rightShoulder leftWrist
                      rightWrist : Landmark) : bool :=
  match hand with
  | LeftHand =>
    isHandUp leftShoulder leftWrist && negb (isHandUp rightShoulder rightWrist)
  | RightHand =>
    isHandUp rightShoulder rightWrist && negb (isHandUp leftShoulder leftWrist)
  end.

(** That hand was up at the end of the previous cycle. *)
Definition wasHandUp (hand : Hand) (h : HandStates) : bool :=
  match hand with
  | LeftHand => wasUp (lastLeftHandState h)
  | RightHand => wasUp (lastRightHandState h)
  end.

(** ** A stand-in game and sample poses *)

Module Scenario.

(** Modelled from the spec: the game collaborator ([attemptMove] returning
    whether the move succeeded, [rotate], [isRunning], [currentPieceId]),
    whose class is not among the sources.  A piece that can still go down
    [rowsBelow] rows; moves to the side always succeed. *)
Record SimpleGame : Type := mkSimpleGame
  { running : bool; piece : option PieceId; rowsBelow : Z }.

Definition simpleMove (dx dy : Z) (g : SimpleGame) : bool * SimpleGame :=
  if dy =? 0 then (true, g)
  else if dy <=? rowsBelow g
  then (true, mkSimpleGame (running g) (piece g) (rowsBelow g - dy))
  else (false, g).

Definition simpleGame : TetrisGame SimpleGame :=
  mkTetrisGame running piece simpleMove (fun g => g).

Definition playing (id : PieceId) : SimpleGame := mkSimpleGame true (Some id) 18.
Definition stopped (id : PieceId) : SimpleGame := mkSimpleGame false (Some id) 18.

Local Open Scope float_scope.

Definition filler : Landmark := mkLandmark 0.5 0.5 0 0.9.

(** A pose of 33 landmarks; the five the engine reads are given, and may be
    missing. *)
Definition poseOf (nose leftShoulder rightShoulder leftWrist rightWrist
                   : option Landmark) : Landmarks :=
  [nose] ++ repeat (Some filler) 10 ++ [leftShoulder; rightShoulder]
         ++ repeat (Some filler) 2 ++ [leftWrist; rightWrist]
         ++ repeat (Some filler) 16.

Definition noseAt (xv : float) : Landmark := mkLandmark xv 0.3 0 0.9.
Definition nose0 : Landmark := noseAt 0.5.
Definition leftShoulder0 : Landmark := mkLandmark 0.4 0.5 0 0.9.
Definition rightShoulder0 : Landmark := mkLandmark 0.6 0.5 0 0.9.
Definition leftWristDown : Landmark := mkLandmark 0.3 0.8 0 0.9.
Definition rightWristDown : Landmark := mkLandmark 0.7 0.8 0 0.9.
Definition leftWristUp : Landmark := mkLandmark 0.3 0.2 0 0.9.
Definition rightWristUp : Landmark := mkLandmark 0.7 0.2 0 0.9.
(** The left wrist still up, moved to the side. *)
Definition leftWristUpMoved : Landmark := mkLandmark 0.7 0.2 0 0.9.

Definition pose (nose leftWrist rightWrist : Landmark) : Results :=
  mkResults (Some (poseOf (Some nose) (Some leftShoulder0) (Some rightShoulder0)
                          (Some leftWrist) (Some rightWrist))).

Definition handsDown : Results := pose nose0 leftWristDown rightWristDown.
Definition leftUp : Results := pose nose0 leftWristUp rightWristDown.
Definition leftUpMoved : Results := pose nose0 leftWristUpMoved rightWristDown.
Definition bothUp : Results := pose nose0 leftWristUp rightWristUp.
Definition noNose : Results :=
  mkResults (Some (poseOf None (Some leftShoulder0) (Some rightShoulder0)
                          (Some leftWristDown) (Some rightWristDown))).
Definition noPose : Results := mkResults None.

Definition noNoseLandmarks : Landmarks :=
  poseOf None (Some leftShoulder0) (Some rightShoulder0)
         (Some leftWristDown) (Some rightWristDown).

Definition bothUpLandmarks : Landmarks :=
  poseOf (Some nose0) (Some leftShoulder0) (Some rightShoulder0)
         (Some leftWristUp) (Some rightWristUp).


Local Close Scope float_scope.

(** The clock when the camera starts, in epoch milliseconds. *)
Definition t0 : Z := 1700000000000.

(** [n] frames of the same pose and game, 33 ms apart, from clock [t]. *)
Fixpoint frames (n : nat) (t : Z) (results : Results) (g : SimpleGame)
  : list (Event (Game := SimpleGame)) :=
  match n with
  | O => []
  | S k => Frame results t g :: frames k (t + 33) results g
  end.

Definition started : HandControl := resetCalibration t0 (newHandControl t0).

(** After the thirty calibration frames (clocks [t0 .. t0 + 957]). *)
Definition afterCalibration : HandControl :=
  fst (run simpleGame started (frames 30 t0 handsDown (playing 1))).

(** Two frames with the hands down follow: on the first one
    [frameCounter] is 0 and the debug log raises. *)
Definition t1 : Z := t0 + 990.
Definition warmup : list (Event (Game := SimpleGame)) :=
  frames 2 t1 handsDown (playing 1).
Definition ready : HandControl := fst (run simpleGame afterCalibration warmup).

(** The clock of the first gesture. *)
Definition tRaise : Z := t1 + 66.

(** The left hand goes up at [tRaise]: one move to the left, and the
    cooldown starts. *)
Definition afterLeftRaise : HandControl :=
  fst (run simpleGame ready (frames 1 tRaise leftUp (playing 1))).


(** The left hand held up for [n] frames from [tRaise]. *)
Definition heldLeft (n : nat) : HandControl :=
  fst (run simpleGame ready (frames n tRaise leftUp (playing 1))).

(** After 40 such frames the left wrist moves to the side, still up, and
    stays there for [k] frames. *)
Definition tMoved : Z := tRaise + 40 * 33.
Definition movedLeft (k : nat) : HandControl * list (list Effect) :=
  run simpleGame (heldLeft 40) (frames k tMoved leftUpMoved (playing 1)).

(** [n] frames of a shaking head, the nose at [oscillating k],
    [oscillating (k + 1)], ..., 33 ms apart. *)
Fixpoint shaking (n k : nat) (t : Z) (g : SimpleGame)
  : list (Event (Game := SimpleGame)) :=
  match n with
  | O => []
  | S m =>
    Frame (pose (noseAt (oscillating k)) leftWristDown rightWristDown) t g
          :: shaking m (S k) (t + 33) g
  end.

(** The head has been shaking for 60 frames from [tRaise], piece 1
    falling: the fast drop is armed and bound to piece 1. *)
Definition armed : HandControl :=
  fst (run simpleGame ready (shaking 60 0 tRaise (playing 1))).
Definition tChange : Z := tRaise + 60 * 33.

(** The sample of the frame that follows. *)
Definition shakeLandmarks : Landmarks :=
  poseOf (Some (noseAt (oscillating 60))) (Some leftShoulder0)
         (Some rightShoulder0) (Some leftWristDown) (Some rightWristDown).

(** The head stops: after 14 frames with the nose at rest the controller
    is still armed, and on the next one, at [tPause], the shake is no longer
    confirmed. *)
Definition stillArmed : HandControl :=
  fst (run simpleGame armed (frames 14 tChange handsDown (playing 1))).
Definition tPause : Z := tChange + 14 * 33.
Definition handsDownLandmarks : Landmarks :=
  poseOf (Some nose0) (Some leftShoulder0) (Some rightShoulder0)
         (Some leftWristDown) (Some rightWristDown).

(** Calibration with the nose missing on the thirtieth frame. *)
Definition missedLast : HandControl * list (list Effect) :=
  run simpleGame started
      (frames 29 t0 handsDown (playing 1)
       ++ frames 1 (t0 + 957) noNose (playing 1)).

(** Detection is lost: 29 frames without a pose after calibration. *)
Definition fading : HandControl :=
  fst (run simpleGame afterCalibration (frames 29 t1 noPose (playing 1))).

End Scenario.

(** ** Reading whole frames *)

(** The windows are within their capacities. *)
Definition windowsBounded (s : HandControl) : Prop :=
  (length (headHistory (headShake s)) <= 20)%nat
  /\ (length (leftHandHistory (handHistory s)) <= 10)%nat
  /\ (length (rightHandHistory (handHistory s)) <= 10)%nat
  /\ (length (recentDetectionHistory (detection s)) <= 10)%nat.

(** The gesture state: every field [detectHandGestures] may write. *)
Definition gestureState (s : HandControl)
  : Debounce * HandStates * HandHistory * HeadShake * FastDrop * ContinuousMove :=
  (debounce s, hands s, handHistory s, headShake s, fastDrop s, continuous s).

(** The baseline points. *)
Definition baseline (s : HandControl)
  : option Point3 * option Point3 * option Point3 :=
  (baselineLeftShoulder (calibration s), baselineRightShoulder (calibration s),
   baselineNose (calibration s)).

Definition isCalibrationComplete (e : Effect) : bool :=
  match e with NotifyCalibrationComplete => true | _ => false end.

(** The detection statuses notified to the host, in order. *)
Fixpoint statusNotes (effects : list Effect) : list bool :=
  match effects with
  | [] => []
  | NotifyGestureStatus b :: rest => b :: statusNotes rest
  | _ :: rest => statusNotes rest
  end.

(** Each status differs from the one before it, [last] being the one before
    the first. *)
Fixpoint alternatesFrom (last : bool) (notes : list bool) : Prop :=
  match notes with
  | [] => True
  | b :: rest => b = negb last /\ alternatesFrom b rest
  end.

(** No frame of the run whose clock is before [t] calls the game. *)
Fixpoint gameCallsNotBefore {Game : Type} (t : Z)
         (events : list (Event (Game := Game))) (log : list (list Effect))
  : Prop :=
  match events, log with
  | Frame _ now _ :: rest, effects :: log' =>
    (gameCalls effects <> [] -> t <= now) /\ gameCallsNotBefore t rest log'
  | _ :: rest, effects :: log' =>
    gameCalls effects = [] /\ gameCallsNotBefore t rest log'
  | _, _ => True
  end.

(** The head-shake detector fed a list of noses with their clocks. *)
Definition headFeed (frames : list (Landmark * Z)) (h : HeadShake) : HeadShake :=
  fold_left (fun h f => headStep h (fst f) (snd f)) frames h.

(** The window entry [updateHeadHistory] makes of a nose and its clock. *)
Definition positionOf (f : Landmark * Z) : Position :=
  mkPosition (x (fst f)) (y (fst f)) (snd f).

Definition emptyHead : HeadShake := mkHeadShake [] false 0.

(** A move to the side or a rotation. *)
Definition isAction (e : Effect) : bool :=
  match e with
  | CallMovePiece (-1) 0 | CallMovePiece 1 0 | CallRotatePiece => true
  | _ => false
  end.

(** At most one drop step, followed by at most one action. *)
Definition dropThenAction (effects : list Effect) : Prop :=
  exists drops actions : list Effect,
    effects = drops ++ actions
    /\ (drops = [] \/ drops = [CallMovePiece 0 1])
    /\ (actions = [] \/ exists a, actions = [a] /\ isAction a = true).

(** The fast-drop controller is armed with its last drop step stamped [t] or
    later, or it is disarmed and requalifying since [t]. *)
Definition pacedSince (t : Z) (f : FastDrop) : Prop :=
  (isFastDropTriggered f = true /\ t <= lastFastDropTime f)
  \/ requalifyingSince t f.

(** The event is a frame with a pose. *)
Definition isPoseFrame {Game : Type} (e : Event (Game := Game)) : bool :=
  match e with
  | Frame results _ _ =>
    match hasPose results with Some _ => true | None => false end
  | _ => false
  end.

(** ** Reading a held hand *)

(** The frame comes before [limit] and, when its sample has the five points,
    shows that hand up and the other one down. *)
Definition holdsHandUntil {Game : Type} (hand : Hand) (limit : Z)
           (e : Event (Game := Game)) : Prop :=
  match e with
  | Frame results now _ =>
    now < limit
    /\ match hasPose results with
       | Some landmarks =>
         match fivePoints landmarks with
         | Some (leftWrist, rightWrist, leftShoulder, rightShoulder, _) =>
           onlyHandUp hand leftShoulder rightShoulder leftWrist rightWrist
           = true
         | None => True
         end
       | None => True
       end
  | _ => True
  end.

(** That hand went up at [t] and the engine has not entered the continuous
    mode. *)
Definition heldSince (hand : Hand) (t : Z) (s : HandControl) : Prop :=
  wasHandUp hand (hands s) = true
  /\ isInContinuousMode (continuous s) = false
  /\ continuousMoveStartTime (continuous s) = t.

(** ** Further sample runs *)

Module Cases.

Import Scenario.

(** Thirty frames without a nose after a reset: every frame is counted and
    the baseline stays null. *)
Definition blind : HandControl :=
  fst (run simpleGame started (frames 30 t0 noNose (playing 1))).

(** The sample of the shaking head at frame [k], hands down. *)
Definition shakeAt (k : nat) : Results :=
  pose (noseAt (oscillating k)) leftWristDown rightWristDown.


(** The first [n] noses of the oscillation, with their clocks. *)
Definition oscillation (n : nat) : list (Landmark * Z) :=
  map (fun k => (noseAt (oscillating k), t0 + 33 * Z.of_nat k)) (seq 0 n).

End Cases.

(** * The leaderboard of [game.js]

    The leaderboard is the array [leaderboard] of [{name, score}] objects.
    A score is the game's integer score: [Z].  The answer of [prompt] is a
    string, or nothing when the dialog is cancelled. *)

From Stdlib Require Strings.String.
From Stdlib Require Import Sorting.Permutation.

Module Leaderboard.

Import Strings.String.

Record Entry : Type := mkEntry { name : string; score : Z }.

(** [Array.prototype.sort((a, b) => b.score - a.score)]: the sort is stable,
    so the result is the one of inserting each entry, from the last one
    back, in front of the first entry that does not beat it. *)
Fixpoint insertByScore (e : Entry) (sorted : list Entry) : list Entry :=
  match sorted with
  | [] => [e]
  | e' :: rest =>
    if score e <? score e' then e' :: insertByScore e rest
    else e :: e' :: rest
  end.

Definition sortByScore (entries : list Entry) : list Entry :=
  fold_right insertByScore [] entries.

(** [prompt(...) || 'Anonymous']: a cancelled dialog and an empty answer
    both give the default name. *)
Definition playerNameOf (answer : option string) : string :=
  match answer with
  | Some EmptyString | None => "Anonymous"
  | Some s => s
  end.

(** [checkAndUpdateLeaderboard(finalScore)]: the new leaderboard and the
    value returned.  [answer] is what [prompt] returns when it is called. *)
Definition checkAndUpdateLeaderboard (finalScore : Z) (answer : option string)
           (leaderboard : list Entry) : list Entry * bool :=
  let sorted := sortByScore leaderboard in
  let isTopScore :=
    (List.length sorted <? 3)%nat
    || match nth_error sorted 2 with
       | Some third => score third <? finalScore
       | None => false
       end in
  if isTopScore then
    let playerName := playerNameOf answer in
    let leaderboard := leaderboard ++ [mkEntry playerName finalScore] in
    let leaderboard := sortByScore leaderboard in
    (firstn 10 leaderboard, true)
  else (leaderboard, false).

(** The rows [updateLeaderboardDisplay] and [updateModalLeaderboardDisplay]
    show. *)
Definition topThree (leaderboard : list Entry) : list Entry :=
  let sorted := sortByScore leaderboard in
  let topThree := firstn 3 sorted in
  topThree ++ repeat (mkEntry "-" 0) (3 - List.length topThree).

(** The leaderboard [loadLeaderboard] sets when nothing is saved. *)
Definition defaultLeaderboard : list Entry :=
  [mkEntry "Hand Master" 10000; mkEntry "Gesture Pro" 5000;
   mkEntry "Wave Control" 2500].

(** Its third entry. *)
Definition waveControl : Entry := mkEntry "Wave Control" 2500.

(** Scores never go up along the list. *)
Fixpoint descending (entries : list Entry) : Prop :=
  match entries with
  | [] => True
  | e :: rest =>
    (forall e', In e' rest -> score e' <= score e) /\ descending rest
  end.

(** How many entries score at least [v]. *)
Definition countAtLeast (v : Z) (entries : list Entry) : nat :=
  List.length (filter (fun e => v <=? score e) entries).

End Leaderboard.

(** * Pausing and resuming from [game.js]

    The handlers of [game.js] that write the flag [isPausedByCamera].  The
    [TetrisGame] class is not part of the sources read here: each event
    carries what the handler reads of the game, and the calls [start()] and
    [pause()] are logged. *)

Module Host.

Inductive HostEvent : Type :=
| StatusChange (isDetected gameRunning : bool)
  (* [onGestureStatusChangeCallback(isDetected)] *)
| PauseButton
  (* the click handler of [pause-btn] *)
| AutoStart (gameRunning raised : bool).
  (* [startGameAutomatically()]; [raised]: there is no game instance, or a
     call before [start()] raised *)

Inductive HostCall : Type := CallStart | CallPause.

(** [onGestureStatusChangeCallback(isDetected)]. *)
Definition onGestureStatusChangeCallback (isDetected gameRunning : bool)
           (isPausedByCamera : bool) : bool * list HostCall :=
  if isDetected then
    if isPausedByCamera then (false, [CallStart])
    else (isPausedByCamera, [])
  else
    if gameRunning && negb isPausedByCamera then (true, [CallPause])
    else (isPausedByCamera, []).

(** [startGameAutomatically()]. *)
Definition startGameAutomatically (gameRunning raised : bool)
           (isPausedByCamera : bool) : bool * list HostCall :=
  if gameRunning then (isPausedByCamera, [])
  else if raised then (isPausedByCamera, [])
  else (false, [CallStart]).

Definition hostStep (isPausedByCamera : bool) (e : HostEvent)
  : bool * list HostCall :=
  match e with
  | StatusChange isDetected gameRunning =>
    onGestureStatusChangeCallback isDetected gameRunning isPausedByCamera
  | PauseButton => (false, [CallPause])
  | AutoStart gameRunning raised =>
    startGameAutomatically gameRunning raised isPausedByCamera
  end.

(** The flag after the events. *)
Definition hostRun (isPausedByCamera : bool) (events : list HostEvent) : bool :=
  fold_left (fun flag e => fst (hostStep flag e)) events isPausedByCamera.

(** An event that may lie between the camera's pause and its resume: a
    status change to lost, or an automatic start that starts nothing. *)
Definition keepsCameraPause (e : HostEvent) : Prop :=
  match e with
  | StatusChange isDetected _ => isDetected = false
  | PauseButton => False
  | AutoStart gameRunning raised => gameRunning || raised = true
  end.

End Host.

(** * Properties *)

Ltac break_if :=
  match goal with
  | |- context [if ?b then _ else _] => destruct b eqn:?
  end.

Ltac break_let :=
  match goal with
  | |- context [let (_, _) := ?e in _] => destruct e eqn:?
  end.

Ltac break_option :=
  match goal with
  | |- context [match ?o with Some _ => _ | None => _ end] => destruct o eqn:?
  end.

Section GestureStep.

Context {Game : Type} (T : TetrisGame Game).

Lemma gameCalls_app (a b : list Effect) :
  gameCalls (a ++ b) = gameCalls a ++ gameCalls b.
Proof. unfold gameCalls. apply filter_app. Qed.

Lemma notifyStatus_no_game_call (d : Detection) :
  gameCalls (snd (notifyStatus d)) = [].
Proof.
  unfold notifyStatus. simpl.
  destruct (Bool.eqb (isGestureDetected d) (lastGestureDetectionStatus d));
    reflexivity.
Qed.

Lemma calibrateBaseline_no_game_call (landmarks : Landmarks) (now : Z)
      (c : Calibration) :
  gameCalls (snd (calibrateBaseline landmarks now c)) = [].
Proof.
  unfold calibrateBaseline.
  destruct (landmarkAt landmarks 11), (landmarkAt landmarks 12),
    (landmarkAt landmarks 0); try reflexivity.
  destruct (baselineLeftShoulder c); simpl;
    [destruct (baselineRightShoulder c), (baselineNose c); try reflexivity|];
    break_if; reflexivity.
Qed.

(** With the game stopped the fast-drop block calls nothing. *)
Lemma executeFastDrop_stopped (now : Z) (g : Game) (f : FastDrop) :
  gameRunning T g = false -> executeFastDrop T now g f = (f, g, []).
Proof.
  intros Hstop. unfold executeFastDrop. rewrite Hstop, andb_false_r.
  reflexivity.
Qed.

Lemma executeAction_stopped (action : Action) (g : Game) :
  gameRunning T g = false -> executeAction T action g = (g, []).
Proof. intros Hstop. unfold executeAction. rewrite Hstop. reflexivity. Qed.

Lemma dispatchAction_stopped (action : Action) (c : bool) (now : Z) (g : Game)
      (d : Debounce) :
  gameRunning T g = false ->
  snd (fst (dispatchAction T action c now g d)) = g
  /\ snd (dispatchAction T action c now g d) = [].
Proof.
  intros Hstop. unfold dispatchAction.
  destruct action; simpl; auto;
    rewrite (executeAction_stopped _ _ Hstop);
    repeat match goal with |- context [if ?b then _ else _] => destruct b end;
    simpl; auto.
Qed.

Lemma arbitrate_stopped (s : HandControl) (ls rs lw rw : Landmark) (now : Z)
      (g : Game) :
  gameRunning T g = false ->
  snd (fst (arbitrate T s ls rs lw rw now g)) = g
  /\ snd (arbitrate T s ls rs lw rw now g) = [].
Proof.
  intros Hstop. unfold arbitrate.
  rewrite executeFastDrop_stopped by assumption.
  destruct (detectSingleHand _ _ _ _ _) as [a1 c1].
  destruct (detectContinuousMove _ _ _ _ a1 c1) as [a2 c2].
  destruct (dispatchAction_stopped a2 (isInContinuousMode c2) now g
                                   (debounce s) Hstop) as [Hg He].
  destruct (dispatchAction T a2 (isInContinuousMode c2) now g (debounce s))
    as [[d g'] effects].
  simpl in *. subst. auto.
Qed.

Lemma detectHandGestures_stopped (s : HandControl) (landmarks : Landmarks)
      (now : Z) (g : Game) :
  gameRunning T g = false ->
  snd (fst (detectHandGestures T s landmarks now g)) = g
  /\ snd (detectHandGestures T s landmarks now g) = [].
Proof.
  intros Hstop. unfold detectHandGestures.
  repeat match goal with
         | |- context [match ?o with Some _ => _ | None => _ end] =>
           destruct o; simpl; auto
         | |- context [if ?b then _ else _] => destruct b; simpl; auto
         end.
  apply arbitrate_stopped; assumption.
Qed.

(** C9: on a cycle in which the game reports not running, [onResults] makes
    no [movePiece] call (neither a directional move nor a fast-drop step)
    and no [rotatePiece] call, whatever the sample shows, and leaves the
    game as it was. *)
Theorem no_command_while_not_running :
  forall (s : HandControl) (results : Results) (now : Z) (g : Game),
    gameRunning T g = false ->
    gameCalls (snd (onResults T s results now g)) = []
    /\ snd (fst (onResults T s results now g)) = g.
Proof.
  intros s results now g Hstop. unfold onResults.
  destruct (hasPose results) as [landmarks|].
  - match goal with |- context [if ?b then _ else _] => destruct b end.
    + match goal with
      | |- context [calibrateBaseline ?l ?n ?c] =>
        pose proof (calibrateBaseline_no_game_call l n c) as Hc;
          destruct (calibrateBaseline l n c) as [c' effects]
      end.
      simpl in *. auto.
    + match goal with
      | |- context [detectHandGestures T ?s' ?l ?n ?g'] =>
        destruct (detectHandGestures_stopped s' l n g' Hstop) as [Hg He];
          destruct (detectHandGestures T s' l n g') as [[s1 g1] effects]
      end.
      match goal with
      | |- context [notifyStatus ?d] =>
        pose proof (notifyStatus_no_game_call d) as Hn;
          destruct (notifyStatus d) as [d' notes]
      end.
      simpl in *. subst. rewrite gameCalls_app, Hn. auto.
  - match goal with
    | |- context [notifyStatus ?d] =>
      pose proof (notifyStatus_no_game_call d) as Hn;
        destruct (notifyStatus d) as [d' notes]
    end.
    simpl in *. auto.
Qed.


(** C10: a frame with a valid sample that arrives less than 150 ms after
    the timestamp of the last non-continuous action leaves the gesture state
    as it was: [detectHandGestures] returns at its cooldown test, so the
    head and hand windows get no entry, the hand states, the shake counter,
    the fast-drop and continuous-move timers keep their values and nothing
    is sent to the game; of the whole frame only the detection bookkeeping
    (and the calibration prompt) may change. *)
Theorem cooldown_frame_leaves_gesture_state :
  forall (s : HandControl) (landmarks : Landmarks) (now : Z) (g : Game),
    now - lastActionTime (debounce s) < actionCooldown ->
    detectHandGestures T s landmarks now g = (s, g, [])
    /\ forall results : Results,
        hasPose results = Some landmarks ->
        maxCalibrationFrames <= calibrationFrames (calibration s) ->
        let s' := fst (fst (onResults T s results now g)) in
        debounce s' = debounce s
        /\ hands s' = hands s
        /\ handHistory s' = handHistory s
        /\ headShake s' = headShake s
        /\ fastDrop s' = fastDrop s
        /\ continuous s' = continuous s
        /\ snd (fst (onResults T s results now g)) = g
        /\ gameCalls (snd (onResults T s results now g)) = [].
Proof.
  intros s landmarks now g Hcool.
  assert (Hskip : forall s0 : HandControl,
             debounce s0 = debounce s ->
             detectHandGestures T s0 landmarks now g = (s0, g, [])).
  { intros s0 Hd. unfold detectHandGestures. rewrite Hd.
    destruct (baselineLeftShoulder (calibration s0)),
      (baselineRightShoulder (calibration s0)),
      (baselineNose (calibration s0)); try reflexivity.
    apply Z.ltb_lt in Hcool. rewrite Hcool. reflexivity. }
  split; [apply Hskip; reflexivity|].
  intros results Hpose Hdone. unfold onResults. rewrite Hpose.
  apply Z.ltb_ge in Hdone. cbn [calibration with_detection]. rewrite Hdone.
  rewrite Hskip by reflexivity.
  destruct s as [d h hh c hs f cm dt]. cbn.
  repeat split; try reflexivity.
  destruct (lastGestureDetectionStatus dt); reflexivity.
Qed.

(** ** Detection health *)

(** C7: [isGestureDetected] goes from true to false only on a frame without
    a pose that brings the consecutive-failure counter to 30 or more with a
    success rate below 0.2 over the outcome window, which never holds more
    than 10 outcomes; a valid sample resets the counter to zero and sets the
    status to true.  So one missed frame after a success leaves the status
    true, and one valid frame after a loss restores it. *)
Theorem detection_hysteresis :
  forall (s : HandControl) (results : Results) (now : Z) (g : Game),
    let s' := fst (fst (onResults T s results now g)) in
    (isGestureDetected (detection s) = true ->
     isGestureDetected (detection s') = false ->
     hasPose results = None
     /\ maxFailureCount <= poseDetectionFailureCount (detection s')
     /\ JS.lt (successRate (recentDetectionHistory (detection s')))
              0.2%float = true)
    /\ ((length (recentDetectionHistory (detection s)) <= 10)%nat ->
        (length (recentDetectionHistory (detection s')) <= 10)%nat)
    /\ (hasPose results <> None ->
        poseDetectionFailureCount (detection s') = 0
        /\ isGestureDetected (detection s') = true)
    /\ (hasPose results = None ->
        isGestureDetected (detection s) = true ->
        poseDetectionFailureCount (detection s) < maxFailureCount - 1 ->
        isGestureDetected (detection s') = true).
Proof.
  intros s results now g s'.
  assert (Hbound : forall (v : bool) (l : list bool),
             (length l <= 10)%nat ->
             (length (JS.pushBounded detectionHistorySize v l) <= 10)%nat).
  { intros v l Hl. unfold JS.pushBounded, detectionHistorySize.
    destruct (10 <? Z.of_nat (length (l ++ [v]))) eqn:Hlt.
    - destruct (l ++ [v]) eqn:Happ; simpl; [lia|].
      assert (length (l ++ [v]) = S (length l0)) by (rewrite Happ; reflexivity).
      rewrite length_app in *. simpl in *. lia.
    - apply Z.ltb_ge in Hlt. lia. }
  assert (Hgest : forall (s0 : HandControl) (l : Landmarks),
             detection (fst (fst (detectHandGestures T s0 l now g)))
             = detection s0).
  { intros s0 l. unfold detectHandGestures.
    repeat first [break_option | break_if]; try reflexivity.
    unfold arbitrate.
    repeat match goal with
           | |- context [let (_, _) := ?e in _] => destruct e
           end.
    reflexivity. }
  subst s'. unfold onResults.
  destruct (hasPose results) as [landmarks|] eqn:Hpose.
  - break_if.
    + destruct (calibrateBaseline _ _ _) as [c effects]. cbn.
      repeat split; intros; try discriminate; auto.
    + match goal with
      | |- context [detectHandGestures T ?s0 ?l now g] =>
        pose proof (Hgest s0 l) as Hd;
          destruct (detectHandGestures T s0 l now g) as [[s1 g1] effects]
      end.
      cbn in Hd. cbn. rewrite Hd. cbn.
      repeat split; intros; try discriminate; auto.
  - cbn.
    match goal with
    | |- context [if ?b then false else _] => destruct b eqn:Hlost
    end.
    + apply andb_true_iff in Hlost. destruct Hlost as [Hcount Hrate].
      apply Z.leb_le in Hcount.
      repeat split; intros; try congruence; auto.
      unfold maxFailureCount in *. lia.
    + repeat split; intros; try congruence; auto.
Qed.

End GestureStep.

(** ** Calibration *)

Section CalibrationProperties.

Context {Game : Type} (T : TetrisGame Game).

(** C6: a calibration frame lacking one of the three points leaves the
    baseline sums as they were and fires nothing, but [onResults] counts it
    all the same: [calibrationFrames] advances by one. *)
Theorem missing_point_frame_is_counted :
  forall (s : HandControl) (results : Results) (landmarks : Landmarks)
         (now : Z) (g : Game),
    hasPose results = Some landmarks ->
    calibrationFrames (calibration s) < maxCalibrationFrames ->
    (landmarkAt landmarks 0 = None \/ landmarkAt landmarks 11 = None
     \/ landmarkAt landmarks 12 = None) ->
    let s' := fst (fst (onResults T s results now g)) in
    baselineLeftShoulder (calibration s') = baselineLeftShoulder (calibration s)
    /\ baselineRightShoulder (calibration s')
       = baselineRightShoulder (calibration s)
    /\ baselineNose (calibration s') = baselineNose (calibration s)
    /\ snd (onResults T s results now g) = []
    /\ calibrationFrames (calibration s') = calibrationFrames (calibration s) + 1.
Proof.
  intros s results landmarks now g Hpose Hcal Hmiss.
  assert (Hnoop : forall c, calibrateBaseline landmarks now c = (c, [])).
  { intros c. unfold calibrateBaseline.
    destruct (landmarkAt landmarks 11), (landmarkAt landmarks 12),
      (landmarkAt landmarks 0); try reflexivity;
      destruct Hmiss as [H | [H | H]]; discriminate. }
  unfold onResults. rewrite Hpose. cbn [calibration with_detection].
  apply Z.ltb_lt in Hcal. rewrite Hcal, Hnoop. cbn. auto.
Qed.

End CalibrationProperties.

(** ** Head shake *)

Section HeadShakeProperties.

Lemma map_pushBounded {A B : Type} (f : A -> B) (size : Z) (v : A) (l : list A) :
  map f (JS.pushBounded size v l) = JS.pushBounded size (f v) (map f l).
Proof.
  unfold JS.pushBounded.
  rewrite !length_app, length_map. simpl length.
  break_if; [|rewrite map_app; reflexivity].
  destruct l; [reflexivity|]. simpl. rewrite map_app. reflexivity.
Qed.

Lemma headStep_view (h : HeadShake) (nose : Landmark) (now : Z) :
  shakeView (headStep h nose now) = shakeStepX (shakeView h) (x nose).
Proof.
  unfold shakeView, shakeStepX, headStep, detectHeadShake, xsOf,
    isCurrentFrameShaking.
  cbn [updateHeadHistory headHistory isHeadShaking consecutiveShakeFrames].
  rewrite <- (map_pushBounded pos_x) with (v := mkPosition (x nose) (y nose) now).
  rewrite length_map.
  break_if; reflexivity.
Qed.

Lemma headAfter_view (ys zs vs : nat -> float) (clock : nat -> Z) (n : nat) :
  shakeView (headAfter ys zs vs clock n) = viewAfter n.
Proof.
  induction n as [|n IH]; [reflexivity|].
  cbn [headAfter viewAfter]. rewrite headStep_view, IH. reflexivity.
Qed.

Lemma shakeStepX_even (b : bool) (count : Z) :
  shakeStepX (windowEven, b, count) 0.40%float
  = (windowOdd, (requiredShakeFrames <=? count + 1), count + 1).
Proof.
  unfold shakeStepX.
  replace (JS.pushBounded headHistorySize 0.40%float windowEven)
    with windowOdd by (vm_compute; reflexivity).
  replace (Z.of_nat (length windowOdd) <? headHistorySize) with false
    by (vm_compute; reflexivity).
  replace (JS.gt (PrimFloat.sub (JS.Math_max windowOdd) (JS.Math_min windowOdd))
                 rangeThreshold
           && JS.gt (calculateVariance windowOdd) varianceThreshold)
    with true by (vm_compute; reflexivity).
  reflexivity.
Qed.

Lemma shakeStepX_odd (b : bool) (count : Z) :
  shakeStepX (windowOdd, b, count) 0.50%float
  = (windowEven, (requiredShakeFrames <=? count + 1), count + 1).
Proof.
  unfold shakeStepX.
  replace (JS.pushBounded headHistorySize 0.50%float windowOdd)
    with windowEven by (vm_compute; reflexivity).
  replace (Z.of_nat (length windowEven) <? headHistorySize) with false
    by (vm_compute; reflexivity).
  replace (JS.gt (PrimFloat.sub (JS.Math_max windowEven) (JS.Math_min windowEven))
                 rangeThreshold
           && JS.gt (calculateVariance windowEven) varianceThreshold)
    with true by (vm_compute; reflexivity).
  reflexivity.
Qed.

(** Once the window is full it alternates between the two windows of the
    oscillation, and every frame counts. *)
Lemma viewAfter_full (m : nat) :
  viewAfter (20 + m)
  = (if Nat.even m then windowEven else windowOdd,
     (requiredShakeFrames <=? Z.of_nat m + 1), Z.of_nat m + 1).
Proof.
  induction m as [|m IH]; [vm_compute; reflexivity|].
  replace (20 + S m)%nat with (S (20 + m)) by lia.
  cbn [viewAfter]. rewrite IH.
  replace (oscillating (20 + m)) with (oscillating m)
    by (unfold oscillating; rewrite Nat.even_add;
        destruct (Nat.even m); reflexivity).
  rewrite Nat.even_succ, <- Nat.negb_even.
  replace (Z.of_nat (S m)) with (Z.of_nat m + 1) by lia.
  unfold oscillating.
  destruct (Nat.even m); cbn [negb].
  - apply shakeStepX_even.
  - apply shakeStepX_odd.
Qed.

(** C3 (as the code has it): fed head x-positions alternating between 0.40
    and 0.50 from an empty head history, [isHeadShaking] is false after each
    of the first 30 frames and true after frame 31 and every later frame.
    Frame 20 fills the window and is itself the first frame that counts, so
    the counter reaches 12 at frame 31. *)
Theorem head_shake_confirmed_at_frame_31 :
  forall (ys zs vs : nat -> float) (clock : nat -> Z) (n : nat),
    isHeadShaking (headAfter ys zs vs clock n) = (31 <=? n)%nat.
Proof.
  intros ys zs vs clock n.
  change (isHeadShaking (headAfter ys zs vs clock n))
    with (snd (fst (shakeView (headAfter ys zs vs clock n)))).
  rewrite headAfter_view.
  destruct (Nat.lt_ge_cases n 20) as [Hlt | Hge].
  - assert (Hsmall : forallb (fun k => negb (snd (fst (viewAfter k))))
                             (seq 0 20) = true)
      by (vm_compute; reflexivity).
    rewrite forallb_forall in Hsmall.
    specialize (Hsmall n). rewrite in_seq in Hsmall.
    destruct (snd (fst (viewAfter n))); [discriminate Hsmall; lia|].
    symmetry. apply Nat.leb_gt. lia.
  - replace n with (20 + (n - 20))%nat by lia.
    rewrite viewAfter_full. cbn [fst snd].
    unfold requiredShakeFrames.
    destruct (31 <=? 20 + (n - 20))%nat eqn:Hle.
    + apply Nat.leb_le in Hle. apply Z.leb_le. lia.
    + apply Nat.leb_gt in Hle. apply Z.leb_gt. lia.
Qed.

(** C3, the claim as stated: [isHeadShaking] is already true after frame 31,
    one frame before the frame the claim names. *)
Lemma head_shake_true_before_frame_32 :
  let h := headAfter (fun _ => 0.3%float) (fun _ => PrimFloat.zero)
                     (fun _ => 0.9%float)
                     (fun k => 1700000000000 + 33 * Z.of_nat k) 31 in
  isHeadShaking h = true /\ consecutiveShakeFrames h = 12
  /\ ~ (forall n : nat, (n < 32)%nat ->
          isHeadShaking
            (headAfter (fun _ => 0.3%float) (fun _ => PrimFloat.zero)
                       (fun _ => 0.9%float)
                       (fun k => 1700000000000 + 33 * Z.of_nat k) n) = false).
Proof.
  cbv zeta. split; [vm_compute; reflexivity|].
  split; [vm_compute; reflexivity|].
  intros Hall. specialize (Hall 31%nat (Nat.lt_succ_diag_r 31)).
  vm_compute in Hall. discriminate Hall.
Qed.

End HeadShakeProperties.

(** ** Calibration runs *)

Section CalibrationRuns.

Context {Game : Type} (T : TetrisGame Game).

Lemma partialSum_succ (v : float) (k : nat) :
  partialSum v (S k) = PrimFloat.add (partialSum v k) v.
Proof.
  unfold partialSum, JS.sum.
  replace (repeat v (S k)) with (repeat v k ++ [v])
    by (symmetry; apply repeat_cons).
  rewrite fold_left_app. reflexivity.
Qed.

Lemma run_app (s : HandControl) (a b : list (Event (Game := Game))) :
  run T s (a ++ b)
  = (fst (run T (fst (run T s a)) b),
     snd (run T s a) ++ snd (run T (fst (run T s a)) b)).
Proof.
  revert s. induction a as [|e a IH]; intros s.
  - simpl. destruct (run T s b); reflexivity.
  - simpl. destruct (step T s e) as [s1 effects].
    rewrite IH. destruct (run T s1 a) as [s2 log]. simpl.
    reflexivity.
Qed.

(** One more sample on top of [k < 29] accumulated ones. *)
Lemma calibration_step (k : nat) (s : HandControl) (e : Event) :
  (k < 29)%nat ->
  sumsOf k (calibration s) ->
  calibrationSampleFrame e ->
  sumsOf (S k) (calibration (fst (step T s e))) /\ snd (step T s e) = [].
Proof.
  intros Hk (Hframes & Hshow & Hnot & Hsums) He.
  destruct e as [results now g| |]; try contradiction.
  cbn [calibrationSampleFrame] in He.
  destruct (hasPose results) as [landmarks|] eqn:Hpose; [|contradiction].
  destruct He as ((n & Hn & Hnx & Hny) & (l & Hl & Hlx & Hly)
                  & (r & Hr & Hrx & Hry)).
  destruct n as [nx ny nz nv], l as [lx ly lz lv], r as [rx ry rz rv].
  cbn [x y] in *. subst.
  unfold step, onResults. rewrite Hpose. cbn [calibration with_detection].
  replace (calibrationFrames (calibration s) <? maxCalibrationFrames) with true
    by (symmetry; apply Z.ltb_lt; unfold maxCalibrationFrames; lia).
  unfold calibrateBaseline. rewrite Hn, Hl, Hr.
  replace (calibrationFrames (calibration s) =? maxCalibrationFrames - 1)
    with false
    by (symmetry; apply Z.eqb_neq; unfold maxCalibrationFrames; lia).
  destruct k as [|k].
  - destruct Hsums as (Hbl & Hbr & Hbn). rewrite Hbl.
    cbn. unfold sumsOf. cbn.
    rewrite Hframes, Hshow, Hnot.
    repeat split; try lia; eexists; reflexivity.
  - destruct Hsums as ((zl & Hbl) & (zr & Hbr) & (zn & Hbn)).
    rewrite Hbl, Hbr, Hbn.
    cbn. unfold sumsOf. cbn [calibrationFrames showCalibrationComplete
      calibrationCompletedNotified baselineLeftShoulder baselineRightShoulder
      baselineNose].
    rewrite Hframes, Hshow, Hnot.
    rewrite !(partialSum_succ _ (S k)).
    repeat split; try lia; eexists; reflexivity.
Qed.

Lemma calibration_steps (events : list Event) :
  forall (k : nat) (s : HandControl),
    (k + length events <= 29)%nat ->
    sumsOf k (calibration s) ->
    Forall calibrationSampleFrame events ->
    sumsOf (k + length events) (calibration (fst (run T s events)))
    /\ snd (run T s events) = repeat [] (length events).
Proof.
  induction events as [|e rest IH]; intros k s Hk Hsums Hall.
  - simpl. rewrite Nat.add_0_r. auto.
  - inversion Hall as [|? ? He Hrest]; subst. simpl in Hk.
    assert (Hk1 : (k < 29)%nat) by lia.
    destruct (calibration_step k s e Hk1 Hsums He) as [Hs1 He1].
    simpl. destruct (step T s e) as [s1 effects]. simpl in Hs1, He1. subst.
    assert (Hk2 : (S k + length rest <= 29)%nat) by lia.
    destruct (IH (S k) s1 Hk2 Hs1 Hrest) as [Hs2 Hlog].
    destruct (run T s1 rest) as [s2 log]. simpl in *.
    replace (k + S (length rest))%nat with (S k + length rest)%nat by lia.
    rewrite Hlog. auto.
Qed.

(** The thirtieth sample: the sums are divided and the host is notified. *)
Lemma calibration_last_step (s : HandControl) (e : Event) :
  sumsOf 29 (calibration s) ->
  calibrationSampleFrame e ->
  let c := calibration (fst (step T s e)) in
  snd (step T s e) = [NotifyCalibrationComplete]
  /\ calibrationFrames c = maxCalibrationFrames
  /\ calibrationCompletedNotified c = true
  /\ (exists zn, baselineNose c = Some (mkPoint3 0.5 0.3 zn))
  /\ (exists zr, baselineRightShoulder c = Some (mkPoint3 0.6 0.5 zr))
  /\ (exists zl, baselineLeftShoulder c
                 = Some (mkPoint3 0.4000000000000002 0.5 zl)).
Proof.
  intros (Hframes & Hshow & Hnot & Hsums) He.
  destruct e as [results now g| |]; try contradiction.
  cbn [calibrationSampleFrame] in He.
  destruct (hasPose results) as [landmarks|] eqn:Hpose; [|contradiction].
  destruct He as ((n & Hn & Hnx & Hny) & (l & Hl & Hlx & Hly)
                  & (r & Hr & Hrx & Hry)).
  destruct n as [nx ny nz nv], l as [lx ly lz lv], r as [rx ry rz rv].
  cbn [x y] in *. subst.
  destruct Hsums as ((zl & Hbl) & (zr & Hbr) & (zn & Hbn)).
  unfold step, onResults. rewrite Hpose. cbn [calibration with_detection].
  rewrite Hframes. change (Z.of_nat 29 <? maxCalibrationFrames) with true.
  cbv iota. unfold calibrateBaseline. rewrite Hn, Hl, Hr, Hbl, Hbr, Hbn, Hframes.
  change (Z.of_nat 29 =? maxCalibrationFrames - 1) with true.
  cbv beta iota zeta.
  cbn [fst snd calibration with_calibration calibrationFrames
       calibrationCompletedNotified baselineNose baselineRightShoulder
       baselineLeftShoulder].
  repeat split; try reflexivity.
  - exists (PrimFloat.div (PrimFloat.add zn nz)
                          (JS.numberOfZ maxCalibrationFrames)).
    vm_compute. reflexivity.
  - exists (PrimFloat.div (PrimFloat.add zr rz)
                          (JS.numberOfZ maxCalibrationFrames)).
    vm_compute. reflexivity.
  - exists (PrimFloat.div (PrimFloat.add zl lz)
                          (JS.numberOfZ maxCalibrationFrames)).
    vm_compute. reflexivity.
Qed.

Lemma sumsOf_reset (t : Z) (s : HandControl) :
  sumsOf 0 (calibration (resetCalibration t s)).
Proof. unfold sumsOf. cbn. repeat split; reflexivity. Qed.

(** C5 (as the code has it): thirty samples with the nose at (0.5, 0.3) and
    the shoulders at (0.4, 0.5) and (0.6, 0.5), fed after a reset, complete
    calibration on the thirtieth frame, with one completion event.  The
    baseline nose is (0.5, 0.3) and the right shoulder (0.6, 0.5) exactly;
    the left shoulder has y = 0.5 and x = 0.4000000000000002, the binary64
    value of thirty additions of 0.4 divided by 30, which is within 1e-15
    of 0.4 and not equal to it.  Fewer than thirty samples leave the plain
    sums in the baseline, divide nothing and fire no event. *)
Theorem calibration_converges_up_to_rounding :
  forall (s : HandControl) (t : Z) (events : list Event),
    Forall calibrationSampleFrame events ->
    let c := calibration (fst (run T (resetCalibration t s) events)) in
    let log := snd (run T (resetCalibration t s) events) in
    (length events = 30%nat ->
     log = repeat [] 29 ++ [[NotifyCalibrationComplete]]
     /\ calibrationFrames c = maxCalibrationFrames
     /\ calibrationCompletedNotified c = true
     /\ (exists zn, baselineNose c = Some (mkPoint3 0.5 0.3 zn))
     /\ (exists zr, baselineRightShoulder c = Some (mkPoint3 0.6 0.5 zr))
     /\ (exists zl, baselineLeftShoulder c
                    = Some (mkPoint3 0.4000000000000002 0.5 zl))
     /\ JS.lt (PrimFloat.abs (PrimFloat.sub 0.4000000000000002 0.4)) 1e-15
        = true
     /\ PrimFloat.eqb 0.4000000000000002 0.4 = false)
    /\ ((length events < 30)%nat ->
        sumsOf (length events) c
        /\ log = repeat [] (length events)
        /\ calibrationFrames c < maxCalibrationFrames).
Proof.
  intros s t events Hall c log. subst c log. split.
  - intros Hlen.
    destruct (exists_last (l := events)) as (init & last & Hsplit).
    { intros Hnil. rewrite Hnil in Hlen. discriminate Hlen. }
    subst events. rewrite length_app in Hlen. simpl in Hlen.
    apply Forall_app in Hall. destruct Hall as [Hinit Hlast].
    inversion Hlast as [|? ? He _]; subst.
    assert (Hk : (0 + length init <= 29)%nat) by lia.
    destruct (calibration_steps init 0 (resetCalibration t s) Hk
                                (sumsOf_reset t s) Hinit) as [Hsums Hlog].
    rewrite run_app. cbn [fst snd].
    replace (0 + length init)%nat with 29%nat in Hsums by lia.
    destruct (calibration_last_step _ _ Hsums He)
      as (Heff & Hframes & Hnot & Hn & Hr & Hl).
    cbn [run].
    destruct (step T (fst (run T (resetCalibration t s) init)) last)
      as [s1 effects].
    cbn [fst snd] in *. subst effects.
    rewrite Hlog. replace (length init) with 29%nat by lia.
    repeat split; auto.
  - intros Hlen.
    assert (Hk : (0 + length events <= 29)%nat) by lia.
    destruct (calibration_steps events 0 (resetCalibration t s) Hk
                                (sumsOf_reset t s) Hall) as [Hsums Hlog].
    cbn [Nat.add] in Hsums.
    repeat split; try apply Hsums; auto.
    destruct Hsums as [Hframes _]. rewrite Hframes.
    unfold maxCalibrationFrames. lia.
Qed.

End CalibrationRuns.

(** C5, the claim as stated: after thirty such samples the baseline left
    shoulder is not (0.4, 0.5); its x is 0.4000000000000002. *)
Lemma calibrated_left_shoulder_is_not_exact :
  let c := calibration Scenario.afterCalibration in
  (exists zl, baselineLeftShoulder c = Some (mkPoint3 0.4000000000000002 0.5 zl))
  /\ ~ (exists l, baselineLeftShoulder c = Some l
                  /\ px l = 0.4%float /\ py l = 0.5%float).
Proof.
  cbv zeta. split.
  - exists PrimFloat.zero. vm_compute. reflexivity.
  - intros (l & Hl & Hx & _).
    vm_compute in Hl. injection Hl as Hl. subst l.
    cbn [px] in Hx.
    apply (f_equal (fun v => PrimFloat.eqb v 0.4%float)) in Hx.
    vm_compute in Hx. discriminate Hx.
Qed.

(** ** Rotation *)

Section Rotation.

Context {Game : Type} (T : TetrisGame Game).




(** The fast-drop block calls [movePiece(0, 1)] once or not at all. *)
Lemma executeFastDrop_cases (now : Z) (g : Game) (f : FastDrop) :
  (snd (executeFastDrop T now g f) = []
   /\ snd (fst (executeFastDrop T now g f)) = g)
  \/ (snd (executeFastDrop T now g f) = [CallMovePiece 0 1]
      /\ snd (fst (executeFastDrop T now g f)) = snd (movePiece T 0 1 g)).
Proof.
  unfold executeFastDrop.
  repeat break_if; auto; destruct (movePiece T 0 1 g) as [moved g'];
    destruct moved; auto.
Qed.

(** With both hands up the two single-hand blocks leave the action alone. *)
Lemma rotate_blocks_single_hand (justAppeared : bool) (h : HandStates)
      (hh : HandHistory) (now : Z) (c : ContinuousMove) :
  let action := if justAppeared then Rotate else NoAction in
  fst (detectContinuousMove true h hh now
         (fst (detectSingleHand justAppeared true h now c))
         (snd (detectSingleHand justAppeared true h now c)))
  = action.
Proof.
  unfold detectContinuousMove, detectSingleHand. cbn [negb fst snd].
  break_if; reflexivity.
Qed.











End Rotation.

(** ** Fast drop *)

Section FastDropProperties.

Context {Game : Type} (T : TetrisGame Game).

Lemma optId_eqb_eq (a b : option PieceId) :
  optId_eqb a b = true <-> a = b.
Proof.
  destruct a as [i|], b as [j|]; cbn; split; intros H;
    try discriminate; try reflexivity.
  - apply Z.eqb_eq in H. congruence.
  - injection H as H. apply Z.eqb_eq. assumption.
Qed.

Lemma optId_eqb_refl (a : option PieceId) : optId_eqb a a = true.
Proof. apply optId_eqb_eq. reflexivity. Qed.

Lemma optId_eqb_neq (a b : option PieceId) :
  a <> b -> optId_eqb a b = false.
Proof.
  intros Hne. destruct (optId_eqb a b) eqn:He; [|reflexivity].
  apply optId_eqb_eq in He. contradiction.
Qed.

(** A controller bound to [p] facing another piece: no drop step, and the
    binding is kept (no piece in sight) or cleared. *)
Lemma dropPhase_bound (p : PieceId) (shaking : bool) (now : Z) (g : Game)
      (f : FastDrop) :
  boundTo p f ->
  currentPiece T g <> Some p ->
  snd (dropPhase T shaking now g f) = []
  /\ snd (fst (dropPhase T shaking now g f)) = g
  /\ (boundTo p (fst (fst (dropPhase T shaking now g f)))
      \/ clearedAt now (fst (fst (dropPhase T shaking now g f))))
  /\ (currentPiece T g <> None ->
      clearedAt now (fst (fst (dropPhase T shaking now g f)))).
Proof.
  intros (Htrig & Hbound & Hcur) Hother.
  destruct f as [start last trig cur bnd]. cbn in Htrig, Hbound, Hcur. subst.
  unfold dropPhase, trackCurrentPiece, fastDropTimer, executeFastDrop,
    boundTo, clearedAt.
  destruct (currentPiece T g) as [q|] eqn:Hpiece.
  - cbn [currentPieceId isFastDropTriggered fastDropPieceId andb].
    rewrite (optId_eqb_neq (Some p) (Some q)) by congruence.
    rewrite optId_eqb_refl. cbn [negb andb].
    destruct shaking; cbn; auto 10.
  - cbn [isFastDropTriggered fastDropPieceId].
    destruct shaking; cbn; rewrite ?andb_false_r, ?orb_true_r; cbn;
      rewrite ?andb_false_r;
      repeat (break_if; cbn); repeat split; auto; try congruence.
Qed.

Lemma executeFastDrop_disarmed (now : Z) (g : Game) (f : FastDrop) :
  isFastDropTriggered f = false -> executeFastDrop T now g f = (f, g, []).
Proof. intros Htrig. unfold executeFastDrop. rewrite Htrig. reflexivity. Qed.

Lemma trackCurrentPiece_requalifying (t0 : Z) (p : option PieceId)
      (f : FastDrop) :
  requalifyingSince t0 f -> requalifyingSince t0 (trackCurrentPiece p f).
Proof.
  intros (Htrig & Hstart). unfold trackCurrentPiece, requalifyingSince.
  destruct p as [q|]; [|auto].
  rewrite Htrig. cbn [andb].
  destruct (negb (optId_eqb (currentPieceId f) (Some q))); cbn; auto.
Qed.

Lemma fastDropTimer_requalifying (t0 : Z) (shaking : bool) (now : Z)
      (p : option PieceId) (f : FastDrop) :
  requalifyingSince t0 f ->
  t0 <= now < t0 + fastDropTriggerDelay ->
  requalifyingSince t0 (fastDropTimer shaking now p f).
Proof.
  intros (Htrig & Hstart) Hnow. unfold fastDropTimer, requalifyingSince.
  rewrite Htrig. cbn [negb orb].
  destruct shaking.
  - destruct (fastDropStartTime f =? 0) eqn:Hzero; cbn.
    + split; [auto | right; lia].
    + apply Z.eqb_neq in Hzero.
      replace (fastDropTriggerDelay <=? now - fastDropStartTime f) with false
        by (symmetry; apply Z.leb_gt; lia).
      auto.
  - destruct (0 <? fastDropStartTime f); cbn; auto.
Qed.

(** A disarmed controller whose timer started at [t0] or later cannot arm
    before [t0 + 500]. *)
Lemma dropPhase_requalifying (t0 : Z) (shaking : bool) (now : Z) (g : Game)
      (f : FastDrop) :
  requalifyingSince t0 f ->
  t0 <= now < t0 + fastDropTriggerDelay ->
  snd (dropPhase T shaking now g f) = []
  /\ requalifyingSince t0 (fst (fst (dropPhase T shaking now g f))).
Proof.
  intros Hreq Hnow. unfold dropPhase.
  assert (Hreq' : requalifyingSince t0
                    (fastDropTimer shaking now (currentPiece T g)
                       (trackCurrentPiece (currentPiece T g) f)))
    by (apply fastDropTimer_requalifying;
        [apply trackCurrentPiece_requalifying; exact Hreq | exact Hnow]).
  rewrite executeFastDrop_disarmed by apply Hreq'.
  auto.
Qed.

Lemma dropPhase_needs_shaking (now : Z) (g : Game) (f : FastDrop) :
  snd (dropPhase T false now g f) = [].
Proof.
  unfold dropPhase. rewrite executeFastDrop_disarmed; [reflexivity|].
  unfold fastDropTimer. cbn.
  destruct ((0 <? fastDropStartTime (trackCurrentPiece (currentPiece T g) f))
            || isFastDropTriggered (trackCurrentPiece (currentPiece T g) f))
    eqn:Hany; [reflexivity|].
  apply orb_false_iff in Hany. apply Hany.
Qed.

Lemma dropStepCount_app (a b : list Effect) :
  dropStepCount (a ++ b) = (dropStepCount a + dropStepCount b)%nat.
Proof. unfold dropStepCount. rewrite filter_app, length_app. reflexivity. Qed.

Lemma dispatchAction_no_drop_step (action : Action) (c : bool) (now : Z)
      (g : Game) (d : Debounce) :
  dropStepCount (snd (dispatchAction T action c now g d)) = 0%nat.
Proof.
  unfold dispatchAction, executeAction.
  destruct action; repeat (break_if; cbn); reflexivity.
Qed.

(** [arbitrate] runs the fast-drop blocks on the controller it is given;
    the action it dispatches afterwards is never a drop step. *)
Lemma arbitrate_dropPhase (s : HandControl) (ls rs lw rw : Landmark) (now : Z)
      (g : Game) :
  let phase := dropPhase T (isHeadShaking (headShake s)) now g (fastDrop s) in
  fastDrop (fst (fst (arbitrate T s ls rs lw rw now g))) = fst (fst phase)
  /\ dropStepCount (snd (arbitrate T s ls rs lw rw now g))
     = dropStepCount (snd phase)
  /\ headShake (fst (fst (arbitrate T s ls rs lw rw now g))) = headShake s.
Proof.
  unfold arbitrate, dropPhase.
  destruct (executeFastDrop T now g _) as [[f g'] dropEffects].
  destruct (detectSingleHand _ _ _ _ _) as [a1 c1].
  destruct (detectContinuousMove _ _ _ _ a1 c1) as [a2 c2].
  pose proof (dispatchAction_no_drop_step a2 (isInContinuousMode c2) now g'
                                          (debounce s)) as Hd.
  destruct (dispatchAction T a2 (isInContinuousMode c2) now g' (debounce s))
    as [[d g''] actionEffects].
  cbn [fst snd fastDrop headShake] in *.
  rewrite dropStepCount_app, Hd, Nat.add_0_r. auto.
Qed.

Lemma calibrateBaseline_no_drop_step (landmarks : Landmarks) (now : Z)
      (c : Calibration) :
  dropStepCount (snd (calibrateBaseline landmarks now c)) = 0%nat.
Proof.
  unfold calibrateBaseline.
  repeat first [break_option | break_if | break_let]; reflexivity.
Qed.

Lemma notifyStatus_no_drop_step (d : Detection) :
  dropStepCount (snd (notifyStatus d)) = 0%nat.
Proof. unfold notifyStatus. cbn [snd]. break_if; reflexivity. Qed.

(** The gesture step either leaves the controller alone and drops nothing,
    or runs the fast-drop blocks with the shake status it has just
    computed; it does the latter whenever it runs to its end on a sample
    with the five points. *)
Lemma detectHandGestures_drop_cases (s : HandControl) (landmarks : Landmarks)
      (now : Z) (g : Game) :
  let s' := fst (fst (detectHandGestures T s landmarks now g)) in
  let effects := snd (detectHandGestures T s landmarks now g) in
  let phase :=
    dropPhase T (isHeadShaking (headShake s')) now g (fastDrop s) in
  (fastDrop s' = fastDrop s /\ dropStepCount effects = 0%nat
   /\ (stepRuns s now = true -> fivePoints landmarks = None))
  \/ (fastDrop s' = fst (fst phase)
      /\ dropStepCount effects = dropStepCount (snd phase)).
Proof.
  unfold detectHandGestures, stepRuns, calibrated, fivePoints.
  destruct (baselineLeftShoulder (calibration s));
    [|left; rewrite ?andb_false_r; repeat split; auto; discriminate].
  destruct (baselineRightShoulder (calibration s));
    [|left; rewrite ?andb_false_r; repeat split; auto; discriminate].
  destruct (baselineNose (calibration s));
    [|left; rewrite ?andb_false_r; repeat split; auto; discriminate].
  destruct (now - lastActionTime (debounce s) <? actionCooldown);
    [left; cbn [negb]; rewrite ?andb_false_r; repeat split; auto;
     discriminate|].
  destruct (landmarkAt landmarks 15) as [lw|]; [|left; auto].
  destruct (landmarkAt landmarks 16) as [rw|]; [|left; auto].
  destruct (landmarkAt landmarks 11) as [ls|]; [|left; auto].
  destruct (landmarkAt landmarks 12) as [rs|]; [|left; auto].
  destruct (landmarkAt landmarks 0) as [nose|]; [|left; auto].
  cbn [detection with_headShake].
  destruct (debugLogThrows (frameCounter (detection s)));
    [left; cbn [negb]; rewrite ?andb_false_r; repeat split; auto;
     discriminate|].
  right.
  match goal with
  | |- context [arbitrate T ?s1 ls rs lw rw now g] =>
    destruct (arbitrate_dropPhase s1 ls rs lw rw now g) as (Hf & Hd & Hh)
  end.
  rewrite Hh. cbn [headShake fastDrop with_headShake] in *. auto.
Qed.

Lemma onResults_drop_cases (s : HandControl) (results : Results) (now : Z)
      (g : Game) :
  let s' := fst (fst (onResults T s results now g)) in
  let effects := snd (onResults T s results now g) in
  let phase :=
    dropPhase T (isHeadShaking (headShake s')) now g (fastDrop s) in
  (fastDrop s' = fastDrop s /\ dropStepCount effects = 0%nat
   /\ (stepRuns s now = true ->
       forall landmarks, hasPose results = Some landmarks ->
                         fivePoints landmarks = None))
  \/ (fastDrop s' = fst (fst phase)
      /\ dropStepCount effects = dropStepCount (snd phase)).
Proof.
  unfold onResults.
  destruct (hasPose results) as [landmarks|] eqn:Hpose.
  - cbn [calibration with_detection].
    destruct (calibrationFrames (calibration s) <? maxCalibrationFrames)
      eqn:Hcal.
    + left.
      pose proof (calibrateBaseline_no_drop_step landmarks now (calibration s))
        as Hc.
      destruct (calibrateBaseline landmarks now (calibration s)) as [c effects].
      cbn [fst snd fastDrop with_calibration with_detection] in *.
      repeat split; auto.
      intros Hruns. unfold stepRuns, calibrated in Hruns.
      apply Z.ltb_lt in Hcal.
      replace (maxCalibrationFrames <=? calibrationFrames (calibration s))
        with false in Hruns by (symmetry; apply Z.leb_gt; exact Hcal).
      discriminate Hruns.
    + match goal with
      | |- context [detectHandGestures T ?s1 landmarks now g] =>
        pose proof (detectHandGestures_drop_cases s1 landmarks now g) as Hcases;
          assert (Hruns1 : stepRuns s1 now = stepRuns s now)
            by (unfold stepRuns, calibrated; break_if; reflexivity);
          assert (Hfast1 : fastDrop s1 = fastDrop s) by reflexivity;
          destruct (detectHandGestures T s1 landmarks now g)
            as [[s2 g2] effects]
      end.
      rewrite Hruns1, Hfast1 in Hcases.
      pose proof (notifyStatus_no_drop_step (detection s2)) as Hn.
      destruct (notifyStatus (detection s2)) as [d notes].
      cbn [fst snd fastDrop headShake with_detection] in *.
      rewrite dropStepCount_app, Hn, Nat.add_0_r.
      destruct Hcases as [(Hf & Hd & Hskip) | (Hf & Hd)]; [left | right]; auto.
      repeat split; auto.
      intros Hruns l Hl. injection Hl as Hl. subst l. auto.
  - left.
    match goal with
    | |- context [notifyStatus ?d0] =>
      pose proof (notifyStatus_no_drop_step d0) as Hn;
        destruct (notifyStatus d0) as [d notes]
    end.
    cbn [fst snd fastDrop with_detection] in *.
    repeat split; auto. intros _ l Hl. discriminate Hl.
Qed.

Lemma clearedAt_requalifying (t0 t : Z) (f : FastDrop) :
  t0 <= t -> clearedAt t f -> requalifyingSince t0 f.
Proof.
  intros Hle (Htrig & _ & [Hzero | Hstart]); split; auto. right. lia.
Qed.

(** Until 500 ms have passed since [t0], a frame drops nothing and leaves
    the controller requalifying, or bound as long as the game shows
    another piece than the one it is bound to. *)
Lemma step_fast_drop_invariant (p : PieceId) (t0 : Z) (s : HandControl)
      (e : Event) :
  (boundTo p (fastDrop s) /\ pieceGone T p [e])
  \/ requalifyingSince t0 (fastDrop s) ->
  (forall results now g,
      e = Frame results now g -> t0 <= now < t0 + fastDropTriggerDelay) ->
  dropStepCount (snd (step T s e)) = 0%nat
  /\ ((boundTo p (fastDrop s) /\ boundTo p (fastDrop (fst (step T s e))))
      \/ requalifyingSince t0 (fastDrop (fst (step T s e)))).
Proof.
  intros Hinv Hnow.
  assert (Hsame : (boundTo p (fastDrop s) /\ boundTo p (fastDrop s))
                  \/ requalifyingSince t0 (fastDrop s))
    by (destruct Hinv as [[Hb _] | Hr]; auto).
  destruct e as [results now g| |]; cbn [step].
  - specialize (Hnow results now g eq_refl).
    pose proof (onResults_drop_cases s results now g) as Hcases.
    destruct (onResults T s results now g) as [[s' g'] effects].
    cbn [fst snd] in *.
    destruct Hcases as [(Hf & Hd & _) | (Hf & Hd)].
    + rewrite Hf. auto.
    + rewrite Hf, Hd. destruct Hinv as [[Hbound [Hother _]] | Hreq].
      * destruct (dropPhase_bound p (isHeadShaking (headShake s')) now g
                                  (fastDrop s) Hbound Hother)
          as (He & _ & [Hb | Hc] & _).
        -- rewrite He. auto.
        -- rewrite He. split; [reflexivity|]. right.
           apply (clearedAt_requalifying t0 now); [lia | assumption].
      * destruct (dropPhase_requalifying t0 (isHeadShaking (headShake s'))
                                         now g (fastDrop s) Hreq Hnow)
          as [He Hr].
        rewrite He. auto.
  - cbn. auto.
  - cbn. split; [reflexivity|]. right. split; auto.
Qed.

Lemma bound_not_requalifying (p : PieceId) (t0 : Z) (f : FastDrop) :
  boundTo p f -> requalifyingSince t0 f -> False.
Proof. intros (Htrig & _) (Hnot & _). congruence. Qed.

Lemma dropSteps_late (t : Z) (events : list Event) :
  forall (s : HandControl) (t' : Z),
    t <= t' -> clocksFrom t' events ->
    dropStepsNotBefore t events (snd (run T s events)).
Proof.
  induction events as [|e rest IH]; intros s t' Hle Hclocks; [exact I|].
  cbn [run]. destruct (step T s e) as [s1 effects] eqn:Hstep.
  specialize (IH s1).
  destruct (run T s1 rest) as [s2 log]. cbn [snd] in *.
  destruct e as [results now g| |]; cbn [dropStepsNotBefore clocksFrom] in *.
  - destruct Hclocks as [Hnow Hrest]. split; [intros _; lia|].
    apply (IH now); [lia | assumption].
  - injection Hstep as _ He. subst effects. split; [reflexivity|].
    apply (IH t'); assumption.
  - injection Hstep as _ He. subst effects. split; [reflexivity|].
    apply (IH t'); assumption.
Qed.

Lemma pieceGone_tail (p : PieceId) (e : Event) (rest : list Event) :
  pieceGone T p (e :: rest) -> pieceGone T p [e] /\ pieceGone T p rest.
Proof. destruct e; cbn; intuition. Qed.

Lemma run_fast_drop_invariant (p : PieceId) (t0 : Z) (events : list Event) :
  forall (s : HandControl) (t : Z),
    t0 <= t ->
    (boundTo p (fastDrop s) /\ pieceGone T p events)
    \/ requalifyingSince t0 (fastDrop s) ->
    clocksFrom t events ->
    dropStepsNotBefore (t0 + fastDropTriggerDelay) events
                       (snd (run T s events)).
Proof.
  induction events as [|e rest IH]; intros s t Hle Hinv Hclocks; [exact I|].
  assert (Hinv1 : (boundTo p (fastDrop s) /\ pieceGone T p [e])
                  \/ requalifyingSince t0 (fastDrop s)).
  { destruct Hinv as [[Hb Hgone] | Hreq]; [left | right; assumption].
    split; [assumption | apply (pieceGone_tail _ _ _ Hgone)]. }
  assert (Hnext : forall s1 : HandControl,
             (boundTo p (fastDrop s) /\ boundTo p (fastDrop s1))
             \/ requalifyingSince t0 (fastDrop s1) ->
             (boundTo p (fastDrop s1) /\ pieceGone T p rest)
             \/ requalifyingSince t0 (fastDrop s1)).
  { intros s1 [[Hb Hb1] | Hreq1]; [|right; assumption].
    destruct Hinv as [[_ Hgone] | Hreq]; [left | exfalso].
    - split; [assumption | apply (pieceGone_tail _ _ _ Hgone)].
    - apply (bound_not_requalifying _ _ _ Hb Hreq). }
  assert (Hquiet : forall t1 : Z,
             t0 <= t1 -> clocksFrom t1 rest ->
             (forall results now g,
                 e = Frame results now g ->
                 t0 <= now < t0 + fastDropTriggerDelay) ->
             dropStepCount (snd (step T s e)) = 0%nat
             /\ dropStepsNotBefore (t0 + fastDropTriggerDelay) rest
                  (snd (run T (fst (step T s e)) rest))).
  { intros t1 Hle1 Hclocks1 Hearly.
    destruct (step_fast_drop_invariant p t0 s e Hinv1 Hearly)
      as [Hnone Hinv'].
    split; [assumption|]. apply (IH _ t1 Hle1 (Hnext _ Hinv') Hclocks1). }
  cbn [run]. destruct (step T s e) as [s1 effects] eqn:Hstep.
  cbn [fst snd] in Hquiet.
  destruct e as [results now g| |]; cbn [clocksFrom] in Hclocks.
  - destruct Hclocks as [Hnow Hclocks].
    destruct (Z.lt_ge_cases now (t0 + fastDropTriggerDelay)) as [Hearly | Hlate].
    + assert (Hle' : t0 <= now) by lia.
      destruct (Hquiet now Hle' Hclocks) as [Hnone Hrest].
      { intros r n g0 Heq. injection Heq as _ Hn _. subst n. lia. }
      destruct (run T s1 rest) as [s2 log].
      cbn [snd dropStepsNotBefore] in *.
      split; [intros Hdrop; contradiction | assumption].
    + pose proof (dropSteps_late (t0 + fastDropTriggerDelay)
                    (Frame results now g :: rest) s
                    (t0 + fastDropTriggerDelay)) as Hlate'.
      cbn [run] in Hlate'. rewrite Hstep in Hlate'.
      apply Hlate'; [lia|]. cbn [clocksFrom]. auto.
  - destruct (Hquiet t Hle Hclocks) as [Hnone Hrest].
    { intros r n g0 Heq. discriminate Heq. }
    destruct (run T s1 rest) as [s2 log].
    cbn [snd dropStepsNotBefore] in *. auto.
  - destruct (Hquiet t Hle Hclocks) as [Hnone Hrest].
    { intros r n g0 Heq. discriminate Heq. }
    destruct (run T s1 rest) as [s2 log].
    cbn [snd dropStepsNotBefore] in *. auto.
Qed.

(** The binding of an armed controller is the piece the engine tracks: this
    holds after a reset and every frame and callback keeps it. *)
Lemma trackCurrentPiece_consistent (piece : option PieceId) (f : FastDrop) :
  bindingConsistent f ->
  bindingConsistent (trackCurrentPiece piece f)
  /\ (forall id, piece = Some id ->
                 currentPieceId (trackCurrentPiece piece f) = Some id).
Proof.
  intros Hcons. unfold trackCurrentPiece.
  destruct piece as [id|]; [|split; [assumption | discriminate]].
  destruct (negb (optId_eqb (currentPieceId f) (Some id))) eqn:Hnew.
  - destruct (isFastDropTriggered f) eqn:Htrig; cbn [andb].
    + destruct (Hcons Htrig) as (p & Hb & Hc).
      rewrite Hb, Hc, optId_eqb_refl.
      split; [intros Habs; discriminate Habs|].
      intros id' Hid. injection Hid as ->. reflexivity.
    + split; [intros Habs; discriminate Habs|].
      intros id' Hid. injection Hid as ->. reflexivity.
  - split; [assumption|].
    intros id' Hid. injection Hid as ->.
    apply negb_false_iff in Hnew. apply optId_eqb_eq in Hnew. assumption.
Qed.

Lemma fastDropTimer_consistent (shaking : bool) (now : Z)
      (piece : option PieceId) (f : FastDrop) :
  bindingConsistent f ->
  (forall id, piece = Some id -> currentPieceId f = Some id) ->
  bindingConsistent (fastDropTimer shaking now piece f).
Proof.
  intros Hcons Htracked. unfold fastDropTimer.
  destruct shaking.
  - destruct (isFastDropTriggered f) eqn:Htrig; cbn [negb]; [assumption|].
    destruct (fastDropStartTime f =? 0).
    + intros Habs. cbn in Habs. congruence.
    + destruct (fastDropTriggerDelay <=? now - fastDropStartTime f);
        [|assumption].
      destruct piece as [id|]; [|assumption].
      destruct (truthyId id && negb (optId_eqb (Some id) (fastDropPieceId f)));
        [|assumption].
      intros _. exists id. cbn. split; [reflexivity | apply Htracked; reflexivity].
  - intros Habs. exfalso.
    destruct ((0 <? fastDropStartTime f) || isFastDropTriggered f) eqn:Hany;
      cbn in Habs; [discriminate Habs|].
    apply orb_false_iff in Hany. destruct Hany as [_ Hany]. congruence.
Qed.

Lemma executeFastDrop_consistent (now : Z) (g : Game) (f : FastDrop) :
  bindingConsistent f ->
  bindingConsistent (fst (fst (executeFastDrop T now g f))).
Proof.
  intros Hcons. unfold executeFastDrop.
  destruct (isFastDropTriggered f && gameRunning T g); [|assumption].
  destruct (optId_eqb (currentPiece T g) (fastDropPieceId f)
            && (fastDropInterval <=? now - lastFastDropTime f)); [|assumption].
  destruct (movePiece T 0 1 g) as [moved g']. destruct moved; cbn [fst].
  - exact Hcons.
  - intros Habs. discriminate Habs.
Qed.

Lemma step_keeps_binding_consistent (s : HandControl) (e : Event) :
  bindingConsistent (fastDrop s) ->
  bindingConsistent (fastDrop (fst (step T s e))).
Proof.
  intros Hcons. destruct e as [results now g| |]; cbn [step].
  - pose proof (onResults_drop_cases s results now g) as Hcases.
    destruct (onResults T s results now g) as [[s' g'] effects].
    cbn [fst snd] in *.
    destruct Hcases as [(Hf & _) | (Hf & _)]; rewrite Hf; [assumption|].
    unfold dropPhase. apply executeFastDrop_consistent.
    destruct (trackCurrentPiece_consistent (currentPiece T g) (fastDrop s) Hcons)
      as [Htrack Htracked].
    apply fastDropTimer_consistent; assumption.
  - exact Hcons.
  - intros Habs. discriminate Habs.
Qed.

Lemma run_keeps_binding_consistent (events : list Event) :
  forall s : HandControl,
    bindingConsistent (fastDrop s) ->
    bindingConsistent (fastDrop (fst (run T s events))).
Proof.
  induction events as [|e rest IH]; intros s Hcons; [assumption|].
  cbn [run].
  pose proof (step_keeps_binding_consistent s e Hcons) as Hstep.
  destruct (step T s e) as [s1 effects]. cbn [fst] in Hstep.
  specialize (IH s1 Hstep). destruct (run T s1 rest) as [s2 log].
  assumption.
Qed.

(** So in every run from a reset an armed controller is bound to the piece
    the engine tracks, as the fast-drop claim supposes. *)
Lemma armed_after_reset_is_bound (t : Z) (s0 : HandControl)
      (events : list Event) :
  let s := fst (run T (resetCalibration t s0) events) in
  isFastDropTriggered (fastDrop s) = true ->
  exists p : PieceId, boundTo p (fastDrop s).
Proof.
  intros s Harmed.
  assert (Hcons : bindingConsistent (fastDrop s)).
  { apply run_keeps_binding_consistent. intros Habs. discriminate Habs. }
  destruct (Hcons Harmed) as (p & Hb & Hc).
  exists p. repeat split; assumption.
Qed.

(** A drop step is only ever issued on a cycle on which head shaking is
    confirmed. *)
Lemma drop_step_needs_shaking (s : HandControl) (results : Results) (now : Z)
      (g : Game) :
  dropStepCount (snd (onResults T s results now g)) <> 0%nat ->
  isHeadShaking (headShake (fst (fst (onResults T s results now g)))) = true.
Proof.
  intros Hdrop.
  destruct (onResults_drop_cases s results now g)
    as [(_ & Hd & _) | (_ & Hd)]; [contradiction|].
  destruct (isHeadShaking
              (headShake (fst (fst (onResults T s results now g)))));
    [reflexivity|].
  rewrite Hd, dropPhase_needs_shaking in Hdrop. contradiction.
Qed.

(** A cycle of the controller that finds the head shake unconfirmed disarms
    it and clears the qualification timer, whatever it held. *)
Lemma dropPhase_pause (now : Z) (g : Game) (f : FastDrop) :
  isFastDropTriggered (fst (fst (dropPhase T false now g f))) = false
  /\ fastDropStartTime (fst (fst (dropPhase T false now g f))) = 0.
Proof.
  unfold dropPhase.
  generalize (trackCurrentPiece (currentPiece T g) f). intros f1.
  assert (Hoff : isFastDropTriggered
                   (fastDropTimer false now (currentPiece T g) f1) = false
                 /\ fastDropStartTime
                      (fastDropTimer false now (currentPiece T g) f1) = 0).
  { unfold fastDropTimer.
    destruct ((0 <? fastDropStartTime f1) || isFastDropTriggered f1) eqn:Hany;
      cbn; [auto|].
    apply orb_false_iff in Hany. destruct Hany as [_ Hany]. auto. }
  destruct Hoff as [Htrig Hstart].
  rewrite (executeFastDrop_disarmed now g _ Htrig). cbn [fst]. auto.
Qed.

(** C4: with the fast-drop controller armed and bound to piece [p1]:
    while the game shows another piece no drop step is issued before 500 ms
    have passed since the first such frame; the first frame on which the
    gesture step runs to its end and sees another piece [p2] issues no drop
    step and clears the binding and the start timestamp (the timer
    restarts at that clock if the head is still shaking); from there on no
    drop step is issued before a fresh 500 ms have passed, and a drop step
    is only issued on a cycle with confirmed head shaking.  The shake has
    to persist through the delay: whatever the state, a cycle on which the
    gesture step runs to its end and finds the head shake unconfirmed
    disarms the controller and clears the start timestamp, so that no drop
    step is issued before 500 ms have passed since that cycle. *)
Theorem fast_drop_piece_change_invalidation :
  forall (s : HandControl) (p1 : PieceId),
    boundTo p1 (fastDrop s) ->
    (forall (events : list Event) (t : Z),
        pieceGone T p1 events ->
        clocksFrom t events ->
        dropStepsNotBefore (t + fastDropTriggerDelay) events
                           (snd (run T s events)))
    /\ (forall (results : Results) (landmarks : Landmarks) (now : Z)
               (g : Game) (p2 : PieceId),
           currentPiece T g = Some p2 ->
           p2 <> p1 ->
           hasPose results = Some landmarks ->
           fivePoints landmarks <> None ->
           stepRuns s now = true ->
           let s' := fst (fst (onResults T s results now g)) in
           dropStepCount (snd (onResults T s results now g)) = 0%nat
           /\ clearedAt now (fastDrop s')
           /\ forall events : list Event,
               clocksFrom now events ->
               dropStepsNotBefore (now + fastDropTriggerDelay) events
                                  (snd (run T s' events)))
    /\ (forall (s0 : HandControl) (results : Results) (now : Z) (g : Game),
           dropStepCount (snd (onResults T s0 results now g)) <> 0%nat ->
           isHeadShaking
             (headShake (fst (fst (onResults T s0 results now g)))) = true)
    /\ (forall (s0 : HandControl) (results : Results) (landmarks : Landmarks)
               (now : Z) (g : Game),
           hasPose results = Some landmarks ->
           fivePoints landmarks <> None ->
           stepRuns s0 now = true ->
           let s1 := fst (fst (onResults T s0 results now g)) in
           isHeadShaking (headShake s1) = false ->
           isFastDropTriggered (fastDrop s1) = false
           /\ fastDropStartTime (fastDrop s1) = 0
           /\ forall events : list Event,
               clocksFrom now events ->
               dropStepsNotBefore (now + fastDropTriggerDelay) events
                                  (snd (run T s1 events))).
Proof.
  intros s p1 Hbound. split; [|split; [|split]].
  - intros events t Hgone Hclocks.
    apply (run_fast_drop_invariant p1 t events s t); auto. lia.
  - intros results landmarks now g p2 Hpiece Hne Hpose Hfive Hruns s'.
    subst s'.
    destruct (onResults_drop_cases s results now g)
      as [(_ & _ & Hskip) | (Hf & Hd)].
    { exfalso. apply Hfive. apply (Hskip Hruns landmarks Hpose). }
    assert (Hother : currentPiece T g <> Some p1) by congruence.
    assert (Hsome : currentPiece T g <> None) by congruence.
    destruct (dropPhase_bound p1
                (isHeadShaking
                   (headShake (fst (fst (onResults T s results now g)))))
                now g (fastDrop s) Hbound Hother)
      as (He & _ & _ & Hcleared).
    rewrite Hd, He, Hf. split; [reflexivity|].
    split; [apply Hcleared; assumption|].
    intros events Hclocks.
    apply (run_fast_drop_invariant p1 now events _ now); auto; [lia|].
    right. rewrite Hf.
    apply (clearedAt_requalifying now now); [lia | auto].
  - intros s0 results now g. apply drop_step_needs_shaking.
  - intros s0 results landmarks now g Hpose Hfive Hruns s1 Hstill. subst s1.
    destruct (onResults_drop_cases s0 results now g)
      as [(_ & _ & Hskip) | (Hf & _)].
    { exfalso. apply Hfive. apply (Hskip Hruns landmarks Hpose). }
    rewrite Hstill in Hf.
    destruct (dropPhase_pause now g (fastDrop s0)) as [Htrig Hstart].
    rewrite <- Hf in Htrig, Hstart.
    split; [exact Htrig|]. split; [exact Hstart|].
    intros events Hclocks.
    apply (run_fast_drop_invariant p1 now events _ now); auto; [lia|].
    right. split; [exact Htrig | left; exact Hstart].
Qed.

End FastDropProperties.

(** ** Cooldown, rotation and continuous ticks *)

Section Cooldown.

Context {Game : Type} (T : TetrisGame Game).







End Cooldown.

(** * The claims on sample runs *)

Section SampleRuns.

Import Scenario.

Lemma Forall_frames (P : Event (Game := SimpleGame) -> Prop) (results : Results)
      (g : SimpleGame) (n : nat) :
  (forall t : Z, P (Frame results t g)) ->
  forall t : Z, Forall P (frames n t results g).
Proof.
  intros HP. induction n as [|n IH]; intros t; cbn [frames]; constructor; auto.
Qed.





Lemma no_command_while_not_running_witness :
  gameRunning simpleGame (stopped 1) = false
  /\ bothHandsUp bothUpLandmarks = true
  /\ stepRuns ready tRaise = true
  /\ gameCalls (snd (onResults simpleGame ready bothUp tRaise (stopped 1))) = [].
Proof.
  assert (Hstop : gameRunning simpleGame (stopped 1) = false) by reflexivity.
  assert (Hup : bothHandsUp bothUpLandmarks = true) by (vm_compute; reflexivity).
  assert (Hruns : stepRuns ready tRaise = true) by (vm_compute; reflexivity).
  exact (conj Hstop (conj Hup (conj Hruns
           (proj1 (no_command_while_not_running simpleGame ready bothUp tRaise
                     (stopped 1) Hstop))))).
Defined.

Lemma cooldown_frame_leaves_gesture_state_witness :
  (tRaise + 33) - lastActionTime (debounce afterLeftRaise) < actionCooldown
  /\ detectHandGestures simpleGame afterLeftRaise bothUpLandmarks
                        (tRaise + 33) (playing 1)
     = (afterLeftRaise, playing 1, []).
Proof.
  assert (Hcool : (tRaise + 33) - lastActionTime (debounce afterLeftRaise)
                  < actionCooldown) by (vm_compute; reflexivity).
  exact (conj Hcool
           (proj1 (cooldown_frame_leaves_gesture_state simpleGame afterLeftRaise
                     bothUpLandmarks (tRaise + 33) (playing 1) Hcool))).
Defined.

Lemma clocksFrom_shaking (g : SimpleGame) (n : nat) :
  forall (k : nat) (t t' : Z), t' <= t -> clocksFrom t' (shaking n k t g).
Proof.
  induction n as [|n IH]; intros k t t' Hle; cbn [shaking clocksFrom];
    [exact I|].
  split; [assumption | apply IH; lia].
Qed.

Lemma pieceGone_shaking (p q : PieceId) (n : nat) :
  q <> p ->
  forall (k : nat) (t : Z),
    pieceGone simpleGame p (shaking n k t (playing q)).
Proof.
  intros Hne. induction n as [|n IH]; intros k t; cbn [shaking pieceGone];
    [exact I|].
  split; [cbn; congruence | apply IH].
Qed.

Lemma fast_drop_piece_change_invalidation_witness :
  boundTo 1 (fastDrop armed)
  /\ dropStepsNotBefore (tChange + fastDropTriggerDelay)
       (shaking 30 60 tChange (playing 2))
       (snd (run simpleGame armed (shaking 30 60 tChange (playing 2))))
  /\ stepRuns armed tChange = true
  /\ clearedAt tChange
       (fastDrop
          (fst (fst (onResults simpleGame armed
                               (mkResults (Some shakeLandmarks)) tChange
                               (playing 2)))))
  (* the head stops while the controller is armed *)
  /\ isFastDropTriggered (fastDrop stillArmed) = true
  /\ stepRuns stillArmed tPause = true
  /\ isHeadShaking
       (headShake (fst (fst (onResults simpleGame stillArmed handsDown tPause
                                       (playing 1))))) = false
  /\ isFastDropTriggered
       (fastDrop (fst (fst (onResults simpleGame stillArmed handsDown tPause
                                      (playing 1))))) = false
  /\ fastDropStartTime
       (fastDrop (fst (fst (onResults simpleGame stillArmed handsDown tPause
                                      (playing 1))))) = 0.
Proof.
  assert (Hbound : boundTo 1 (fastDrop armed))
    by (repeat split; vm_compute; reflexivity).
  assert (Hruns : stepRuns armed tChange = true) by (vm_compute; reflexivity).
  assert (Hgone : pieceGone simpleGame 1 (shaking 30 60 tChange (playing 2)))
    by (apply pieceGone_shaking; discriminate).
  assert (Hclocks : clocksFrom tChange (shaking 30 60 tChange (playing 2)))
    by (apply clocksFrom_shaking; apply Z.le_refl).
  assert (Hpiece : currentPiece simpleGame (playing 2) = Some 2) by reflexivity.
  assert (Hne : 2 <> 1) by discriminate.
  assert (Hpose : hasPose (mkResults (Some shakeLandmarks)) = Some shakeLandmarks)
    by reflexivity.
  assert (Hfive : fivePoints shakeLandmarks <> None) by (cbn; discriminate).
  assert (Harmed : isFastDropTriggered (fastDrop stillArmed) = true)
    by (vm_compute; reflexivity).
  assert (Hruns' : stepRuns stillArmed tPause = true)
    by (vm_compute; reflexivity).
  assert (Hpose' : hasPose handsDown = Some handsDownLandmarks) by reflexivity.
  assert (Hfive' : fivePoints handsDownLandmarks <> None)
    by (cbn; discriminate).
  assert (Hstill : isHeadShaking
                     (headShake
                        (fst (fst (onResults simpleGame stillArmed handsDown
                                             tPause (playing 1))))) = false)
    by (vm_compute; reflexivity).
  pose proof (fast_drop_piece_change_invalidation simpleGame armed 1 Hbound)
    as (Hrun & Hclear & _ & Hpause).
  pose proof (Hclear (mkResults (Some shakeLandmarks)) shakeLandmarks tChange
                     (playing 2) 2 Hpiece Hne Hpose Hfive Hruns) as Hcleared.
  cbv zeta in Hcleared.
  pose proof (Hpause stillArmed handsDown handsDownLandmarks tPause (playing 1)
                     Hpose' Hfive' Hruns') as Hpaused.
  cbv zeta in Hpaused. specialize (Hpaused Hstill).
  exact (conj Hbound
           (conj (Hrun (shaking 30 60 tChange (playing 2)) tChange Hgone Hclocks)
              (conj Hruns
                 (conj (proj1 (proj2 Hcleared))
                    (conj Harmed
                       (conj Hruns'
                          (conj Hstill
                             (conj (proj1 Hpaused)
                                   (proj1 (proj2 Hpaused)))))))))).
Defined.

Lemma calibration_converges_up_to_rounding_witness :
  Forall calibrationSampleFrame (frames 30 t0 handsDown (playing 1))
  /\ calibrationFrames
       (calibration
          (fst (run simpleGame (resetCalibration t0 (newHandControl t0))
                    (frames 30 t0 handsDown (playing 1)))))
     = maxCalibrationFrames
  /\ (exists zn,
         baselineNose
           (calibration
              (fst (run simpleGame (resetCalibration t0 (newHandControl t0))
                        (frames 30 t0 handsDown (playing 1)))))
         = Some (mkPoint3 0.5 0.3 zn))
  /\ (exists zl,
         baselineLeftShoulder
           (calibration
              (fst (run simpleGame (resetCalibration t0 (newHandControl t0))
                        (frames 30 t0 handsDown (playing 1)))))
         = Some (mkPoint3 0.4000000000000002 0.5 zl)).
Proof.
  assert (Hall : Forall calibrationSampleFrame
                        (frames 30 t0 handsDown (playing 1))).
  { apply Forall_frames. intros t. cbn.
    repeat split; eexists; (split; [reflexivity|]); split; reflexivity. }
  pose proof (calibration_converges_up_to_rounding simpleGame
                (newHandControl t0) t0 (frames 30 t0 handsDown (playing 1)) Hall)
    as Hboth.
  cbv zeta in Hboth. destruct Hboth as [Hfull _].
  destruct (Hfull eq_refl) as (_ & Hframes & _ & Hn & _ & Hl & _).
  exact (conj Hall (conj Hframes (conj Hn Hl))).
Defined.

Lemma missing_point_frame_is_counted_witness :
  hasPose noNose = Some noNoseLandmarks
  /\ calibrationFrames (calibration started) < maxCalibrationFrames
  /\ landmarkAt noNoseLandmarks 0 = None
  /\ calibrationFrames
       (calibration
          (fst (fst (onResults simpleGame started noNose t0 (playing 1)))))
     = calibrationFrames (calibration started) + 1.
Proof.
  assert (Hpose : hasPose noNose = Some noNoseLandmarks) by reflexivity.
  assert (Hcal : calibrationFrames (calibration started) < maxCalibrationFrames)
    by (vm_compute; reflexivity).
  assert (Hnone : landmarkAt noNoseLandmarks 0 = None) by reflexivity.
  pose proof (missing_point_frame_is_counted simpleGame started noNose
                noNoseLandmarks t0 (playing 1) Hpose Hcal (or_introl Hnone))
    as Hcount.
  cbv zeta in Hcount.
  exact (conj Hpose (conj Hcal (conj Hnone
           (proj2 (proj2 (proj2 (proj2 Hcount))))))).
Defined.

(** What the counted frame leads to: when the nose is missing on the
    thirtieth calibration frame, the calibration phase ends all the same
    (the counter is at 30), with the sums of 29 frames left undivided in
    the baseline and no completion event. *)
Lemma missed_last_frame_ends_calibration_unfinished :
  let c := calibration (fst missedLast) in
  calibrationFrames c = maxCalibrationFrames
  /\ calibrationCompletedNotified c = false
  /\ concat (snd missedLast) = []
  /\ baselineNose c
     = Some (mkPoint3 (partialSum 0.5 29) (partialSum 0.3 29) PrimFloat.zero)
  /\ partialSum 0.5 29 = 14.5%float.
Proof. cbv zeta. repeat split; vm_compute; reflexivity. Qed.

Lemma detection_hysteresis_witness :
  isGestureDetected (detection fading) = true
  /\ isGestureDetected
       (detection
          (fst (fst (onResults simpleGame fading noPose (t1 + 29 * 33)
                               (playing 1))))) = false
  /\ hasPose noPose = None
  /\ maxFailureCount
     <= poseDetectionFailureCount
          (detection
             (fst (fst (onResults simpleGame fading noPose (t1 + 29 * 33)
                                  (playing 1)))))
  /\ JS.lt (successRate
              (recentDetectionHistory
                 (detection
                    (fst (fst (onResults simpleGame fading noPose
                                         (t1 + 29 * 33) (playing 1)))))))
           0.2%float
     = true.
Proof.
  assert (Hwas : isGestureDetected (detection fading) = true)
    by (vm_compute; reflexivity).
  assert (Hlost : isGestureDetected
                    (detection
                       (fst (fst (onResults simpleGame fading noPose
                                            (t1 + 29 * 33) (playing 1)))))
                  = false) by (vm_compute; reflexivity).
  pose proof (detection_hysteresis simpleGame fading noPose (t1 + 29 * 33)
                                   (playing 1)) as Hall.
  cbv zeta in Hall. destruct Hall as (Honly & _).
  exact (conj Hwas (conj Hlost (Honly Hwas Hlost))).
Defined.

(** The hysteresis on a run after calibration: one missed frame leaves the
    status true, the thirtieth consecutive miss turns it false, and one
    valid frame turns it true again. *)
Lemma detection_lost_and_regained :
  let detected (events : list (Event (Game := SimpleGame))) :=
    isGestureDetected
      (detection (fst (run simpleGame afterCalibration events))) in
  detected (frames 1 t1 noPose (playing 1)) = true
  /\ detected (frames 29 t1 noPose (playing 1)) = true
  /\ detected (frames 30 t1 noPose (playing 1)) = false
  /\ detected (frames 30 t1 noPose (playing 1)
               ++ frames 1 (t1 + 990) handsDown (playing 1)) = true.
Proof. cbv zeta. repeat split; vm_compute; reflexivity. Qed.

(** C8, on a run: the left hand is raised at [tRaise] and held up; after
    800 ms the engine is in continuous mode.  At [tMoved] the wrist jumps
    to the side, still up: the stability test fails, the mode is left and
    the start time is cleared to 0.  The hand stays up, so no new start
    time is ever taken; four frames later (132 ms, not 800 ms) the wrist is
    stable again, the hold time is computed from the cleared start time 0,
    and the engine is back in continuous mode and moves the piece. *)
Theorem continuous_mode_reentered_without_fresh_hold :
  continuous (heldLeft 40)
  = mkContinuousMove tRaise (tRaise + 37 * 33) true
  /\ continuous (fst (movedLeft 1))
     = mkContinuousMove 0 (tRaise + 37 * 33) false
  /\ map (fun k => (leftHandState (hands (fst (movedLeft k))),
                    lastLeftHandState (hands (fst (movedLeft k))),
                    rightHandState (hands (fst (movedLeft k)))))
         [1; 2; 3; 4; 5]%nat
     = repeat (up, Some up, down) 5
  /\ map (fun k => continuous (fst (movedLeft k))) [2; 3; 4]%nat
     = repeat (mkContinuousMove 0 (tRaise + 37 * 33) false) 3
  /\ continuous (fst (movedLeft 5))
     = mkContinuousMove 0 (tMoved + 4 * 33) true
  /\ snd (movedLeft 5) = [[]; []; []; []; [CallMovePiece (-1) 0]]
  /\ (tMoved + 4 * 33) - tMoved < continuousMoveThreshold.
Proof. repeat split; vm_compute; reflexivity. Qed.

(** The slip C1 leaves aside: on the first gesture frame after calibration
    [frameCounter] is 0, the debug log raises and the cycle stops before
    the rotation test, so both hands up rotate on the next frame only. *)
Lemma debug_log_delays_the_rotation :
  frameCounter (detection afterCalibration) = 0
  /\ debugLogThrows (frameCounter (detection afterCalibration)) = true
  /\ bothHandsVisible (hands afterCalibration) = false
  /\ map rotateCount
         (snd (run simpleGame afterCalibration
                   (frames 3 t1 bothUp (playing 1))))
     = [0; 1; 0]%nat.
Proof. repeat split; vm_compute; reflexivity. Qed.

End SampleRuns.

(** * Further properties of the engine *)

Section Frames.

Context {Game : Type} (T : TetrisGame Game).

(** The fields [arbitrate] leaves alone, and what it does to the hand
    windows and the hand states. *)
Lemma arbitrate_fields (s : HandControl) (ls rs lw rw : Landmark) (now : Z)
      (g : Game) :
  let s' := fst (fst (arbitrate T s ls rs lw rw now g)) in
  calibration s' = calibration s
  /\ headShake s' = headShake s
  /\ detection s' = detection s
  /\ handHistory s' = updateHandHistory lw rw now (handHistory s)
  /\ hands s'
     = mkHandStates (handStateOf (isHandUp ls lw)) (handStateOf (isHandUp rs rw))
                    (shouldRotate ls rs lw rw) (shouldRotate ls rs lw rw)
                    (Some (handStateOf (isHandUp ls lw)))
                    (Some (handStateOf (isHandUp rs rw))).
Proof.
  unfold arbitrate.
  destruct (executeFastDrop T now g _) as [[f g'] dropEffects].
  destruct (detectSingleHand _ _ _ _ _) as [a1 c1].
  destruct (detectContinuousMove _ _ _ _ a1 c1) as [a2 c2].
  destruct (dispatchAction T a2 (isInContinuousMode c2) now g' (debounce s))
    as [[d g''] actionEffects].
  cbn. auto.
Qed.

(** The three ways through [detectHandGestures]: it returns at once, the
    debug log stops it after the head window, or it arbitrates. *)
Lemma detectHandGestures_cases (s : HandControl) (landmarks : Landmarks)
      (now : Z) (g : Game) :
  (detectHandGestures T s landmarks now g = (s, g, [])
   /\ (stepRuns s now = true -> fivePoints landmarks = None))
  \/ (exists nose,
         landmarkAt landmarks 0 = Some nose
         /\ debugLogThrows (frameCounter (detection s)) = true
         /\ detectHandGestures T s landmarks now g
            = (with_headShake (headStep (headShake s) nose now) s, g, []))
  \/ (exists lw rw ls rs nose,
         fivePoints landmarks = Some (lw, rw, ls, rs, nose)
         /\ (now - lastActionTime (debounce s) <? actionCooldown) = false
         /\ detectHandGestures T s landmarks now g
            = arbitrate T (with_headShake (headStep (headShake s) nose now) s)
                        ls rs lw rw now g).
Proof.
  unfold stepRuns, calibrated, detectHandGestures, fivePoints.
  destruct (baselineLeftShoulder (calibration s));
    [|left; rewrite ?andb_false_r; split; [reflexivity | discriminate]].
  destruct (baselineRightShoulder (calibration s));
    [|left; rewrite ?andb_false_r; split; [reflexivity | discriminate]].
  destruct (baselineNose (calibration s));
    [|left; rewrite ?andb_false_r; split; [reflexivity | discriminate]].
  destruct (now - lastActionTime (debounce s) <? actionCooldown);
    [left; cbn [negb]; rewrite ?andb_false_r; split;
     [reflexivity | discriminate]|].
  destruct (landmarkAt landmarks 15) as [lw|]; [|left; auto].
  destruct (landmarkAt landmarks 16) as [rw|]; [|left; auto].
  destruct (landmarkAt landmarks 11) as [ls|]; [|left; auto].
  destruct (landmarkAt landmarks 12) as [rs|]; [|left; auto].
  destruct (landmarkAt landmarks 0) as [nose|]; [|left; auto].
  cbn [detection with_headShake].
  destruct (debugLogThrows (frameCounter (detection s))) eqn:Hlog.
  - right. left. exists nose. auto.
  - right. right. exists lw, rw, ls, rs, nose. auto.
Qed.

Lemma detectHandGestures_keeps (s : HandControl) (landmarks : Landmarks)
      (now : Z) (g : Game) :
  let s' := fst (fst (detectHandGestures T s landmarks now g)) in
  detection s' = detection s /\ calibration s' = calibration s.
Proof.
  destruct (detectHandGestures_cases s landmarks now g)
    as [[Heq _] | [(nose & _ & _ & Heq) | (lw & rw & ls & rs & nose & _ & _ & Heq)]];
    rewrite Heq; cbn [fst]; auto.
  destruct (arbitrate_fields
              (with_headShake (headStep (headShake s) nose now) s)
              ls rs lw rw now g) as (Hc & _ & Hd & _).
  auto.
Qed.

(** ** The calls of one frame *)

Lemma dispatchAction_shape (action : Action) (c : bool) (now : Z) (g : Game)
      (d : Debounce) :
  snd (dispatchAction T action c now g d) = []
  \/ exists a, snd (dispatchAction T action c now g d) = [a]
               /\ isAction a = true.
Proof.
  unfold dispatchAction, executeAction.
  destruct action; repeat (break_if; cbn); auto;
    right; eexists; split; reflexivity.
Qed.

Lemma arbitrate_shape (s : HandControl) (ls rs lw rw : Landmark) (now : Z)
      (g : Game) :
  dropThenAction (snd (arbitrate T s ls rs lw rw now g)).
Proof.
  unfold arbitrate.
  match goal with
  | |- context [executeFastDrop T now g ?f] =>
    destruct (executeFastDrop_cases T now g f) as [[He _] | [He _]];
      destruct (executeFastDrop T now g f) as [[f' g'] dropEffects]
  end;
    cbn [fst snd] in He; subst dropEffects;
    destruct (detectSingleHand _ _ _ _ _) as [a1 c1];
    destruct (detectContinuousMove _ _ _ _ a1 c1) as [a2 c2];
    pose proof (dispatchAction_shape a2 (isInContinuousMode c2) now g'
                                     (debounce s)) as Hshape;
    destruct (dispatchAction T a2 (isInContinuousMode c2) now g' (debounce s))
      as [[d g''] actionEffects];
    cbn [fst snd] in *;
    eexists; exists actionEffects; (split; [reflexivity|]); auto.
Qed.

Lemma dropThenAction_nil : dropThenAction [].
Proof. exists [], []. auto. Qed.

Lemma detectHandGestures_shape (s : HandControl) (landmarks : Landmarks)
      (now : Z) (g : Game) :
  dropThenAction (snd (detectHandGestures T s landmarks now g)).
Proof.
  destruct (detectHandGestures_cases s landmarks now g)
    as [[Heq _] | [(nose & _ & _ & Heq) | (lw & rw & ls & rs & nose & _ & _ & Heq)]];
    rewrite Heq; cbn [snd]; try apply dropThenAction_nil.
  apply arbitrate_shape.
Qed.

Lemma dropThenAction_calls (effects : list Effect) :
  dropThenAction effects ->
  gameCalls effects = effects
  /\ filter isCalibrationComplete effects = []
  /\ statusNotes effects = []
  /\ (length effects <= 2)%nat.
Proof.
  intros (drops & actions & -> & [-> | ->] & [-> | (a & -> & Ha)]);
    try (cbn; repeat split; auto; fail).
  all: destruct a as [dx dy| | |]; try discriminate Ha;
    try (cbn; repeat split; auto; fail).
  all: destruct dx as [|[| |]|[| |]]; try discriminate Ha;
    destruct dy; try discriminate Ha; cbn; repeat split; auto.
Qed.

Lemma no_call_no_action (effects : list Effect) :
  gameCalls effects = [] -> filter isAction effects = [].
Proof.
  induction effects as [|e rest IH]; [reflexivity|].
  unfold gameCalls. cbn [filter].
  destruct e as [dx dy| | |]; cbn [isGameCall isAction];
    try discriminate; exact IH.
Qed.

(** X1: one frame makes at most two calls on the game: at most one
    fast-drop step [movePiece(0, 1)], followed by at most one action (a move
    to the left or to the right, or a rotation). *)
Theorem frame_calls_drop_then_action :
  forall (s : HandControl) (results : Results) (now : Z) (g : Game),
    dropThenAction (gameCalls (snd (onResults T s results now g)))
    /\ (length (gameCalls (snd (onResults T s results now g))) <= 2)%nat.
Proof.
  intros s results now g.
  assert (Hshape : dropThenAction
                     (gameCalls (snd (onResults T s results now g)))).
  { unfold onResults.
    destruct (hasPose results) as [landmarks|].
    - cbn [calibration with_detection]. break_if.
      + pose proof (calibrateBaseline_no_game_call landmarks now (calibration s))
          as Hc.
        destruct (calibrateBaseline landmarks now (calibration s)) as [c effects].
        cbn [fst snd] in *. rewrite Hc. apply dropThenAction_nil.
      + match goal with
        | |- context [detectHandGestures T ?s1 landmarks now g] =>
          pose proof (detectHandGestures_shape s1 landmarks now g) as Hd;
            destruct (detectHandGestures T s1 landmarks now g)
              as [[s2 g2] effects]
        end.
        pose proof (notifyStatus_no_game_call (detection s2)) as Hn.
        destruct (notifyStatus (detection s2)) as [d notes].
        cbn [fst snd] in *.
        rewrite gameCalls_app, Hn, app_nil_r.
        destruct (dropThenAction_calls effects Hd) as (-> & _). assumption.
    - match goal with
      | |- context [notifyStatus ?d0] =>
        pose proof (notifyStatus_no_game_call d0) as Hn;
          destruct (notifyStatus d0) as [d notes]
      end.
      cbn [fst snd] in *. rewrite Hn. apply dropThenAction_nil. }
  split; [assumption|].
  destruct (dropThenAction_calls _ Hshape) as (_ & _ & _ & Hlen). assumption.
Qed.

(** ** The history windows *)

Lemma pushBounded_length {A : Type} (n : nat) (v : A) (l : list A) :
  (length l <= n)%nat ->
  (length (JS.pushBounded (Z.of_nat n) v l) <= n)%nat.
Proof.
  intros Hl. unfold JS.pushBounded.
  destruct (Z.of_nat n <? Z.of_nat (length (l ++ [v]))) eqn:Hlt.
  - destruct l as [|a l']; cbn in *; [lia|].
    rewrite length_app. cbn. lia.
  - apply Z.ltb_ge in Hlt. lia.
Qed.

(** A window that is not full grows by the new sample; a full one drops its
    oldest sample and takes the new one at the end. *)
Lemma pushBounded_fifo {A : Type} (n : nat) (v : A) (l : list A) :
  ((length l < n)%nat -> JS.pushBounded (Z.of_nat n) v l = l ++ [v])
  /\ (length l = n -> JS.pushBounded (Z.of_nat n) v l = tl (l ++ [v])).
Proof.
  unfold JS.pushBounded. rewrite length_app. cbn [length].
  split; intros Hl.
  - replace (Z.of_nat n <? Z.of_nat (length l + 1)) with false; [reflexivity|].
    symmetry. apply Z.ltb_ge. lia.
  - replace (Z.of_nat n <? Z.of_nat (length l + 1)) with true; [reflexivity|].
    symmetry. apply Z.ltb_lt. lia.
Qed.

Lemma headStep_length (h : HeadShake) (nose : Landmark) (now : Z) :
  (length (headHistory h) <= 20)%nat ->
  (length (headHistory (headStep h nose now)) <= 20)%nat.
Proof.
  intros Hl. unfold headStep, detectHeadShake.
  assert (Hpush : (length (headHistory (updateHeadHistory nose now h)) <= 20)%nat)
    by (apply (pushBounded_length 20); assumption).
  break_if; assumption.
Qed.

Lemma step_keeps_windows_bounded (s : HandControl) (e : Event) :
  windowsBounded s -> windowsBounded (fst (step T s e)).
Proof.
  intros (Hhead & Hleft & Hright & Hrecent).
  destruct e as [results now g| |]; cbn [step];
    [|repeat split; assumption | repeat split; assumption].
  unfold onResults.
  destruct (hasPose results) as [landmarks|].
  - cbn [calibration with_detection].
    assert (Hpush : (length (JS.pushBounded detectionHistorySize true
                               (recentDetectionHistory (detection s)))
                     <= 10)%nat)
      by (apply (pushBounded_length 10); assumption).
    break_if.
    + destruct (calibrateBaseline landmarks now (calibration s)) as [c effects].
      repeat split; assumption.
    + match goal with
      | |- context [detectHandGestures T ?s1 landmarks now g] =>
        pose proof (detectHandGestures_keeps s1 landmarks now g) as [Hd _];
          pose proof (detectHandGestures_cases s1 landmarks now g) as Hcases;
          destruct (detectHandGestures T s1 landmarks now g)
            as [[s2 g2] effects]
      end.
      cbn [fst snd] in Hd.
      destruct (notifyStatus (detection s2)) as [d notes] eqn:Hnote.
      assert (Hrecent' : (length (recentDetectionHistory d) <= 10)%nat).
      { unfold notifyStatus in Hnote. injection Hnote as <- _.
        cbn [recentDetectionHistory]. rewrite Hd. cbn. exact Hpush. }
      unfold windowsBounded.
      cbn [fst headShake handHistory detection with_detection].
      destruct Hcases
        as [[Heq _] | [(nose & _ & _ & Heq)
                      | (lw & rw & ls & rs & nose & _ & _ & Heq)]].
      * injection Heq as -> _ _. cbn. auto.
      * injection Heq as -> _ _. cbn [headShake handHistory with_headShake
                                       with_calibration with_detection].
        repeat split; auto. apply headStep_length. assumption.
      * match type of Heq with
        | _ = arbitrate T ?s3 _ _ _ _ _ _ =>
          destruct (arbitrate_fields s3 ls rs lw rw now g)
            as (_ & Hh & _ & Hhh & _)
        end.
        rewrite <- Heq in Hh, Hhh. cbn [fst] in Hh, Hhh.
        rewrite Hh, Hhh.
        cbn [headShake handHistory with_headShake with_calibration
             with_detection updateHandHistory leftHandHistory
             rightHandHistory].
        repeat split; auto.
        -- apply headStep_length. assumption.
        -- apply (pushBounded_length 10). assumption.
        -- apply (pushBounded_length 10). assumption.
  - destruct (notifyStatus _) as [d notes] eqn:Hnote.
    unfold notifyStatus in Hnote. injection Hnote as <- _.
    unfold windowsBounded. cbn.
    repeat split; auto. apply (pushBounded_length 10). assumption.
Qed.

(** X2: the head window never holds more than 20 samples, the hand windows
    never more than 10 and the detection outcomes never more than 10: this
    holds after a reset and every frame and callback keeps it. *)
Theorem windows_stay_bounded :
  forall (t : Z) (s0 : HandControl) (events : list Event),
    windowsBounded (fst (run T (resetCalibration t s0) events)).
Proof.
  intros t s0 events.
  assert (Hrun : forall (l : list Event) (s : HandControl),
             windowsBounded s -> windowsBounded (fst (run T s l))).
  { induction l as [|e rest IH]; intros s Hs; [assumption|].
    cbn [run].
    pose proof (step_keeps_windows_bounded s e Hs) as Hstep.
    destruct (step T s e) as [s1 effects]. cbn [fst] in Hstep.
    specialize (IH s1 Hstep). destruct (run T s1 rest) as [s2 log].
    assumption. }
  apply Hrun. unfold windowsBounded. cbn. repeat split; lia.
Qed.

End Frames.

(** ** The head window and the shake counter, on any input *)

Section HeadWindow.

Lemma headFeed_snoc (frames : list (Landmark * Z)) (f : Landmark * Z)
      (h : HeadShake) :
  headFeed (frames ++ [f]) h = headStep (headFeed frames h) (fst f) (snd f).
Proof. unfold headFeed. rewrite fold_left_app. reflexivity. Qed.

Lemma headStep_history (h : HeadShake) (nose : Landmark) (now : Z) :
  headHistory (headStep h nose now)
  = JS.pushBounded headHistorySize (mkPosition (x nose) (y nose) now)
                   (headHistory h).
Proof. unfold headStep, detectHeadShake. break_if; reflexivity. Qed.

Lemma tl_skipn {A : Type} (k : nat) (l : list A) :
  tl (skipn k l) = skipn (S k) l.
Proof.
  revert l. induction k as [|k IH]; intros l; destruct l as [|a l];
    try reflexivity.
  cbn [skipn]. rewrite IH. destruct l; reflexivity.
Qed.

Lemma headFeed_history (frames : list (Landmark * Z)) :
  headHistory (headFeed frames emptyHead)
  = skipn (length frames - 20) (map positionOf frames).
Proof.
  induction frames as [|f frames IH] using rev_ind;
    [reflexivity|].
  rewrite headFeed_snoc, headStep_history, IH, map_app, length_app.
  cbn [map length].
  change (mkPosition (x (fst f)) (y (fst f)) (snd f)) with (positionOf f).
  destruct (pushBounded_fifo 20 (positionOf f)
              (skipn (length frames - 20) (map positionOf frames)))
    as [Hgrow Hfull].
  change headHistorySize with (Z.of_nat 20).
  destruct (Nat.lt_ge_cases (length frames) 20) as [Hlt | Hge].
  - replace (length frames - 20)%nat with 0%nat in * by lia.
    replace (length frames + 1 - 20)%nat with 0%nat by lia.
    cbn [skipn] in *. apply Hgrow. rewrite length_map. assumption.
  - rewrite Hfull by (rewrite length_skipn, length_map; lia).
    replace (length frames + 1 - 20)%nat with (S (length frames - 20)) by lia.
    assert (Hskip : skipn (length frames - 20) (map positionOf frames)
                    ++ [positionOf f]
                    = skipn (length frames - 20)
                            (map positionOf frames ++ [positionOf f])).
    { rewrite skipn_app, length_map.
      replace (length frames - 20 - length frames)%nat with 0%nat by lia.
      reflexivity. }
    rewrite Hskip. apply tl_skipn.
Qed.

(** X3: fed any sequence of noses from an empty history, the head window
    holds the last 20 samples of the sequence, oldest first (all of them
    while fewer than 20 were fed). *)
Theorem head_window_is_last_twenty :
  forall frames : list (Landmark * Z),
    headHistory (headFeed frames emptyHead)
    = skipn (length frames - 20) (map positionOf frames).
Proof. intros frames. apply headFeed_history. Qed.

Lemma headFeed_counter (frames : list (Landmark * Z)) :
  0 <= consecutiveShakeFrames (headFeed frames emptyHead)
  /\ consecutiveShakeFrames (headFeed frames emptyHead)
     <= Z.max 0 (Z.of_nat (length frames) - 19)
  /\ isHeadShaking (headFeed frames emptyHead)
     = (requiredShakeFrames
        <=? consecutiveShakeFrames (headFeed frames emptyHead)).
Proof.
  induction frames as [|f frames IH] using rev_ind;
    [cbn; repeat split; lia|].
  destruct IH as (Hpos & Hle & _).
  pose proof (headFeed_history (frames ++ [f])) as Hwin.
  rewrite headFeed_snoc in *.
  rewrite length_app. cbn [length].
  unfold headStep, detectHeadShake in *.
  set (h := updateHeadHistory (fst f) (snd f) (headFeed frames emptyHead)) in *.
  assert (Hcount : consecutiveShakeFrames h
                   = consecutiveShakeFrames (headFeed frames emptyHead))
    by reflexivity.
  destruct (Z.of_nat (length (headHistory h)) <? headHistorySize) eqn:Hfull.
  - cbn. repeat split; lia.
  - cbn [headHistory] in Hwin. apply Z.ltb_ge in Hfull.
    rewrite Hwin, length_skipn, length_map, length_app in Hfull.
    cbn [length] in Hfull. unfold headHistorySize in Hfull.
    cbn [consecutiveShakeFrames isHeadShaking].
    destruct (isCurrentFrameShaking (headHistory h));
      repeat split; try reflexivity; lia.
Qed.

(** X4: whatever the head does, from an empty history the shake counter
    after [n] frames is at most [n - 19], so shaking is never confirmed
    before frame 31. *)
Theorem head_shake_needs_thirty_one_frames :
  forall frames : list (Landmark * Z),
    consecutiveShakeFrames (headFeed frames emptyHead)
    <= Z.max 0 (Z.of_nat (length frames) - 19)
    /\ (isHeadShaking (headFeed frames emptyHead) = true ->
        (31 <= length frames)%nat).
Proof.
  intros frames. destruct (headFeed_counter frames) as (_ & Hle & Hshake).
  split; [assumption|]. intros Htrue. rewrite Hshake in Htrue.
  apply Z.leb_le in Htrue. unfold requiredShakeFrames in Htrue. lia.
Qed.

End HeadWindow.

(** ** Before and after calibration *)

Section CalibrationPhase.

Context {Game : Type} (T : TetrisGame Game).

Lemma notifyStatus_no_completion (d : Detection) :
  filter isCalibrationComplete (snd (notifyStatus d)) = [].
Proof. unfold notifyStatus. cbn [snd]. break_if; reflexivity. Qed.

Lemma onResults_quiet (s : HandControl) (results : Results) (now : Z)
      (g : Game) :
  hasPose results = None \/ calibrated s = false ->
  gestureState (fst (fst (onResults T s results now g))) = gestureState s
  /\ snd (fst (onResults T s results now g)) = g
  /\ gameCalls (snd (onResults T s results now g)) = [].
Proof.
  intros Hquiet. unfold onResults.
  destruct (hasPose results) as [landmarks|] eqn:Hpose.
  - destruct Hquiet as [Habs | Hcal]; [discriminate Habs|].
    cbn [calibration with_detection].
    destruct (calibrationFrames (calibration s) <? maxCalibrationFrames)
      eqn:Hframes.
    + pose proof (calibrateBaseline_no_game_call landmarks now (calibration s))
        as Hc.
      destruct (calibrateBaseline landmarks now (calibration s)) as [c effects].
      cbn [fst snd] in *. auto.
    + assert (Hnull : forall s1 : HandControl,
                 baseline s1 = baseline s ->
                 detectHandGestures T s1 landmarks now g = (s1, g, [])).
      { intros s1 Hb. unfold baseline in Hb. injection Hb as Hl Hr Hn.
        unfold detectHandGestures. rewrite Hl, Hr, Hn.
        unfold calibrated in Hcal. apply Z.ltb_ge in Hframes.
        apply Z.leb_le in Hframes. rewrite Hframes in Hcal. cbn [andb] in Hcal.
        destruct (baselineLeftShoulder (calibration s)); [|reflexivity].
        destruct (baselineRightShoulder (calibration s)); [|reflexivity].
        destruct (baselineNose (calibration s)); [discriminate | reflexivity]. }
      rewrite Hnull by (unfold baseline; cbn; break_if; reflexivity).
      match goal with
      | |- context [notifyStatus ?d0] =>
        pose proof (notifyStatus_no_game_call d0) as Hn;
          destruct (notifyStatus d0) as [d notes]
      end.
      cbn [fst snd app] in *. auto.
  - match goal with
    | |- context [notifyStatus ?d0] =>
      pose proof (notifyStatus_no_game_call d0) as Hn;
        destruct (notifyStatus d0) as [d notes]
    end.
    cbn [fst snd] in *. auto.
Qed.

(** X5: a frame without a pose, and a frame that arrives before calibration
    has left a baseline (fewer than 30 frames counted, or a null baseline
    point), touches no gesture state and calls nothing on the game. *)
Theorem uncalibrated_frame_is_quiet :
  forall (s : HandControl) (results : Results) (now : Z) (g : Game),
    hasPose results = None \/ calibrated s = false ->
    gestureState (fst (fst (onResults T s results now g))) = gestureState s
    /\ snd (fst (onResults T s results now g)) = g
    /\ gameCalls (snd (onResults T s results now g)) = [].
Proof. intros s results now g. apply onResults_quiet. Qed.

Lemma calibrateBaseline_frames (landmarks : Landmarks) (now : Z)
      (c : Calibration) :
  calibrationFrames (fst (calibrateBaseline landmarks now c))
  = calibrationFrames c.
Proof.
  unfold calibrateBaseline.
  repeat (break_option; cbn [fst calibrationFrames]; auto);
    repeat (break_if; cbn [fst calibrationFrames]; auto).
Qed.

(** Once 30 frames are counted a frame leaves the calibration counter and
    the baseline as they are, and completes nothing. *)
Lemma step_after_calibration (s : HandControl) (e : Event) :
  maxCalibrationFrames <= calibrationFrames (calibration s) ->
  calibrationFrames (calibration (fst (step T s e)))
  = calibrationFrames (calibration s)
  /\ baseline (fst (step T s e)) = baseline s
  /\ filter isCalibrationComplete (snd (step T s e)) = [].
Proof.
  intros Hdone. destruct e as [results now g| |]; cbn [step]; auto.
  unfold onResults.
  destruct (hasPose results) as [landmarks|].
  - cbn [calibration with_detection].
    replace (calibrationFrames (calibration s) <? maxCalibrationFrames)
      with false by (symmetry; apply Z.ltb_ge; assumption).
    match goal with
    | |- context [detectHandGestures T ?s1 landmarks now g] =>
      pose proof (detectHandGestures_keeps T s1 landmarks now g) as [_ Hc];
        pose proof (detectHandGestures_cases T s1 landmarks now g) as Hcases;
        assert (Hc1 : calibrationFrames (calibration s1)
                      = calibrationFrames (calibration s)
                      /\ baseline s1 = baseline s)
          by (unfold baseline; cbn; break_if; auto);
        destruct (detectHandGestures T s1 landmarks now g)
          as [[s2 g2] effects] eqn:Hgest
    end.
    cbn [fst] in Hc.
    pose proof (notifyStatus_no_completion (detection s2)) as Hn.
    destruct (notifyStatus (detection s2)) as [d notes].
    cbn [fst snd] in *. unfold baseline in *.
    cbn [calibration with_detection]. rewrite Hc.
    destruct Hc1 as [Hf Hb]. rewrite filter_app, Hn, app_nil_r.
    repeat split; auto.
    pose proof (detectHandGestures_shape T
                  (with_calibration
                     (if showCalibrationComplete (calibration s)
                         && negb (now - calibrationCompleteTime (calibration s)
                                  <? 5000)
                      then mkCalibration
                             (baselineLeftShoulder (calibration s))
                             (baselineRightShoulder (calibration s))
                             (baselineNose (calibration s))
                             (calibrationFrames (calibration s))
                             (calibrationCompleteTime (calibration s)) false
                             (calibrationCompletedNotified (calibration s))
                      else calibration s)
                     (with_detection
                        (mkDetection true
                           (lastGestureDetectionStatus (detection s)) 0 now
                           (JS.pushBounded detectionHistorySize true
                              (recentDetectionHistory (detection s)))
                           (frameCounter (detection s))) s))
                  landmarks now g) as Hshape.
    rewrite Hgest in Hshape. cbn [snd] in Hshape.
    apply (dropThenAction_calls effects Hshape).
  - match goal with
    | |- context [notifyStatus ?d0] =>
      pose proof (notifyStatus_no_completion d0) as Hn;
        destruct (notifyStatus d0) as [d notes]
    end.
    cbn [fst snd] in *. auto.
Qed.

Lemma baseline_frozen_run (s : HandControl) (events : list Event) :
  maxCalibrationFrames <= calibrationFrames (calibration s) ->
  baseline (fst (run T s events)) = baseline s
  /\ calibrationFrames (calibration (fst (run T s events)))
     = calibrationFrames (calibration s)
  /\ filter isCalibrationComplete (concat (snd (run T s events))) = [].
Proof.
  revert s.
  induction events as [|e rest IH]; intros s Hdone; cbn [run].
  - cbn. auto.
  - destruct (step_after_calibration s e Hdone) as (Hframes & Hbase & Hnone).
    destruct (step T s e) as [s1 effects]. cbn [fst snd] in *.
    assert (Hdone1 : maxCalibrationFrames <= calibrationFrames (calibration s1))
      by (rewrite Hframes; assumption).
    destruct (IH s1 Hdone1) as (Hb & Hf & Hn).
    destruct (run T s1 rest) as [s2 log]. cbn [fst snd concat] in *.
    rewrite filter_app, Hnone, Hn, Hb, Hf, Hbase, Hframes. auto.
Qed.

(** X6: once 30 frames are counted, no run of frames, cooldown timers and
    placed pieces changes the baseline or the frame count, and the host is
    not told again that calibration is complete. *)
Theorem baseline_frozen_after_calibration :
  forall (s : HandControl) (events : list Event),
    maxCalibrationFrames <= calibrationFrames (calibration s) ->
    baseline (fst (run T s events)) = baseline s
    /\ calibrationFrames (calibration (fst (run T s events)))
       = calibrationFrames (calibration s)
    /\ filter isCalibrationComplete (concat (snd (run T s events))) = [].
Proof. intros s events. apply baseline_frozen_run. Qed.

(** X7: when the 30 frames are counted and a baseline point is still null,
    no later frame reaches the game: the engine stays dead until
    [resetCalibration]. *)
Theorem null_baseline_never_calls_game :
  forall (s : HandControl) (events : list Event),
    maxCalibrationFrames <= calibrationFrames (calibration s) ->
    calibrated s = false ->
    gameCalls (concat (snd (run T s events))) = [].
Proof.
  intros s events. revert s.
  induction events as [|e rest IH]; intros s Hdone Hnull; cbn [run].
  - reflexivity.
  - destruct (step_after_calibration s e Hdone) as (Hframes & Hbase & _).
    assert (Hquiet : gameCalls (snd (step T s e)) = []).
    { destruct e as [results now g| |]; cbn [step]; try reflexivity.
      destruct (onResults_quiet s results now g (or_intror Hnull))
        as (_ & _ & Hcalls).
      destruct (onResults T s results now g) as [[s1 g1] effects].
      exact Hcalls. }
    destruct (step T s e) as [s1 effects]. cbn [fst snd] in *.
    assert (Hnull1 : calibrated s1 = false).
    { unfold calibrated in *. unfold baseline in Hbase.
      injection Hbase as -> -> ->. rewrite Hframes. assumption. }
    assert (Hdone1 : maxCalibrationFrames <= calibrationFrames (calibration s1))
      by (rewrite Hframes; assumption).
    specialize (IH s1 Hdone1 Hnull1).
    destruct (run T s1 rest) as [s2 log]. cbn [fst snd concat] in *.
    rewrite gameCalls_app, Hquiet, IH. reflexivity.
Qed.

(** Only the frame that finds the count at 29 can complete the
    calibration; it leaves the count at 30. *)
Lemma step_calibration_count (s : HandControl) (e : Event) :
  filter isCalibrationComplete (snd (step T s e)) = []
  \/ (filter isCalibrationComplete (snd (step T s e))
      = [NotifyCalibrationComplete]
      /\ calibrationFrames (calibration s) = maxCalibrationFrames - 1
      /\ calibrationFrames (calibration (fst (step T s e)))
         = maxCalibrationFrames).
Proof.
  destruct (Z.lt_ge_cases (calibrationFrames (calibration s))
                          maxCalibrationFrames) as [Hlt | Hge].
  2: { left. apply (step_after_calibration s e Hge). }
  destruct e as [results now g| |]; cbn [step]; try (left; reflexivity).
  unfold onResults.
  destruct (hasPose results) as [landmarks|].
  - cbn [calibration with_detection].
    apply Z.ltb_lt in Hlt. rewrite Hlt.
    unfold calibrateBaseline.
    destruct (landmarkAt landmarks 11), (landmarkAt landmarks 12),
      (landmarkAt landmarks 0); try (left; reflexivity).
    destruct (baselineLeftShoulder (calibration s)).
    + destruct (baselineRightShoulder (calibration s)),
        (baselineNose (calibration s)); try (left; reflexivity).
      destruct (calibrationFrames (calibration s) =? maxCalibrationFrames - 1)
        eqn:Hlast; [right | left; reflexivity].
      apply Z.eqb_eq in Hlast. cbn.
      unfold maxCalibrationFrames in *. repeat split; lia.
    + cbn iota beta.
      destruct (calibrationFrames (calibration s) =? maxCalibrationFrames - 1)
        eqn:Hlast; [right | left; reflexivity].
      apply Z.eqb_eq in Hlast. cbn.
      unfold maxCalibrationFrames in *. repeat split; lia.
  - match goal with
    | |- context [notifyStatus ?d0] =>
      pose proof (notifyStatus_no_completion d0) as Hn;
        destruct (notifyStatus d0) as [d notes]
    end.
    cbn [fst snd] in *. left. assumption.
Qed.

Lemma run_completes_at_most_once (events : list Event) (s : HandControl) :
  (length (filter isCalibrationComplete (concat (snd (run T s events))))
   <= 1)%nat.
Proof.
  revert s. induction events as [|e rest IH]; intros s; cbn [run].
  - cbn. lia.
  - destruct (step_calibration_count s e) as [Hnone | (Hone & _ & Hdone)].
    + specialize (IH (fst (step T s e))).
      destruct (step T s e) as [s1 effects]. cbn [fst snd] in *.
      destruct (run T s1 rest) as [s2 log]. cbn [fst snd concat] in *.
      rewrite filter_app, Hnone. exact IH.
    + assert (Hge : maxCalibrationFrames
                    <= calibrationFrames (calibration (fst (step T s e))))
        by lia.
      destruct (baseline_frozen_run (fst (step T s e)) rest Hge)
        as (_ & _ & Hn).
      destruct (step T s e) as [s1 effects]. cbn [fst snd] in *.
      destruct (run T s1 rest) as [s2 log]. cbn [fst snd concat] in *.
      rewrite filter_app, Hone, Hn. cbn. lia.
Qed.

(** X8: in a run the host is told at most once that calibration is
    complete, whatever the frames are and whatever state the run starts
    from. *)
Theorem calibration_completes_at_most_once :
  forall (s : HandControl) (events : list Event),
    (length (filter isCalibrationComplete (concat (snd (run T s events))))
     <= 1)%nat.
Proof. intros s events. apply run_completes_at_most_once. Qed.

(** While fewer than 30 frames are counted, a frame with a pose is counted
    and nothing else is. *)
Lemma step_counts (s : HandControl) (e : Event) :
  calibrationFrames (calibration s) < maxCalibrationFrames ->
  calibrationFrames (calibration (fst (step T s e)))
  = calibrationFrames (calibration s) + (if isPoseFrame e then 1 else 0).
Proof.
  intros Hlt. destruct e as [results now g| |]; cbn [step isPoseFrame];
    [|cbn; lia..].
  unfold onResults.
  destruct (hasPose results) as [landmarks|].
  - cbn [calibration with_detection].
    apply Z.ltb_lt in Hlt. rewrite Hlt.
    pose proof (calibrateBaseline_frames landmarks now (calibration s)) as Hc.
    destruct (calibrateBaseline landmarks now (calibration s)) as [c effects].
    cbn [fst snd calibration with_calibration calibrationFrames] in *.
    rewrite Hc. reflexivity.
  - destruct (notifyStatus _) as [d notes]. cbn. lia.
Qed.

Lemma run_quiet_while_calibrating (events : list Event) :
  forall s : HandControl,
    calibrationFrames (calibration s)
    + Z.of_nat (length (filter isPoseFrame events)) <= maxCalibrationFrames ->
    gameCalls (concat (snd (run T s events))) = [].
Proof.
  induction events as [|e rest IH]; intros s Hfew; [reflexivity|].
  cbn [filter] in Hfew. cbn [run].
  destruct (Z.lt_ge_cases (calibrationFrames (calibration s))
                          maxCalibrationFrames) as [Hlt | Hge].
  - assert (Hquiet : gameCalls (snd (step T s e)) = []).
    { destruct e as [results now g| |]; cbn [step]; try reflexivity.
      assert (Hcal : calibrated s = false).
      { unfold calibrated. apply Z.leb_gt in Hlt. rewrite Hlt. reflexivity. }
      destruct (onResults_quiet s results now g (or_intror Hcal))
        as (_ & _ & Hcalls).
      destruct (onResults T s results now g) as [[s1 g1] effects].
      exact Hcalls. }
    pose proof (step_counts s e Hlt) as Hcount.
    specialize (IH (fst (step T s e))).
    destruct (step T s e) as [s1 effects]. cbn [fst snd] in *.
    assert (Hfew1 : calibrationFrames (calibration s1)
                    + Z.of_nat (length (filter isPoseFrame rest))
                    <= maxCalibrationFrames).
    { rewrite Hcount. destruct (isPoseFrame e); cbn [length] in Hfew; lia. }
    specialize (IH Hfew1).
    destruct (run T s1 rest) as [s2 log]. cbn [fst snd concat] in *.
    rewrite gameCalls_app, Hquiet, IH. reflexivity.
  - (* the count is at 30: this event is no frame with a pose *)
    destruct (isPoseFrame e) eqn:He;
      [cbn [length] in Hfew; lia|].
    assert (Hquiet : gameCalls (snd (step T s e)) = []).
    { destruct e as [results now g| |]; cbn [step]; try reflexivity.
      cbn [isPoseFrame] in He.
      assert (Hpose : hasPose results = None)
        by (destruct (hasPose results); [discriminate He | reflexivity]).
      destruct (onResults_quiet s results now g (or_introl Hpose))
        as (_ & _ & Hcalls).
      destruct (onResults T s results now g) as [[s1 g1] effects].
      exact Hcalls. }
    destruct (step_after_calibration s e Hge) as (Hframes & _ & _).
    specialize (IH (fst (step T s e))).
    destruct (step T s e) as [s1 effects]. cbn [fst snd] in *.
    assert (Hfew1 : calibrationFrames (calibration s1)
                    + Z.of_nat (length (filter isPoseFrame rest))
                    <= maxCalibrationFrames) by lia.
    specialize (IH Hfew1).
    destruct (run T s1 rest) as [s2 log]. cbn [fst snd concat] in *.
    rewrite gameCalls_app, Hquiet, IH. reflexivity.
Qed.

(** X9: after [resetCalibration] the first thirty frames with a pose belong
    to calibration: as long as a run holds no more than thirty of them, it
    calls nothing on the game, whatever the frames show. *)
Theorem no_game_call_before_thirty_poses :
  forall (t : Z) (s0 : HandControl) (events : list Event),
    (length (filter isPoseFrame events) <= 30)%nat ->
    gameCalls (concat (snd (run T (resetCalibration t s0) events))) = [].
Proof.
  intros t s0 events Hfew.
  apply run_quiet_while_calibrating.
  cbn [resetCalibration calibration calibrationFrames].
  unfold maxCalibrationFrames. lia.
Qed.

End CalibrationPhase.

(** ** Rates over a run *)

Section Rates.

Context {Game : Type} (T : TetrisGame Game).

Lemma dispatchAction_debounce (action : Action) (c : bool) (now : Z)
      (g : Game) (d : Debounce) :
  lastActionTime (fst (fst (dispatchAction T action c now g d)))
  = lastActionTime d
  \/ lastActionTime (fst (fst (dispatchAction T action c now g d))) = now.
Proof.
  unfold dispatchAction.
  destruct action; cbn [fst]; auto;
    break_if; cbn [fst]; auto;
    destruct (executeAction T _ g) as [g' effects];
    destruct c; cbn; auto.
Qed.

Lemma arbitrate_debounce (s : HandControl) (ls rs lw rw : Landmark) (now : Z)
      (g : Game) :
  lastActionTime (debounce (fst (fst (arbitrate T s ls rs lw rw now g))))
  = lastActionTime (debounce s)
  \/ lastActionTime (debounce (fst (fst (arbitrate T s ls rs lw rw now g))))
     = now.
Proof.
  unfold arbitrate.
  destruct (executeFastDrop T now g _) as [[f g'] dropEffects].
  destruct (detectSingleHand _ _ _ _ _) as [a1 c1].
  destruct (detectContinuousMove _ _ _ _ a1 c1) as [a2 c2].
  pose proof (dispatchAction_debounce a2 (isInContinuousMode c2) now g'
                                      (debounce s)) as Hd.
  destruct (dispatchAction T a2 (isInContinuousMode c2) now g' (debounce s))
    as [[d g''] actionEffects].
  exact Hd.
Qed.

(** A frame that calls the game comes at least 150 ms after the timestamp of
    the last non-continuous action, and that timestamp never goes back. *)
Lemma step_cooldown (t : Z) (s : HandControl) (e : Event) :
  t <= lastActionTime (debounce s) ->
  t <= lastActionTime (debounce (fst (step T s e)))
  /\ match e with
     | Frame _ now _ =>
       gameCalls (snd (step T s e)) <> [] -> t + actionCooldown <= now
     | _ => gameCalls (snd (step T s e)) = []
     end.
Proof.
  intros Hlast. destruct e as [results now g| |]; cbn [step];
    [|split; [exact Hlast | reflexivity]..].
  unfold onResults.
  destruct (hasPose results) as [landmarks|].
  - cbn [calibration with_detection]. break_if.
    + pose proof (calibrateBaseline_no_game_call landmarks now (calibration s))
        as Hc.
      destruct (calibrateBaseline landmarks now (calibration s)) as [c effects].
      cbn [fst snd] in *. split; [exact Hlast | congruence].
    + match goal with
      | |- context [detectHandGestures T ?s1 landmarks now g] =>
        assert (Hd1 : debounce s1 = debounce s) by reflexivity;
          destruct (detectHandGestures_cases T s1 landmarks now g)
            as [[Heq _] | [(nose & _ & _ & Heq)
                          | (lw & rw & ls & rs & nose & _ & Hcool & Heq)]];
          rewrite Heq; clear Heq;
          [| |pose proof (arbitrate_debounce
                            (with_headShake (headStep (headShake s1) nose now) s1)
                            ls rs lw rw now g) as Hdeb;
              pose proof (arbitrate_shape T
                            (with_headShake (headStep (headShake s1) nose now) s1)
                            ls rs lw rw now g) as Hshape;
              destruct (arbitrate T
                          (with_headShake (headStep (headShake s1) nose now) s1)
                          ls rs lw rw now g) as [[s2 g2] effects]]
      end.
      * match goal with
        | |- context [notifyStatus ?d0] =>
          pose proof (notifyStatus_no_game_call d0) as Hn;
            destruct (notifyStatus d0) as [d notes]
        end.
        cbn [fst snd app] in *. split; [exact Hlast | congruence].
      * match goal with
        | |- context [notifyStatus ?d0] =>
          pose proof (notifyStatus_no_game_call d0) as Hn;
            destruct (notifyStatus d0) as [d notes]
        end.
        cbn [fst snd app] in *. split; [exact Hlast | congruence].
      * match goal with
        | |- context [notifyStatus ?d0] =>
          pose proof (notifyStatus_no_game_call d0) as Hn;
            destruct (notifyStatus d0) as [d notes]
        end.
        cbn [fst snd debounce with_headShake with_detection with_calibration]
          in *.
        apply Z.ltb_ge in Hcool. unfold actionCooldown in *.
        split; [destruct Hdeb as [-> | ->]; [exact Hlast | lia] | intros _; lia].
  - match goal with
    | |- context [notifyStatus ?d0] =>
      pose proof (notifyStatus_no_game_call d0) as Hn;
        destruct (notifyStatus d0) as [d notes]
    end.
    cbn [fst snd] in *. split; [exact Hlast | congruence].
Qed.

(** X10: the cooldown holds over whole runs.  From a state whose last
    non-continuous action is stamped [t] or later, no frame with a clock
    before [t + 150] calls the game, whatever the frames show: no move, no
    rotation, no continuous tick and no fast-drop step. *)
Theorem no_game_call_during_cooldown :
  forall (t : Z) (events : list Event) (s : HandControl),
    t <= lastActionTime (debounce s) ->
    gameCallsNotBefore (t + actionCooldown) events (snd (run T s events)).
Proof.
  intros t events. induction events as [|e rest IH]; intros s Hlast.
  - exact I.
  - destruct (step_cooldown t s e Hlast) as [Hlast1 Hcalls].
    specialize (IH (fst (step T s e)) Hlast1).
    cbn [run]. destruct (step T s e) as [s1 effects]. cbn [fst snd] in *.
    destruct (run T s1 rest) as [s2 log]. cbn [fst snd] in *.
    destruct e; cbn [gameCallsNotBefore]; cbn beta iota in Hcalls;
      (split; [exact Hcalls | exact IH]).
Qed.

Lemma statusNotes_app (a b : list Effect) :
  statusNotes (a ++ b) = statusNotes a ++ statusNotes b.
Proof.
  induction a as [|e a IH]; [reflexivity|].
  destruct e; cbn; rewrite IH; reflexivity.
Qed.

Lemma notifyStatus_notes (d : Detection) :
  (snd (notifyStatus d) = []
   /\ lastGestureDetectionStatus (fst (notifyStatus d))
      = lastGestureDetectionStatus d)
  \/ (snd (notifyStatus d)
      = [NotifyGestureStatus (negb (lastGestureDetectionStatus d))]
      /\ lastGestureDetectionStatus (fst (notifyStatus d))
         = negb (lastGestureDetectionStatus d)).
Proof.
  unfold notifyStatus. cbn [fst snd lastGestureDetectionStatus].
  destruct (isGestureDetected d), (lastGestureDetectionStatus d); cbn; auto.
Qed.

(** What one event notifies about the detection status, and the status the
    engine remembers as notified. *)
Lemma step_status (s : HandControl) (e : Event) :
  (statusNotes (snd (step T s e)) = []
   /\ lastGestureDetectionStatus (detection (fst (step T s e)))
      = lastGestureDetectionStatus (detection s))
  \/ (statusNotes (snd (step T s e))
      = [negb (lastGestureDetectionStatus (detection s))]
      /\ lastGestureDetectionStatus (detection (fst (step T s e)))
         = negb (lastGestureDetectionStatus (detection s))).
Proof.
  destruct e as [results now g| |]; cbn [step]; [|left; auto..].
  unfold onResults.
  destruct (hasPose results) as [landmarks|].
  - cbn [calibration with_detection]. break_if.
    + left. unfold calibrateBaseline.
      repeat (break_option; cbn; auto); repeat (break_if; cbn; auto).
    + match goal with
      | |- context [detectHandGestures T ?s1 landmarks now g] =>
        pose proof (detectHandGestures_shape T s1 landmarks now g) as Hshape;
          destruct (detectHandGestures_keeps T s1 landmarks now g) as [Hdet _];
          destruct (detectHandGestures T s1 landmarks now g)
            as [[s2 g2] effects]
      end.
      cbn [fst snd] in *.
      destruct (dropThenAction_calls effects Hshape) as (_ & _ & Hquiet & _).
      destruct (notifyStatus_notes (detection s2)) as [[Hn Hl] | [Hn Hl]];
        destruct (notifyStatus (detection s2)) as [d notes];
        cbn [fst snd detection with_detection] in *;
        rewrite statusNotes_app, Hquiet, Hn, Hl, Hdet; cbn; auto.
  - match goal with
    | |- context [notifyStatus ?d0] =>
      destruct (notifyStatus_notes d0) as [[Hn Hl] | [Hn Hl]];
        destruct (notifyStatus d0) as [d notes]
    end;
      cbn [fst snd detection with_detection] in *; rewrite Hn, Hl; cbn; auto.
Qed.

Lemma run_status_alternates (events : list Event) :
  forall s : HandControl,
    alternatesFrom (lastGestureDetectionStatus (detection s))
                   (statusNotes (concat (snd (run T s events)))).
Proof.
  induction events as [|e rest IH]; intros s; [exact I|].
  cbn [run].
  specialize (IH (fst (step T s e))).
  destruct (step_status s e) as [[Hn Hl] | [Hn Hl]];
    destruct (step T s e) as [s1 effects]; cbn [fst snd] in *;
    destruct (run T s1 rest) as [s2 log];
    cbn [fst snd concat] in *;
    rewrite statusNotes_app, Hn; rewrite Hl in IH.
  - exact IH.
  - cbn [app alternatesFrom]. split; [reflexivity | exact IH].
Qed.

(** X11: within a run of frames, cooldown timers and placed pieces the
    status notifications to the host alternate: each one is the negation of
    the one before it, and the first one is the negation of the field
    [lastGestureDetectionStatus] as the run finds it.  [resetCalibration]
    sets that field to false without notifying anything: in a run that
    starts from a reset the notifications alternate from false, so that the
    first one says detected, whatever the host was told last before the
    reset. *)
Theorem status_notifications_alternate :
  forall (events : list Event) (s : HandControl),
    alternatesFrom (lastGestureDetectionStatus (detection s))
                   (statusNotes (concat (snd (run T s events))))
    /\ forall t : Z,
        alternatesFrom false
          (statusNotes (concat (snd (run T (resetCalibration t s) events)))).
Proof.
  intros events s. split.
  - apply run_status_alternates.
  - intros t. apply (run_status_alternates events (resetCalibration t s)).
Qed.

End Rates.

(** ** The pace of the fast drop *)

Section FastDropPace.

Context {Game : Type} (T : TetrisGame Game).

Lemma dropPhase_paced (t : Z) (shaking : bool) (now : Z) (g : Game)
      (f : FastDrop) :
  pacedSince t f ->
  t <= now < t + fastDropInterval ->
  snd (dropPhase T shaking now g f) = []
  /\ pacedSince t (fst (fst (dropPhase T shaking now g f))).
Proof.
  intros [[Htrig Hlast] | Hreq] Hnow.
  - unfold dropPhase, executeFastDrop, fastDropTimer, trackCurrentPiece,
      pacedSince, requalifyingSince.
    unfold fastDropInterval in *.
    destruct (currentPiece T g) as [id|].
    + rewrite Htrig. cbn [negb andb].
      repeat (break_if; cbn [fst snd isFastDropTriggered lastFastDropTime
                             fastDropStartTime fastDropPieceId currentPieceId
                             orb andb negb] in *);
        try rewrite Htrig in *; try discriminate;
        try (exfalso; lia);
        (split; [reflexivity|]);
        first [ left; split; [first [assumption | reflexivity] | lia]
              | right; split; [reflexivity | first [left; reflexivity | lia]] ].
    + rewrite Htrig. cbn [negb andb].
      repeat (break_if; cbn [fst snd isFastDropTriggered lastFastDropTime
                             fastDropStartTime fastDropPieceId currentPieceId
                             orb andb negb] in *);
        try rewrite Htrig in *; try discriminate;
        try (exfalso; lia);
        (split; [reflexivity|]);
        first [ left; split; [first [assumption | reflexivity] | lia]
              | right; split; [reflexivity | first [left; reflexivity | lia]] ].
  - assert (Hwin : t <= now < t + fastDropTriggerDelay)
      by (unfold fastDropInterval, fastDropTriggerDelay in *; lia).
    destruct (dropPhase_requalifying T t shaking now g f Hreq Hwin) as [He Hr].
    split; [assumption | right; assumption].
Qed.

Lemma step_paced (t : Z) (s : HandControl) (e : Event) :
  pacedSince t (fastDrop s) ->
  (forall results now g,
      e = Frame results now g -> t <= now < t + fastDropInterval) ->
  dropStepCount (snd (step T s e)) = 0%nat
  /\ pacedSince t (fastDrop (fst (step T s e))).
Proof.
  intros Hinv Hnow.
  destruct e as [results now g| |]; cbn [step].
  - specialize (Hnow results now g eq_refl).
    pose proof (onResults_drop_cases T s results now g) as Hcases.
    destruct (onResults T s results now g) as [[s' g'] effects].
    cbn [fst snd] in *.
    destruct Hcases as [(Hf & Hd & _) | (Hf & Hd)].
    + rewrite Hf. auto.
    + rewrite Hf, Hd.
      destruct (dropPhase_paced t (isHeadShaking (headShake s')) now g
                                (fastDrop s) Hinv Hnow) as [He Hp].
      rewrite He. auto.
  - cbn. auto.
  - cbn. split; [reflexivity|]. right. split; auto.
Qed.

Lemma run_paced (t : Z) (events : list Event) :
  forall (s : HandControl) (t' : Z),
    t <= t' ->
    pacedSince t (fastDrop s) ->
    clocksFrom t' events ->
    dropStepsNotBefore (t + fastDropInterval) events (snd (run T s events)).
Proof.
  induction events as [|e rest IH]; intros s t' Hle Hinv Hclocks; [exact I|].
  destruct e as [results now g| |]; cbn [clocksFrom] in Hclocks.
  - destruct Hclocks as [Hnow Hclocks].
    destruct (Z.lt_ge_cases now (t + fastDropInterval)) as [Hearly | Hlate].
    + destruct (step_paced t s (Frame results now g) Hinv) as [Hnone Hinv1].
      { intros r n g0 Heq. injection Heq as _ Hn _. subst n. lia. }
      assert (Hle1 : t <= now) by lia.
      specialize (IH (fst (step T s (Frame results now g))) now Hle1 Hinv1
                     Hclocks).
      cbn [run].
      destruct (step T s (Frame results now g)) as [s1 effects].
      cbn [fst snd] in *.
      destruct (run T s1 rest) as [s2 log].
      cbn [snd dropStepsNotBefore] in *.
      split; [intros Hdrop; contradiction | assumption].
    + apply (dropSteps_late T (t + fastDropInterval)
                            (Frame results now g :: rest) s now);
        [lia | cbn [clocksFrom]; split; [lia | assumption]].
  - destruct (step_paced t s CooldownTimer Hinv) as [Hnone Hinv1];
      [intros r n g0 Heq; discriminate Heq|].
    specialize (IH (fst (step T s CooldownTimer)) t' Hle Hinv1 Hclocks).
    cbn [run]. destruct (step T s CooldownTimer) as [s1 effects].
    cbn [fst snd] in *.
    destruct (run T s1 rest) as [s2 log].
    cbn [snd dropStepsNotBefore] in *. split; assumption.
  - destruct (step_paced t s PiecePlaced Hinv) as [Hnone Hinv1];
      [intros r n g0 Heq; discriminate Heq|].
    specialize (IH (fst (step T s PiecePlaced)) t' Hle Hinv1 Hclocks).
    cbn [run]. destruct (step T s PiecePlaced) as [s1 effects].
    cbn [fst snd] in *.
    destruct (run T s1 rest) as [s2 log].
    cbn [snd dropStepsNotBefore] in *. split; assumption.
Qed.

(** A drop step that moved the piece leaves the controller armed and stamps
    it with the clock of the frame. *)
Lemma dropPhase_moved (shaking : bool) (now : Z) (g : Game) (f : FastDrop) :
  snd (dropPhase T shaking now g f) <> [] ->
  fst (movePiece T 0 1 g) = true ->
  isFastDropTriggered (fst (fst (dropPhase T shaking now g f))) = true
  /\ lastFastDropTime (fst (fst (dropPhase T shaking now g f))) = now.
Proof.
  unfold dropPhase.
  generalize (fastDropTimer shaking now (currentPiece T g)
                            (trackCurrentPiece (currentPiece T g) f)).
  intros f1 Hdrop Hmoved. revert Hdrop. unfold executeFastDrop.
  destruct (isFastDropTriggered f1) eqn:Htrig; cbn [andb];
    [|intros Hdrop; contradiction].
  repeat (break_if; cbn [fst snd]); try (intros Hdrop; contradiction).
  destruct (movePiece T 0 1 g) as [moved g1]. cbn [fst] in Hmoved.
  subst moved. cbn. auto.
Qed.

(** X12: after a frame whose fast-drop step moved the piece, no frame sends
    another drop step before 80 ms have passed, whatever the later frames
    show and whatever the game does meanwhile. *)
Theorem drop_steps_are_eighty_ms_apart :
  forall (s : HandControl) (results : Results) (now : Z) (g : Game)
         (events : list Event),
    dropStepCount (snd (onResults T s results now g)) <> 0%nat ->
    fst (movePiece T 0 1 g) = true ->
    clocksFrom now events ->
    dropStepsNotBefore (now + fastDropInterval) events
      (snd (run T (fst (fst (onResults T s results now g))) events)).
Proof.
  intros s results now g events Hdrop Hmoved Hclocks.
  apply (run_paced now events _ now); [lia | | assumption].
  pose proof (onResults_drop_cases T s results now g) as Hcases.
  destruct (onResults T s results now g) as [[s' g'] effects].
  cbn [fst snd] in *.
  destruct Hcases as [(_ & Hd & _) | (Hf & Hd)]; [contradiction|].
  rewrite Hf. rewrite Hd in Hdrop.
  destruct (dropPhase_moved (isHeadShaking (headShake s')) now g (fastDrop s))
    as [Htrig Hlast]; [|assumption|].
  - intros Hnil. rewrite Hnil in Hdrop. apply Hdrop. reflexivity.
  - left. split; [assumption | lia].
Qed.

(** X13: after [resetDropSpeed], the callback the game runs when a piece is
    placed, no drop step is sent before 500 ms have passed since the first
    later frame: the head shake has to requalify for the next piece. *)
Theorem placed_piece_requalifies_fast_drop :
  forall (s : HandControl) (events : list Event) (t : Z),
    clocksFrom t events ->
    dropStepsNotBefore (t + fastDropTriggerDelay) events
      (snd (run T (resetDropSpeed s) events)).
Proof.
  intros s events t Hclocks.
  apply (run_fast_drop_invariant T 0 t events (resetDropSpeed s) t);
    [lia | | assumption].
  right. split; [reflexivity | left; reflexivity].
Qed.


End FastDropPace.

(** ** A hand held up *)

Section HeldHand.

Context {Game : Type} (T : TetrisGame Game).

Lemma filter_isAction_app (a b : list Effect) :
  filter isAction (a ++ b) = filter isAction a ++ filter isAction b.
Proof. apply filter_app. Qed.

Lemma arbitrate_held (hand : Hand) (t : Z) (s : HandControl)
      (ls rs lw rw : Landmark) (now : Z) (g : Game) :
  heldSince hand t s ->
  onlyHandUp hand ls rs lw rw = true ->
  now < t + continuousMoveThreshold ->
  filter isAction (snd (arbitrate T s ls rs lw rw now g)) = []
  /\ heldSince hand t (fst (fst (arbitrate T s ls rs lw rw now g))).
Proof.
  intros (Hwas & Hmode & Hstart) Hup Hnow.
  assert (Hhold : (continuousMoveThreshold
                   <=? now - continuousMoveStartTime (continuous s)) = false)
    by (apply Z.leb_gt; lia).
  unfold arbitrate.
  match goal with
  | |- context [executeFastDrop T now g ?f] =>
    destruct (executeFastDrop_cases T now g f) as [[He _] | [He _]];
      destruct (executeFastDrop T now g f) as [[f' g'] dropEffects]
  end; cbn [fst snd] in He; subst dropEffects.
  all: unfold shouldRotate, areBothHandsUp, detectSingleHand,
       detectContinuousMove, continuousArm, heldSince.
  all: destruct hand; cbn [onlyHandUp wasHandUp] in Hup, Hwas;
    apply andb_prop in Hup; destruct Hup as [Hup Hother];
    apply negb_true_iff in Hother; rewrite Hup, Hother.
  all: cbn [handStateOf andb negb leftHandState rightHandState
            lastLeftHandState lastRightHandState bothHandsVisible isUp isDown
            HandState_eqb].
  all: rewrite ?andb_false_r; cbn [andb negb].
  all: rewrite Hwas; cbn [andb negb].
  all: rewrite Hhold, Hmode; cbn [andb negb dispatchAction fst snd app filter
                                  isAction hands continuous wasHandUp
                                  lastLeftHandState lastRightHandState wasUp
                                  leftHandState rightHandState].
  all: auto.
Qed.

Lemma step_held (hand : Hand) (t : Z) (s : HandControl) (e : Event) :
  heldSince hand t s ->
  holdsHandUntil hand (t + continuousMoveThreshold) e ->
  filter isAction (snd (step T s e)) = []
  /\ heldSince hand t (fst (step T s e)).
Proof.
  intros Hheld Hframe.
  destruct e as [results now g| |]; cbn [step];
    [|split; [reflexivity | exact Hheld]..].
  destruct Hframe as [Hnow Hshows].
  unfold onResults.
  destruct (hasPose results) as [landmarks|].
  - cbn [calibration with_detection]. break_if.
    + unfold calibrateBaseline.
      repeat (break_option; cbn [fst snd filter]; auto);
        repeat (break_if; cbn [fst snd filter]; auto).
    + match goal with
      | |- context [detectHandGestures T ?s1 landmarks now g] =>
        assert (Hheld1 : heldSince hand t s1) by exact Hheld;
          destruct (detectHandGestures_cases T s1 landmarks now g)
            as [[Heq _] | [(nose & _ & _ & Heq)
                          | (lw & rw & ls & rs & nose & Hfive & _ & Heq)]];
          rewrite Heq; clear Heq
      end.
      * match goal with
        | |- context [notifyStatus ?d0] =>
          pose proof (notifyStatus_no_game_call d0) as Hn;
            destruct (notifyStatus d0) as [d notes]
        end.
        cbn [fst snd app] in *. split; [|exact Hheld].
        apply (no_call_no_action notes Hn).
      * match goal with
        | |- context [notifyStatus ?d0] =>
          pose proof (notifyStatus_no_game_call d0) as Hn;
            destruct (notifyStatus d0) as [d notes]
        end.
        cbn [fst snd app] in *. split; [|exact Hheld].
        apply (no_call_no_action notes Hn).
      * rewrite Hfive in Hshows.
        match goal with
        | |- context [arbitrate T ?s2 ls rs lw rw now g] =>
          assert (Hheld2 : heldSince hand t s2) by exact Hheld;
            destruct (arbitrate_held hand t s2 ls rs lw rw now g Hheld2
                                     Hshows Hnow) as [Hquiet Hheld3];
            destruct (arbitrate T s2 ls rs lw rw now g) as [[s3 g3] effects]
        end.
        match goal with
        | |- context [notifyStatus ?d0] =>
          pose proof (notifyStatus_no_game_call d0) as Hn;
            destruct (notifyStatus d0) as [d notes]
        end.
        cbn [fst snd] in *. split; [|exact Hheld3].
        rewrite filter_isAction_app, Hquiet.
        apply (no_call_no_action notes Hn).
  - match goal with
    | |- context [notifyStatus ?d0] =>
      pose proof (notifyStatus_no_game_call d0) as Hn;
        destruct (notifyStatus d0) as [d notes]
    end.
    cbn [fst snd] in *. split; [|exact Hheld].
    apply (no_call_no_action notes Hn).
Qed.

(** X15: a hand held up alone does not move the piece again before the
    800 ms of the hold have passed: from the state its going up leaves, as
    long as the frames show that hand up and the other one down, no frame
    before [t + 800] moves the piece to a side or rotates it. *)
Theorem held_hand_waits_for_the_hold :
  forall (hand : Hand) (t : Z) (events : list Event) (s : HandControl),
    heldSince hand t s ->
    Forall (holdsHandUntil hand (t + continuousMoveThreshold)) events ->
    filter isAction (concat (snd (run T s events))) = []
    /\ heldSince hand t (fst (run T s events)).
Proof.
  intros hand t events. induction events as [|e rest IH]; intros s Hheld Hall.
  - cbn. auto.
  - inversion Hall as [|e0 rest0 He Hrest]; subst.
    destruct (step_held hand t s e Hheld He) as [Hquiet Hheld1].
    specialize (IH (fst (step T s e)) Hheld1 Hrest).
    cbn [run]. destruct (step T s e) as [s1 effects]. cbn [fst snd] in *.
    destruct (run T s1 rest) as [s2 log]. cbn [fst snd concat] in *.
    rewrite filter_isAction_app, Hquiet. exact IH.
Qed.

End HeldHand.

(** * The leaderboard *)

Section LeaderboardProperties.

Import Leaderboard.

Lemma insertByScore_perm (e : Entry) (l : list Entry) :
  Permutation (e :: l) (insertByScore e l).
Proof.
  induction l as [|e' rest IH]; cbn [insertByScore]; [apply Permutation_refl|].
  destruct (score e <? score e'); [|apply Permutation_refl].
  apply perm_trans with (e' :: e :: rest); [apply perm_swap|].
  apply perm_skip. exact IH.
Qed.

Lemma sortByScore_perm (l : list Entry) : Permutation l (sortByScore l).
Proof.
  induction l as [|e rest IH]; cbn [sortByScore fold_right];
    [apply perm_nil|].
  apply perm_trans with (e :: sortByScore rest);
    [apply perm_skip; exact IH | apply insertByScore_perm].
Qed.

Lemma insertByScore_descending (e : Entry) (l : list Entry) :
  descending l -> descending (insertByScore e l).
Proof.
  induction l as [|e' rest IH]; intros Hl; cbn [insertByScore].
  - cbn. split; [intros e0 []| exact I].
  - destruct Hl as [Hhead Hrest].
    destruct (score e <? score e') eqn:Hlt.
    + apply Z.ltb_lt in Hlt. cbn [descending]. split; [|apply IH; exact Hrest].
      intros e0 Hin.
      apply (Permutation_in _ (Permutation_sym (insertByScore_perm e rest)))
        in Hin.
      destruct Hin as [<- | Hin]; [lia | apply Hhead; exact Hin].
    + apply Z.ltb_ge in Hlt. cbn [descending]. repeat split; auto.
      intros e0 [<- | Hin]; [exact Hlt|].
      specialize (Hhead e0 Hin). lia.
Qed.

Lemma sortByScore_descending (l : list Entry) : descending (sortByScore l).
Proof.
  induction l as [|e rest IH]; cbn [sortByScore fold_right]; [exact I|].
  apply insertByScore_descending. exact IH.
Qed.

Lemma insertByScore_sorted (e : Entry) (l : list Entry) :
  (forall e', In e' l -> score e' <= score e) ->
  insertByScore e l = e :: l.
Proof.
  destruct l as [|e' rest]; intros Hall; cbn [insertByScore]; [reflexivity|].
  specialize (Hall e' (or_introl eq_refl)).
  destruct (score e <? score e') eqn:Hlt; [|reflexivity].
  apply Z.ltb_lt in Hlt. lia.
Qed.

Lemma sortByScore_sorted (l : list Entry) :
  descending l -> sortByScore l = l.
Proof.
  induction l as [|e rest IH]; intros Hl; [reflexivity|].
  destruct Hl as [Hhead Hrest].
  cbn [sortByScore fold_right]. fold (sortByScore rest).
  rewrite (IH Hrest). apply insertByScore_sorted. exact Hhead.
Qed.

Lemma descending_firstn (n : nat) (l : list Entry) :
  descending l -> descending (firstn n l).
Proof.
  revert l. induction n as [|n IH]; intros l Hl; [exact I|].
  destruct l as [|e rest]; [exact I|].
  destruct Hl as [Hhead Hrest]. cbn [firstn descending].
  split; [|apply IH; exact Hrest].
  intros e' Hin. apply Hhead. revert Hin. clear.
  revert rest. induction n as [|n IHn]; intros rest Hin; [destruct Hin|].
  destruct rest as [|e0 rest]; [destruct Hin|].
  destruct Hin as [<- | Hin]; [left; reflexivity | right; apply IHn; exact Hin].
Qed.

Lemma countAtLeast_perm (v : Z) (a b : list Entry) :
  Permutation a b -> countAtLeast v a = countAtLeast v b.
Proof.
  intros Hperm. unfold countAtLeast.
  induction Hperm as [|e a b _ IH|e e' a|a b c _ IH1 _ IH2]; cbn [filter].
  - reflexivity.
  - destruct (v <=? score e); cbn [List.length]; rewrite IH; reflexivity.
  - destruct (v <=? score e), (v <=? score e'); reflexivity.
  - rewrite IH1. exact IH2.
Qed.

Lemma countAtLeast_app (v : Z) (a b : list Entry) :
  countAtLeast v (a ++ b) = (countAtLeast v a + countAtLeast v b)%nat.
Proof. unfold countAtLeast. rewrite filter_app, length_app. reflexivity. Qed.

(** In a descending list the entries that score at least [v] come first. *)
Lemma descending_nth (v : Z) (l : list Entry) :
  descending l ->
  forall k : nat,
    (k < countAtLeast v l)%nat
    <-> exists e, nth_error l k = Some e /\ v <= score e.
Proof.
  induction l as [|e rest IH]; intros Hl k.
  - cbn. split; [lia|]. intros (e & He & _). destruct k; discriminate He.
  - destruct Hl as [Hhead Hrest]. specialize (IH Hrest).
    unfold countAtLeast in *. cbn [filter].
    destruct (v <=? score e) eqn:Hv.
    + apply Z.leb_le in Hv. cbn [List.length].
      destruct k as [|k]; cbn [nth_error].
      * split; [intros _; exists e; auto | lia].
      * rewrite <- IH. lia.
    + apply Z.leb_gt in Hv.
      assert (Hnone : filter (fun e0 => v <=? score e0) rest = []).
      { clear IH. induction rest as [|e0 rest IHr]; [reflexivity|].
        cbn [filter].
        assert (Hlow : (v <=? score e0) = false).
        { apply Z.leb_gt. specialize (Hhead e0 (or_introl eq_refl)). lia. }
        rewrite Hlow. apply IHr.
        - intros e1 Hin. apply Hhead. right. exact Hin.
        - destruct Hrest as [_ Hrest]. exact Hrest. }
      rewrite Hnone. cbn [List.length]. split; [lia|].
      intros (e0 & He0 & Hle). exfalso.
      destruct k as [|k]; cbn [nth_error] in He0.
      * injection He0 as <-. lia.
      * apply nth_error_In in He0. specialize (Hhead e0 He0). lia.
Qed.

(** The test [sorted.length < 3 || finalScore > sorted[2].score], read on
    the leaderboard as it is stored. *)
Lemma isTopScore_count (v : Z) (l : list Entry) :
  (List.length (sortByScore l) <? 3)%nat
  || match nth_error (sortByScore l) 2 with
     | Some third => score third <? v
     | None => false
     end = true
  <-> (countAtLeast v l < 3)%nat.
Proof.
  rewrite (countAtLeast_perm v l (sortByScore l) (sortByScore_perm l)).
  pose proof (descending_nth v (sortByScore l) (sortByScore_descending l) 2)
    as Hnth.
  destruct (nth_error (sortByScore l) 2) as [third|] eqn:Hthird.
  - assert (Hlen : (List.length (sortByScore l) <? 3)%nat = false).
    { apply Nat.ltb_ge.
      assert (Hsome : nth_error (sortByScore l) 2 <> None) by congruence.
      apply nth_error_Some in Hsome. lia. }
    rewrite Hlen. cbn [orb]. rewrite Z.ltb_lt. split.
    + intros Hlt.
      destruct (Nat.lt_ge_cases (countAtLeast v (sortByScore l)) 3)
        as [Hfew | Hmany]; [exact Hfew | exfalso].
      assert (Hge : (2 < countAtLeast v (sortByScore l))%nat) by lia.
      apply Hnth in Hge. destruct Hge as (e & He & Hle).
      injection He as <-. lia.
    + intros Hcount. apply Z.nle_gt. intros Hle.
      assert (Hge : (2 < countAtLeast v (sortByScore l))%nat)
        by (apply Hnth; exists third; auto).
      lia.
  - apply nth_error_None in Hthird.
    assert (Hlen : (List.length (sortByScore l) <? 3)%nat = true)
      by (apply Nat.ltb_lt; lia).
    rewrite Hlen. cbn [orb]. split; [intros _|reflexivity].
    unfold countAtLeast.
    pose proof (filter_length_le (fun e => v <=? score e) (sortByScore l)).
    lia.
Qed.

Lemma descending_app (a b : list Entry) :
  descending (a ++ b) ->
  descending a
  /\ forall e e', In e a -> In e' b -> score e' <= score e.
Proof.
  induction a as [|e0 a IH]; cbn [app descending].
  - intros _. split; [exact I | intros e e' []].
  - intros [Hhead Hrest]. destruct (IH Hrest) as [Ha Hab].
    split; [split; [|exact Ha]|].
    + intros e' Hin. apply Hhead. apply in_or_app. left. exact Hin.
    + intros e e' [<- | Hin] Hin'.
      * apply Hhead. apply in_or_app. right. exact Hin'.
      * apply Hab; assumption.
Qed.

Lemma playerNameOf_not_empty (answer : option String.string) :
  playerNameOf answer <> String.EmptyString.
Proof. destruct answer as [[|c s]|]; cbn; discriminate. Qed.

Lemma score_rank_helper (v : Z) (answer : option String.string)
      (l : list Entry) :
  (snd (checkAndUpdateLeaderboard v answer l) = true
   <-> (countAtLeast v l < 3)%nat)
  /\ (snd (checkAndUpdateLeaderboard v answer l) = false ->
      fst (checkAndUpdateLeaderboard v answer l) = l).
Proof.
  pose proof (isTopScore_count v l) as Htop.
  unfold checkAndUpdateLeaderboard.
  destruct ((List.length (sortByScore l) <? 3)%nat
            || match nth_error (sortByScore l) 2 with
               | Some third => score third <? v
               | None => false
               end); cbn [fst snd].
  - split; [|discriminate]. split; [intros _; apply Htop; reflexivity|auto].
  - split; [|reflexivity]. split; [discriminate|].
    intros Hfew. apply Htop in Hfew. discriminate Hfew.
Qed.

(** X16: [checkAndUpdateLeaderboard] returns true exactly when fewer than
    three stored entries score at least the final score: a score equal to
    the third best one does not enter.  When it returns false the
    leaderboard is left as it was. *)
Theorem score_enters_iff_fewer_than_three_match :
  forall (finalScore : Z) (answer : option String.string)
         (leaderboard : list Entry),
    (snd (checkAndUpdateLeaderboard finalScore answer leaderboard) = true
     <-> (countAtLeast finalScore leaderboard < 3)%nat)
    /\ (snd (checkAndUpdateLeaderboard finalScore answer leaderboard) = false ->
        fst (checkAndUpdateLeaderboard finalScore answer leaderboard)
        = leaderboard).
Proof. intros v answer l. apply score_rank_helper. Qed.

(** The new entry lands among the first three of the sorted leaderboard. *)
Lemma new_entry_rank (v : Z) (e : Entry) (l : list Entry) :
  score e = v ->
  (countAtLeast v l < 3)%nat ->
  exists k : nat,
    (k < 3)%nat /\ nth_error (sortByScore (l ++ [e])) k = Some e.
Proof.
  intros He Hfew.
  pose proof (sortByScore_perm (l ++ [e])) as Hperm.
  pose proof (sortByScore_descending (l ++ [e])) as Hdesc.
  assert (Hin : In e (sortByScore (l ++ [e]))).
  { apply (Permutation_in _ Hperm). apply in_or_app. right. left. reflexivity. }
  assert (Hcount : countAtLeast v (sortByScore (l ++ [e]))
                   = S (countAtLeast v l)).
  { rewrite <- (countAtLeast_perm v _ _ Hperm), countAtLeast_app.
    unfold countAtLeast at 2. cbn [filter].
    assert (Hv : (v <=? score e) = true) by (apply Z.leb_le; lia).
    rewrite Hv. cbn. lia. }
  destruct (in_split _ _ Hin) as (before & after & Hsplit).
  rewrite Hsplit in Hdesc, Hcount |- *.
  destruct (descending_app before (e :: after) Hdesc) as [_ Hfront].
  assert (Hall : countAtLeast v before = List.length before).
  { unfold countAtLeast. clear - Hfront He.
    induction before as [|e0 before IH]; [reflexivity|].
    cbn [filter].
    assert (Hv : (v <=? score e0) = true).
    { apply Z.leb_le. rewrite <- He.
      apply Hfront; left; reflexivity. }
    rewrite Hv. cbn [List.length]. f_equal. apply IH.
    intros e1 e' Hin1 Hin'. apply Hfront; [right; exact Hin1 | exact Hin']. }
  exists (List.length before). split.
  - rewrite countAtLeast_app, Hall in Hcount.
    unfold countAtLeast in Hcount at 1. cbn [filter] in Hcount.
    assert (Hv : (v <=? score e) = true) by (apply Z.leb_le; lia).
    rewrite Hv in Hcount. cbn [List.length] in Hcount. lia.
  - rewrite nth_error_app2 by lia. rewrite Nat.sub_diag. reflexivity.
Qed.

Lemma In_of_firstn {A : Type} (n : nat) (a : A) (l : list A) :
  In a (firstn n l) -> In a l.
Proof.
  revert l. induction n as [|n IH]; intros l Hin; [destruct Hin|].
  destruct l as [|a0 l]; [destruct Hin|].
  destruct Hin as [<- | Hin]; [left; reflexivity | right; apply IH; exact Hin].
Qed.

Lemma nth_error_firstn_lt {A : Type} (n k : nat) (l : list A) :
  (k < n)%nat -> nth_error (firstn n l) k = nth_error l k.
Proof.
  revert k l. induction n as [|n IH]; intros k l Hlt; [lia|].
  destruct l as [|a l]; [reflexivity|].
  destruct k as [|k]; [reflexivity|].
  cbn [firstn nth_error]. apply IH. lia.
Qed.

(** X17: when [checkAndUpdateLeaderboard] returns true, the leaderboard it
    leaves is sorted by descending score and holds the old entries and the
    new one, cut to ten; the new entry, whose name is never empty, is among
    its first three, so the display shows it. *)
Theorem accepted_score_is_displayed :
  forall (finalScore : Z) (answer : option String.string)
         (leaderboard : list Entry),
    snd (checkAndUpdateLeaderboard finalScore answer leaderboard) = true ->
    let entry := mkEntry (playerNameOf answer) finalScore in
    let leaderboard' :=
      fst (checkAndUpdateLeaderboard finalScore answer leaderboard) in
    descending leaderboard'
    /\ List.length leaderboard' = Nat.min 10 (S (List.length leaderboard))
    /\ (forall e, In e leaderboard' -> e = entry \/ In e leaderboard)
    /\ (exists k : nat, (k < 3)%nat /\ nth_error leaderboard' k = Some entry)
    /\ In entry (topThree leaderboard')
    /\ name entry <> String.EmptyString.
Proof.
  intros v answer l Htrue entry board'.
  destruct (score_rank_helper v answer l) as [Hiff _].
  assert (Hfew : (countAtLeast v l < 3)%nat) by (apply Hiff; exact Htrue).
  assert (Hboard : board' = firstn 10 (sortByScore (l ++ [entry]))).
  { subst board' entry. revert Htrue. unfold checkAndUpdateLeaderboard.
    destruct ((List.length (sortByScore l) <? 3)%nat
              || match nth_error (sortByScore l) 2 with
                 | Some third => score third <? v
                 | None => false
                 end); cbn [fst snd]; [reflexivity | discriminate]. }
  assert (Hdesc : descending board').
  { rewrite Hboard. apply descending_firstn, sortByScore_descending. }
  destruct (new_entry_rank v entry l eq_refl Hfew) as (k & Hk & Hnth).
  assert (Hnth' : nth_error board' k = Some entry).
  { rewrite Hboard, nth_error_firstn_lt by lia. exact Hnth. }
  split; [exact Hdesc|]. split.
  { rewrite Hboard, length_firstn.
    rewrite <- (Permutation_length (sortByScore_perm (l ++ [entry]))).
    rewrite length_app. cbn [List.length]. lia. }
  split.
  { intros e Hin. rewrite Hboard in Hin. apply In_of_firstn in Hin.
    apply (Permutation_in _ (Permutation_sym (sortByScore_perm _))) in Hin.
    apply in_app_or in Hin. destruct Hin as [Hin | [<- | []]]; auto. }
  split; [exists k; auto|]. split.
  - unfold topThree. rewrite (sortByScore_sorted board' Hdesc).
    apply in_or_app. left.
    apply (nth_error_In _ k). rewrite nth_error_firstn_lt by lia. exact Hnth'.
  - apply playerNameOf_not_empty.
Qed.

(** X18: the display always has three rows, and it leaves out no entry that
    beats a row it shows: an entry of the leaderboard is shown, or it scores
    no more than every row. *)
Theorem top_three_shows_the_best :
  forall leaderboard : list Entry,
    List.length (topThree leaderboard) = 3%nat
    /\ forall e : Entry,
        In e leaderboard ->
        In e (topThree leaderboard)
        \/ forall row : Entry, In row (topThree leaderboard) ->
                               score e <= score row.
Proof.
  intros l. unfold topThree.
  pose proof (sortByScore_perm l) as Hperm.
  pose proof (sortByScore_descending l) as Hdesc.
  set (sorted := sortByScore l) in *.
  split.
  - rewrite length_app, repeat_length, length_firstn. lia.
  - intros e Hin. apply (Permutation_in _ Hperm) in Hin.
    rewrite <- (firstn_skipn 3 sorted) in Hin, Hdesc.
    apply in_app_or in Hin. destruct Hin as [Hin | Hin].
    + left. apply in_or_app. left. exact Hin.
    + right. intros row Hrow.
      assert (Hfull : List.length (firstn 3 sorted) = 3%nat).
      { rewrite length_firstn.
        destruct (Nat.lt_ge_cases (List.length sorted) 3) as [Hshort|]; [|lia].
        rewrite skipn_all2 in Hin by lia. destruct Hin. }
      rewrite Hfull in Hrow. cbn [Nat.sub repeat] in Hrow.
      rewrite app_nil_r in Hrow.
      destruct (descending_app _ _ Hdesc) as [_ Hfront].
      apply (Hfront row e Hrow Hin).
Qed.

End LeaderboardProperties.

(** * Pausing and resuming *)

Section HostProperties.

Import Host.

Lemma hostRun_snoc (flag : bool) (events : list HostEvent) (e : HostEvent) :
  hostRun flag (events ++ [e]) = fst (hostStep (hostRun flag events) e).
Proof. unfold hostRun. rewrite fold_left_app. reflexivity. Qed.

(** When the flag is set, it is the engine's doing: the camera paused a
    running game, and nothing but lost-status changes and automatic starts
    that started nothing came since; or the flag was set from the start. *)
Lemma flag_set_by_camera (events : list HostEvent) :
  forall flag : bool,
    hostRun flag events = true ->
    (flag = true /\ Forall keepsCameraPause events)
    \/ exists before after,
        events = before ++ StatusChange false true :: after
        /\ hostRun flag before = false
        /\ Forall keepsCameraPause after.
Proof.
  induction events as [|e rest IH] using rev_ind; intros flag Hset.
  - left. split; [exact Hset | constructor].
  - rewrite hostRun_snoc in Hset.
    assert (Hkeep : forall e0,
               e0 = e -> keepsCameraPause e0 ->
               hostRun flag rest = true ->
               (flag = true /\ Forall keepsCameraPause (rest ++ [e]))
               \/ exists before after,
                   rest ++ [e] = before ++ StatusChange false true :: after
                   /\ hostRun flag before = false
                   /\ Forall keepsCameraPause after).
    { intros e0 -> He Hrest.
      destruct (IH flag Hrest) as [[Hflag Hall] | (before & after & -> & Hb & Hall)].
      - left. split; [exact Hflag|].
        apply Forall_app. split; [exact Hall | constructor; [exact He | constructor]].
      - right. exists before, (after ++ [e]). split; [|split; [exact Hb|]].
        + rewrite <- app_assoc. reflexivity.
        + apply Forall_app. split; [exact Hall | constructor; [exact He | constructor]]. }
    destruct e as [isDetected gameRunning| |gameRunning raised];
      cbn [hostStep] in Hset.
    + unfold onGestureStatusChangeCallback in Hset.
      destruct isDetected.
      * destruct (hostRun flag rest); discriminate Hset.
      * destruct (hostRun flag rest) eqn:Hrest.
        -- apply (Hkeep _ eq_refl); reflexivity.
        -- destruct gameRunning; [|discriminate Hset].
           right. exists rest, []. split; [reflexivity|].
           split; [exact Hrest | constructor].
    + discriminate Hset.
    + unfold startGameAutomatically in Hset.
      destruct gameRunning; [apply (Hkeep _ eq_refl); [reflexivity | exact Hset]|].
      destruct raised; [apply (Hkeep _ eq_refl); [reflexivity | exact Hset]|].
      discriminate Hset.
Qed.

(** X19: the status callback resumes only a game the camera paused.  When
    a status change to detected calls [start()], then before it the callback
    itself paused a running game on a status change to lost, and since then
    the user did not click pause and no automatic start started the game --
    or the flag was already set when the events began. *)
Theorem camera_resumes_only_its_own_pause :
  forall (flag : bool) (events : list HostEvent) (gameRunning : bool),
    snd (hostStep (hostRun flag events) (StatusChange true gameRunning))
    = [CallStart] ->
    (flag = true /\ Forall keepsCameraPause events)
    \/ exists before after,
        events = before ++ StatusChange false true :: after
        /\ snd (hostStep (hostRun flag before) (StatusChange false true))
           = [CallPause]
        /\ Forall keepsCameraPause after.
Proof.
  intros flag events gameRunning Hstart.
  cbn [hostStep] in Hstart. unfold onGestureStatusChangeCallback in Hstart.
  destruct (hostRun flag events) eqn:Hset; [|discriminate Hstart].
  destruct (flag_set_by_camera events flag Hset)
    as [Hinit | (before & after & Hsplit & Hb & Hall)]; [left; exact Hinit|].
  right. exists before, after. split; [exact Hsplit|]. split; [|exact Hall].
  cbn [hostStep]. unfold onGestureStatusChangeCallback. rewrite Hb. reflexivity.
Qed.

End HostProperties.

(** * The further properties on sample runs *)

Section FurtherSampleRuns.

Import Scenario.
Import Cases.

Lemma head_shake_needs_thirty_one_frames_witness :
  isHeadShaking (headFeed (oscillation 31) emptyHead) = true
  /\ (31 <= length (oscillation 31))%nat.
Proof.
  assert (Hshake : isHeadShaking (headFeed (oscillation 31) emptyHead) = true)
    by (vm_compute; reflexivity).
  exact (conj Hshake
              (proj2 (head_shake_needs_thirty_one_frames (oscillation 31))
                     Hshake)).
Defined.

Lemma uncalibrated_frame_is_quiet_witness :
  calibrated started = false
  /\ gameCalls (snd (onResults simpleGame started bothUp t0 (playing 1))) = [].
Proof.
  assert (Hcal : calibrated started = false) by (vm_compute; reflexivity).
  exact (conj Hcal
              (proj2 (proj2 (uncalibrated_frame_is_quiet
                               simpleGame started bothUp t0 (playing 1)
                               (or_intror Hcal))))).
Defined.

Lemma baseline_frozen_after_calibration_witness :
  maxCalibrationFrames <= calibrationFrames (calibration afterCalibration)
  /\ baseline (fst (run simpleGame afterCalibration
                        (frames 5 t1 leftUp (playing 1))))
     = baseline afterCalibration.
Proof.
  assert (Hdone : maxCalibrationFrames
                  <= calibrationFrames (calibration afterCalibration))
    by (vm_compute; discriminate).
  exact (conj Hdone
              (proj1 (baseline_frozen_after_calibration
                        simpleGame afterCalibration
                        (frames 5 t1 leftUp (playing 1)) Hdone))).
Defined.

Lemma null_baseline_never_calls_game_witness :
  maxCalibrationFrames <= calibrationFrames (calibration blind)
  /\ calibrated blind = false
  /\ gameCalls (concat (snd (run simpleGame blind
                                 (frames 5 tRaise bothUp (playing 1))))) = [].
Proof.
  assert (Hdone : maxCalibrationFrames <= calibrationFrames (calibration blind))
    by (vm_compute; discriminate).
  assert (Hnull : calibrated blind = false) by (vm_compute; reflexivity).
  exact (conj Hdone
           (conj Hnull
              (null_baseline_never_calls_game
                 simpleGame blind (frames 5 tRaise bothUp (playing 1))
                 Hdone Hnull))).
Defined.

Lemma no_game_call_before_thirty_poses_witness :
  (length (filter isPoseFrame (frames 30 t0 bothUp (playing 1%Z))) <= 30)%nat
  /\ gameCalls
       (concat (snd (run simpleGame (resetCalibration t0 (newHandControl t0))
                         (frames 30 t0 bothUp (playing 1))))) = [].
Proof.
  assert (Hfew : (length (filter isPoseFrame
                                 (frames 30 t0 bothUp (playing 1%Z)))
                  <= 30)%nat)
    by (apply Nat.leb_le; vm_compute; reflexivity).
  exact (conj Hfew
              (no_game_call_before_thirty_poses
                 simpleGame t0 (newHandControl t0)
                 (frames 30 t0 bothUp (playing 1)) Hfew)).
Defined.

Lemma no_game_call_during_cooldown_witness :
  tRaise <= lastActionTime (debounce afterLeftRaise)
  /\ gameCallsNotBefore
       (tRaise + actionCooldown) (frames 4 (tRaise + 33) bothUp (playing 1))
       (snd (run simpleGame afterLeftRaise
                 (frames 4 (tRaise + 33) bothUp (playing 1)))).
Proof.
  assert (Hlast : tRaise <= lastActionTime (debounce afterLeftRaise))
    by (vm_compute; discriminate).
  exact (conj Hlast
              (no_game_call_during_cooldown
                 simpleGame tRaise (frames 4 (tRaise + 33) bothUp (playing 1))
                 afterLeftRaise Hlast)).
Defined.

Lemma drop_steps_are_eighty_ms_apart_witness :
  dropStepCount (snd (onResults simpleGame armed (shakeAt 60) tChange
                                (playing 1))) <> 0%nat
  /\ fst (movePiece simpleGame 0 1 (playing 1)) = true
  /\ clocksFrom tChange (shaking 2 61 (tChange + 33) (playing 1))
  /\ dropStepsNotBefore
       (tChange + fastDropInterval) (shaking 2 61 (tChange + 33) (playing 1))
       (snd (run simpleGame
                 (fst (fst (onResults simpleGame armed (shakeAt 60) tChange
                                      (playing 1))))
                 (shaking 2 61 (tChange + 33) (playing 1)))).
Proof.
  assert (Hdrop : dropStepCount
                    (snd (onResults simpleGame armed (shakeAt 60) tChange
                                    (playing 1))) <> 0%nat)
    by (vm_compute; discriminate).
  assert (Hmoved : fst (movePiece simpleGame 0 1 (playing 1)) = true)
    by reflexivity.
  assert (Hclocks : clocksFrom tChange
                               (shaking 2 61 (tChange + 33) (playing 1)))
    by (apply clocksFrom_shaking; lia).
  exact (conj Hdrop
           (conj Hmoved
              (conj Hclocks
                 (drop_steps_are_eighty_ms_apart
                    simpleGame armed (shakeAt 60) tChange (playing 1)
                    (shaking 2 61 (tChange + 33) (playing 1))
                    Hdrop Hmoved Hclocks)))).
Defined.

Lemma placed_piece_requalifies_fast_drop_witness :
  clocksFrom tChange (shaking 3 60 tChange (playing 2))
  /\ dropStepsNotBefore
       (tChange + fastDropTriggerDelay) (shaking 3 60 tChange (playing 2))
       (snd (run simpleGame (resetDropSpeed armed)
                 (shaking 3 60 tChange (playing 2)))).
Proof.
  assert (Hclocks : clocksFrom tChange (shaking 3 60 tChange (playing 2)))
    by (apply clocksFrom_shaking; lia).
  exact (conj Hclocks
              (placed_piece_requalifies_fast_drop
                 simpleGame armed (shaking 3 60 tChange (playing 2)) tChange
                 Hclocks)).
Defined.


Lemma held_hand_waits_for_the_hold_witness :
  heldSince LeftHand tRaise afterLeftRaise
  /\ Forall (holdsHandUntil LeftHand (tRaise + continuousMoveThreshold))
            (frames 10 (tRaise + 33) leftUp (playing 1))
  /\ filter isAction
       (concat (snd (run simpleGame afterLeftRaise
                         (frames 10 (tRaise + 33) leftUp (playing 1))))) = [].
Proof.
  assert (Hheld : heldSince LeftHand tRaise afterLeftRaise)
    by (repeat split; vm_compute; reflexivity).
  assert (Hall : Forall (holdsHandUntil LeftHand
                                        (tRaise + continuousMoveThreshold))
                        (frames 10 (tRaise + 33) leftUp (playing 1)))
    by (repeat (apply Forall_cons;
                [split; [vm_compute; reflexivity | vm_compute; reflexivity]|]);
        apply Forall_nil).
  exact (conj Hheld
           (conj Hall
              (proj1 (held_hand_waits_for_the_hold
                        simpleGame LeftHand tRaise
                        (frames 10 (tRaise + 33) leftUp (playing 1))
                        afterLeftRaise Hheld Hall)))).
Defined.

(** The alternation stops at a reset: the first frame after calibration
    notifies detected, and after [resetCalibration] and a second calibration
    the host is told detected again, with nothing in between. *)
Lemma status_repeated_across_reset :
  let session (s : HandControl) (t : Z) :=
    run simpleGame (resetCalibration t s) (frames 31 t handsDown (playing 1)) in
  statusNotes (concat (snd (session (newHandControl t0) t0))) = [true]
  /\ lastGestureDetectionStatus
       (detection (fst (session (newHandControl t0) t0))) = true
  /\ statusNotes
       (concat (snd (session (fst (session (newHandControl t0) t0)) t1)))
     = [true].
Proof. cbv zeta. repeat split; vm_compute; reflexivity. Qed.

End FurtherSampleRuns.

Section LeaderboardSamples.

Import Leaderboard.

Lemma score_enters_iff_fewer_than_three_match_witness :
  (countAtLeast 3000 defaultLeaderboard < 3)%nat
  /\ snd (checkAndUpdateLeaderboard 3000 None defaultLeaderboard) = true.
Proof.
  assert (Hfew : (countAtLeast 3000 defaultLeaderboard < 3)%nat)
    by (apply Nat.ltb_lt; vm_compute; reflexivity).
  exact (conj Hfew
              (proj2 (proj1 (score_enters_iff_fewer_than_three_match
                               3000 None defaultLeaderboard)) Hfew)).
Defined.

Lemma accepted_score_is_displayed_witness :
  snd (checkAndUpdateLeaderboard 3000 None defaultLeaderboard) = true
  /\ In (mkEntry (playerNameOf None) 3000)
        (topThree (fst (checkAndUpdateLeaderboard 3000 None
                                                  defaultLeaderboard))).
Proof.
  assert (Htrue : snd (checkAndUpdateLeaderboard 3000 None defaultLeaderboard)
                  = true) by (vm_compute; reflexivity).
  pose proof (accepted_score_is_displayed 3000 None defaultLeaderboard Htrue)
    as Hall.
  cbv zeta in Hall.
  exact (conj Htrue (proj1 (proj2 (proj2 (proj2 (proj2 Hall)))))).
Defined.

Lemma top_three_shows_the_best_witness :
  In waveControl defaultLeaderboard
  /\ (In waveControl (topThree defaultLeaderboard)
      \/ forall row : Entry, In row (topThree defaultLeaderboard) ->
                             score waveControl <= score row).
Proof.
  assert (Hin : In waveControl defaultLeaderboard)
    by (right; right; left; reflexivity).
  exact (conj Hin
              (proj2 (top_three_shows_the_best defaultLeaderboard)
                     waveControl Hin)).
Defined.

End LeaderboardSamples.

Section HostSamples.

Import Host.

Lemma camera_resumes_only_its_own_pause_witness :
  snd (hostStep (hostRun false [StatusChange false true;
                                StatusChange false false])
                (StatusChange true false)) = [CallStart]
  /\ ((false = true
       /\ Forall keepsCameraPause
                 [StatusChange false true; StatusChange false false])
      \/ exists before after,
          [StatusChange false true; StatusChange false false]
          = before ++ StatusChange false true :: after
          /\ snd (hostStep (hostRun false before) (StatusChange false true))
             = [CallPause]
          /\ Forall keepsCameraPause after).
Proof.
  assert (Hstart : snd (hostStep (hostRun false [StatusChange false true;
                                                 StatusChange false false])
                                 (StatusChange true false)) = [CallStart])
    by reflexivity.
  exact (conj Hstart
              (camera_resumes_only_its_own_pause
                 false [StatusChange false true; StatusChange false false]
                 false Hstart)).
Defined.

End HostSamples.
